(** * edgar_companyconcept: a shallow embedding of [utils.py]

    The development follows the layout of [utils.py]: the Python values the
    module manipulates (exceptions, floats, [datetime], the dataclasses), the
    general utilities ([format_value_as_readable]), the filings utilities
    ([get_filing]) and the statement utilities ([sort_statements_by_date],
    [get_statement_data], [extract_context], [extract_tags], [get_xml]).

    Python [str] values are modelled as Rocq strings of 8-bit characters;
    Python [int] is [Z]; a function that may raise returns a [result], and
    one that talks to the network threads the state of the world.  The
    decoded JSON payloads are records: a body that is not JSON, or not of
    the shape the code indexes, is an exception of the decoder. *)

From Stdlib Require Import ZArith Lia List String Ascii Bool DecimalString.
From Stdlib Require Import DecimalN.
From Stdlib Require Import Sorting.Sorted Sorting.Permutation.
From stdpp Require Import base option list gmap strings sets.

Local Open Scope Z_scope.

(** ** Python exceptions and the error monad *)

Inductive exn : Type :=
  | IndexError | ValueError | OverflowError | AttributeError
  | SyntaxError | KeyError | ParseError | JSONDecodeError.

Inductive result (A : Type) : Type :=
  | Ok (a : A)
  | Raise (e : exn).
Arguments Ok {A} a.
Arguments Raise {A} e.

#[global] Instance result_ret : MRet result := fun A a => Ok a.
#[global] Instance result_bind : MBind result := fun A B f r =>
  match r with Ok a => f a | Raise e => Raise e end.
#[global] Instance result_fmap : FMap result := fun A B f r =>
  match r with Ok a => Ok (f a) | Raise e => Raise e end.

Definition is_Ok {A} (r : result A) : Prop := exists a, r = Ok a.

(** ** Python floats (IEEE 754 binary64) as exact dyadic numbers

    A finite float is [f_mant * 2 ^ f_exp].  Only the operations
    [format_value_as_readable] performs are modelled: the correctly rounded
    quotient of two ints ([int.__truediv__]), the correctly rounded conversion
    of an int ([float(int)], which [format] applies to an int under the [f]
    presentation type), and the [,.2f] rendering. *)

Record float : Type := Float { f_mant : Z; f_exp : Z }.

(** Round-half-to-even of the rational [a / b], for [0 < b]. *)
Definition rne_div (a b : Z) : Z :=
  let q := a / b in
  let r := a mod b in
  if 2 * r <? b then q
  else if b <? 2 * r then q + 1
  else if Z.even q then q else q + 1.

(** [n / (d * 2 ^ e)] rounded half-to-even to an integer. *)
Definition scaled_rne (n d e : Z) : Z :=
  if 0 <=? e then rne_div n (d * 2 ^ e) else rne_div (n * 2 ^ (- e)) d.

Definition scaled_floor (n d e : Z) : Z :=
  if 0 <=? e then n / (d * 2 ^ e) else (n * 2 ^ (- e)) / d.

(** The exponent at which [n / d] has a 53-bit integer part (not below the
    subnormal exponent -1074). *)
Definition binary64_exponent (n d : Z) : Z :=
  let e0 := Z.log2 n - Z.log2 d - 53 in
  let e := if 2 ^ 53 <=? scaled_floor n d e0 then e0 + 1 else e0 in
  Z.max e (-1074).

(** Nearest binary64 to [n / d] for [0 <= n], [0 < d]; overflow when the
    rounded value reaches [2 ^ 1024]. *)
Definition round_binary64 (n d : Z) : result float :=
  if n =? 0 then Ok (Float 0 0)
  else
    let e := binary64_exponent n d in
    let m := scaled_rne n d e in
    if (971 <? e) || ((e =? 971) && (2 ^ 53 <=? m)) then Raise OverflowError
    else Ok (Float m e).

Definition float_neg (x : float) : float := Float (- f_mant x) (f_exp x).

(** [a / b] on ints with [0 < b]. *)
Definition py_truediv (a b : Z) : result float :=
  if 0 <=? a then round_binary64 a b
  else float_neg <$> round_binary64 (- a) b.

(** [float(a)] on an int. *)
Definition py_float (a : Z) : result float := py_truediv a 1.

(** *** [format(x, ",.2f")] *)

Definition digits_of (n : Z) : string :=
  NilZero.string_of_uint (N.to_uint (Z.to_N n)).

(** Insert a comma before every group of three digits counted from the
    right; [rev_digits] is the digit string reversed. *)
Fixpoint group3_rev (rev_digits : list ascii) (k : nat) : list ascii :=
  match rev_digits with
  | [] => []
  | c :: rest =>
      match k with
      | O => c :: match rest with
                  | [] => []
                  | _ => ","%char :: group3_rev rest 2
                  end
      | S k' => c :: group3_rev rest k'
      end
  end.

Definition thousands (s : string) : string :=
  string_of_list_ascii
    (rev (group3_rev (rev (list_ascii_of_string s)) 2)).

Definition two_digits (n : Z) : string :=
  if n <? 10 then "0" +:+ digits_of n else digits_of n.

(** The number of hundredths nearest to [|x|], ties to even: the correctly
    rounded two-decimal conversion. *)
Definition hundredths (x : float) : Z :=
  scaled_rne (Z.abs (f_mant x) * 100) 1 (- f_exp x).

Definition render_hundredths (neg : bool) (h : Z) : string :=
  (if neg then "-" else EmptyString) +:+ thousands (digits_of (h / 100))
    +:+ "." +:+ two_digits (h mod 100).

Definition format_2f (x : float) : string :=
  render_hundredths (f_mant x <? 0) (hundredths x).

(** ** General utilities *)

(** [format_value_as_readable(value)] for an int [value]. *)
Definition format_value_as_readable (value : Z) : result string :=
  if 1000000000 <=? value then
    x ← py_truediv value 1000000000; mret ("$" +:+ format_2f x +:+ "B")
  else if 1000000 <=? value then
    x ← py_truediv value 1000000; mret ("$" +:+ format_2f x +:+ "M")
  else if 1000 <=? value then
    x ← py_truediv value 1000; mret ("$" +:+ format_2f x +:+ "K")
  else
    x ← py_float value; mret ("$" +:+ format_2f x).

(** ** [datetime] and [datetime.strptime(s, '%Y-%m-%d')] *)

Record datetime : Type := Datetime {
  year : Z; month : Z; day : Z;
  hour : Z; minute : Z; second : Z; microsecond : Z }.

Definition digit_val (c : ascii) : option Z :=
  let n := Z.of_N (N_of_ascii c) in
  if (48 <=? n) && (n <=? 57) then Some (n - 48) else None.

Definition digit_in (lo hi : Z) (c : ascii) : option Z :=
  match digit_val c with
  | Some v => if (lo <=? v) && (v <=? hi) then Some v else None
  | None => None
  end.

(** [%Y] is the pattern [\d\d\d\d]. *)
Definition match_Y (cs : list ascii) : option (Z * list ascii) :=
  match cs with
  | a :: b :: c :: d :: rest =>
      match digit_val a, digit_val b, digit_val c, digit_val d with
      | Some a, Some b, Some c, Some d =>
          Some (a * 1000 + b * 100 + c * 10 + d, rest)
      | _, _, _, _ => None
      end
  | _ => None
  end.

(** One alternative [c1 c2] of a two-character pattern, its value
    [10 * tens + units]. *)
Definition alt2 (tens : ascii) (tens_val lo hi : Z) (cs : list ascii)
  : list (Z * list ascii) :=
  match cs with
  | c1 :: c2 :: rest =>
      if decide (c1 = tens) then
        match digit_in lo hi c2 with
        | Some v => [(10 * tens_val + v, rest)]
        | None => []
        end
      else []
  | _ => []
  end.

Definition alt1 (lo hi : Z) (cs : list ascii) : list (Z * list ascii) :=
  match cs with
  | c1 :: rest =>
      match digit_in lo hi c1 with
      | Some v => [(v, rest)]
      | None => []
      end
  | _ => []
  end.

(** [%m] is [1[0-2]|0[1-9]|[1-9]]: the matches, in the order the regular
    expression engine tries them. *)
Definition match_m (cs : list ascii) : list (Z * list ascii) :=
  alt2 "1" 1 0 2 cs ++ alt2 "0" 0 1 9 cs ++ alt1 1 9 cs.

(** [%d] is [3[0-1]|[1-2]\d|0[1-9]|[1-9]| [1-9]]. *)
Definition match_d (cs : list ascii) : list (Z * list ascii) :=
  alt2 "3" 3 0 1 cs ++ alt2 "1" 1 0 9 cs ++ alt2 "2" 2 0 9 cs
    ++ alt2 "0" 0 1 9 cs ++ alt1 1 9 cs ++ alt2 " " 0 1 9 cs.

Definition expect_dash (cs : list ascii) : option (list ascii) :=
  match cs with
  | c :: rest => if decide (c = "-"%char) then Some rest else None
  | [] => None
  end.

(** The first way to match [-%d] after a month alternative: backtracking
    over the month alternatives stops at the first one that lets the rest of
    the pattern match. *)
Fixpoint first_md (months : list (Z * list ascii))
  : option (Z * Z * list ascii) :=
  match months with
  | [] => None
  | (m, after_m) :: others =>
      match expect_dash after_m with
      | Some after_dash =>
          match match_d after_dash with
          | (d, rest) :: _ => Some (m, d, rest)
          | [] => first_md others
          end
      | None => first_md others
      end
  end.

Definition is_leap (y : Z) : bool :=
  (y mod 4 =? 0) && (negb (y mod 100 =? 0) || (y mod 400 =? 0)).

Definition days_in_month (y m : Z) : Z :=
  if m =? 2 then (if is_leap y then 29 else 28)
  else if (m =? 4) || (m =? 6) || (m =? 9) || (m =? 11) then 30
  else 31.

(** [datetime.strptime(s, '%Y-%m-%d')]: [ValueError] when the string does
    not match the format, when unconverted data remains, or when the
    fields are not a date ([year 0], day out of range for the month).
    The digits are the ASCII digits: a date this function returns is the
    date Python returns, but Python's [\d] also reads the decimal digits
    of other scripts, so a statement that concludes [ValueError] assumes
    an ASCII string. *)
Definition strptime_ymd (s : string) : result datetime :=
  match match_Y (list_ascii_of_string s) with
  | None => Raise ValueError
  | Some (y, after_y) =>
      match expect_dash after_y with
      | None => Raise ValueError
      | Some after_dash =>
          match first_md (match_m after_dash) with
          | None => Raise ValueError
          | Some (m, d, rest) =>
              match rest with
              | _ :: _ => Raise ValueError
              | [] =>
                  if (1 <=? y) && (d <=? days_in_month y m)
                  then Ok (Datetime y m d 0 0 0 0)
                  else Raise ValueError
              end
          end
      end
  end.

(** Naive datetimes compare as the tuples of their fields. *)
Definition dt_fields (d : datetime) : list Z :=
  [year d; month d; day d; hour d; minute d; second d; microsecond d].

Fixpoint lex_ltb (a b : list Z) : bool :=
  match a, b with
  | x :: a', y :: b' => (x <? y) || ((x =? y) && lex_ltb a' b')
  | _, _ => false
  end.

Definition datetime_ltb (d1 d2 : datetime) : bool :=
  lex_ltb (dt_fields d1) (dt_fields d2).

#[global] Instance datetime_eq_dec : EqDecision datetime.
Proof. solve_decision. Defined.

(** ** JSON scalars and [str()] *)

Inductive jval : Type :=
  | JInt (z : Z)
  | JStr (s : string)
  | JNull.

#[global] Instance jval_eq_dec : EqDecision jval.
Proof. solve_decision. Defined.

Definition py_str_int (z : Z) : string :=
  if z <? 0 then "-" +:+ digits_of (- z) else digits_of z.

Definition py_str (v : jval) : string :=
  match v with
  | JInt z => py_str_int z
  | JStr s => s
  | JNull => "None"
  end.

(** [s.split(".")[0]]: the text before the first dot. *)
Fixpoint before_dot (s : string) : string :=
  match s with
  | EmptyString => EmptyString
  | String c rest =>
      if decide (c = "."%char) then EmptyString else String c (before_dot rest)
  end.

(** [s.replace] of every dash by the empty string. *)
Fixpoint remove_dashes (s : string) : string :=
  match s with
  | EmptyString => EmptyString
  | String c rest =>
      if decide (c = "-"%char) then remove_dashes rest
      else String c (remove_dashes rest)
  end.

(** ** The dataclasses *)

Record XMLContextObject : Type := mkXMLContextObject {
  ctx_id : string;
  entity_identifier : option string;
  segments : list (option string * option string);
  period_start_date : option string;
  period_end_date : option string;
  period_instant : option string }.

Record XMLDataObject : Type := mkXMLDataObject {
  tag : string;
  context_ref : string;
  elem_id : string;
  value : option string;
  unit_ref : string;
  decimals : string;
  context : option (list XMLContextObject) }.

Record Filing : Type := mkFiling {
  cik : string;
  ticker : string;
  accessionNumber : string;
  filingDate : string;
  reportDate : string;
  form : string;
  primaryDocument : string;
  primaryDocDescription : string;
  summary : string;
  xml_data : option (list XMLDataObject) }.

Record StatementObject : Type := mkStatementObject {
  so_cik : jval;
  so_gaap_item : string;
  so_end_date : datetime;
  so_accn : string;
  so_form : string;
  so_fy : string;
  so_fp : string;
  so_value : string }.

#[global] Instance XMLContextObject_eq_dec : EqDecision XMLContextObject.
Proof. solve_decision. Defined.
#[global] Instance XMLDataObject_eq_dec : EqDecision XMLDataObject.
Proof. solve_decision. Defined.
#[global] Instance Filing_eq_dec : EqDecision Filing.
Proof. solve_decision. Defined.
#[global] Instance StatementObject_eq_dec : EqDecision StatementObject.
Proof. solve_decision. Defined.

(** ** [sorted(xs, key=...)]

    [sorted] is a stable sort that compares keys with [<] only.  It is
    modelled by the stable insertion sort below; [sorted_by_unique] shows
    that the choice of algorithm is immaterial. *)

Section Sorted.
Context {A K : Type} (key : A -> K) (ltb : K -> K -> bool).

(** [x] goes before the first element whose key is not smaller. *)
Fixpoint insert_by (x : A) (l : list A) : list A :=
  match l with
  | [] => [x]
  | y :: l' =>
      if ltb (key y) (key x) then y :: insert_by x l' else x :: y :: l'
  end.

Fixpoint sorted_by (l : list A) : list A :=
  match l with
  | [] => []
  | x :: l' => insert_by x (sorted_by l')
  end.

Definition key_le (a b : A) : Prop := ltb (key b) (key a) = false.
End Sorted.

(** ** Statement utilities *)

Definition sort_statements_by_date (statements : list StatementObject)
  : list StatementObject :=
  sorted_by so_end_date datetime_ltb statements.

(** ** The HTTP layer

    [requests.Response] with the attributes the module reads.  A request is
    an effect on the outside world: [get_request] takes the world and
    returns the next one, with [None] when [requests.get] raised (the bare
    [except] of [get_request] swallows the exception and the function falls
    off its end). *)

Record Response : Type := mkResponse {
  ok : bool;
  text : string;
  content : string }.

(** One observation of a unit group of a company-concept payload: [fp],
    [end], [accn] and [form] are JSON strings, [fy] a JSON scalar, and
    [val] a JSON integer, on which [int(...)] is the identity. *)
Record UnitEntry : Type := mkUnitEntry {
  u_fy : jval;
  u_fp : string;
  u_end : string;
  u_accn : string;
  u_form : string;
  u_val : Z }.

(** The company-concept payload; [units] is a JSON object, that is a dict
    in the order its keys are declared. *)
Record ConceptFacts : Type := mkConceptFacts {
  cf_cik : jval;
  cf_tag : string;
  cf_units : list (string * list UnitEntry) }.

(** The [(fp, end)] tuple of an observation. *)
Definition fp_end_date_tuple (unit : UnitEntry) : string * string :=
  (u_fp unit, u_end unit).

(** The [StatementObject(...)] constructor call of [get_statement_data];
    the arguments are evaluated in order, so a bad date raises before the
    value is formatted. *)
Definition make_statement_object (data : ConceptFacts) (unit : UnitEntry)
  : result StatementObject :=
  end_date ← strptime_ymd (u_end unit);
  v ← format_value_as_readable (u_val unit);
  mret {| so_cik := cf_cik data;
          so_gaap_item := cf_tag data;
          so_end_date := end_date;
          so_accn := u_accn unit;
          so_form := u_form unit;
          so_fy := before_dot (py_str (u_fy unit));
          so_fp := u_fp unit;
          so_value := v |}.

(** The [for unit in units_list] loop, with its two accumulators. *)
Fixpoint statement_loop (data : ConceptFacts) (units_list : list UnitEntry)
    (unique_combinations : gset (string * string))
    (statement_objects : list StatementObject)
  : result (list StatementObject) :=
  match units_list with
  | [] => Ok statement_objects
  | unit :: rest =>
      if decide (fp_end_date_tuple unit ∈ unique_combinations)
      then statement_loop data rest unique_combinations statement_objects
      else
        statement_object ← make_statement_object data unit;
        statement_loop data rest
          ({[fp_end_date_tuple unit]} ∪ unique_combinations)
          (statement_objects ++ [statement_object])
  end.

(** [list(data['units'].values())[0]]. *)
Definition first_unit_group (data : ConceptFacts) : result (list UnitEntry) :=
  match cf_units data with
  | [] => Raise IndexError
  | (_, units_list) :: _ => Ok units_list
  end.

(** The body of [get_statement_data] once the payload is decoded. *)
Definition statement_objects_of (data : ConceptFacts)
  : result (list StatementObject) :=
  units_list ← first_unit_group data;
  statement_loop data units_list ∅ [].

(** ** ElementTree

    An [xml.etree.ElementTree.Element]: its tag in Clark notation
    ([{uri}local]), its attribute dict, its text and its children. *)

#[warnings="-register-all"]
Inductive Element : Type :=
  mkElement (tag_ : string) (attrib_ : gmap string string)
            (text_ : option string) (children_ : list Element).

Definition e_tag (e : Element) : string :=
  match e with mkElement t _ _ _ => t end.
Definition e_attrib (e : Element) : gmap string string :=
  match e with mkElement _ a _ _ => a end.
Definition e_text (e : Element) : option string :=
  match e with mkElement _ _ x _ => x end.
Definition e_children (e : Element) : list Element :=
  match e with mkElement _ _ _ c => c end.

(** [elem.iter()]: the element and its descendants in document order. *)
Fixpoint iter (e : Element) : list Element :=
  match e with
  | mkElement _ _ _ cs => e :: concat (List.map iter cs)
  end.

(** The selection of [.//]: every element below [e], never [e] itself. *)
Definition descendants (e : Element) : list Element :=
  concat (List.map iter (e_children e)).

(** [elem.attrib.get(k, default)]. *)
Definition attrib_get (e : Element) (k default : string) : string :=
  match e_attrib e !! k with
  | Some v => v
  | None => default
  end.

(** [needle in s]. *)
Fixpoint contains (needle s : string) : bool :=
  String.prefix needle s
  || match s with
     | EmptyString => false
     | String _ s' => contains needle s'
     end.

(** [s.partition('}')[2]]: the text after the first closing brace, empty
    when there is none. *)
Fixpoint after_brace (s : string) : string :=
  match s with
  | EmptyString => EmptyString
  | String c rest => if decide (c = "}"%char) then rest else after_brace rest
  end.

(** The module-level [namespaces] dict. *)
Definition namespaces : gmap string string :=
  list_to_map
    [ ("xbrl", "http://www.xbrl.org/2003/instance");
      ("xlink", "http://www.w3.org/1999/xlink");
      ("iso4217", "http://www.xbrl.org/2003/iso4217");
      ("xsi", "http://www.w3.org/2001/XMLSchema-instance");
      ("us-gaap", "http://fasb.org/us-gaap/2013-01-31");
      ("dei", "http://xbrl.sec.gov/dei/2013-01-31");
      ("aapl", "http://www.apple.com/20131228");
      ("us-types", "http://fasb.org/us-types/2013-01-31");
      ("xbrldt", "http://xbrl.org/2005/xbrldt");
      ("xbrldi", "http://xbrl.org/2006/xbrldi");
      ("stpr", "http://xbrl.sec.gov/stpr/2011-01-31");
      ("country", "http://xbrl.sec.gov/country/2013-01-31");
      ("currency", "http://xbrl.sec.gov/currency/2012-01-31");
      ("exch", "http://xbrl.sec.gov/exch/2013-01-31");
      ("invest", "http://xbrl.sec.gov/invest/2013-01-31");
      ("num", "http://www.xbrl.org/dtr/type/numeric");
      ("nonnum", "http://www.xbrl.org/dtr/type/non-numeric");
      ("utr", "http://www.xbrl.org/2009/utr") ].

(** *** The ElementPath steps the module uses

    A prefixed name [prefix:local] of a path is resolved through the prefix
    map when the path is compiled; a prefix that is not in the map is a
    [SyntaxError]. *)
Definition qname (ns : gmap string string) (prefix local : string)
  : result string :=
  match ns !! prefix with
  | Some uri => Ok ("{" +:+ uri +:+ "}" +:+ local)
  | None => Raise SyntaxError
  end.

Definition has_tag (t : string) (e : Element) : bool :=
  bool_decide (e_tag e = t).

(** The step [a/b] from [e]: the children tagged [b] of the children
    tagged [a], in document order. *)
Definition child_path (e : Element) (a b : string) : list Element :=
  concat (List.map (fun c => List.filter (has_tag b) (e_children c))
                   (List.filter (has_tag a) (e_children e))).

(** [e.find("p1:a/p2:b", namespaces)]. *)
Definition find2 (ns : gmap string string) (e : Element)
    (p1 a p2 b : string) : result (option Element) :=
  ta ← qname ns p1 a;
  tb ← qname ns p2 b;
  mret (head (child_path e ta tb)).

(** [e.findtext("p1:a/p2:b", namespaces)]: the text of the first match,
    the empty string when that element has no text, [None] without a
    match. *)
Definition findtext2 (ns : gmap string string) (e : Element)
    (p1 a p2 b : string) : result (option string) :=
  found ← find2 ns e p1 a p2 b;
  mret (match found with
        | Some x => Some (match e_text x with Some t => t | None => EmptyString end)
        | None => None
        end).

(** [e.findall(".//p:a", namespaces)]. *)
Definition findall_descendants (ns : gmap string string) (e : Element)
    (p a : string) : result (list Element) :=
  t ← qname ns p a;
  mret (List.filter (has_tag t) (descendants e)).

Fixpoint has_apostrophe (s : string) : bool :=
  match s with
  | EmptyString => false
  | String c rest => bool_decide (c = "'"%char) || has_apostrophe rest
  end.

(** The text after the first apostrophe of [s], when it has one. *)
Fixpoint after_apostrophe (s : string) : option string :=
  match s with
  | EmptyString => None
  | String c rest =>
      if decide (c = "'"%char) then Some rest else after_apostrophe rest
  end.

(** The path [extract_context] builds by interpolation. *)
Definition context_path (context_ref : string) : string :=
  ".//xbrl:context[@id='" +:+ context_ref +:+ "']".

(** ElementPath tokenizes the path.  An apostrophe of the reference closes
    the quoted literal of the predicate; when the text after it is empty
    or starts with a visible ASCII character other than [!] (which the
    tokenizer may skip) and the closing bracket (which ends the predicate),
    one more token follows the literal inside the predicate, which is then
    of no supported shape: [SyntaxError('invalid predicate')]. *)
Definition breaks_predicate (context_ref : string) : bool :=
  match after_apostrophe context_ref with
  | None => false
  | Some EmptyString => true
  | Some (String c _) =>
      let n := N_of_ascii c in
      ((33 <=? n) && (n <=? 126))%N
      && negb (bool_decide (c = "!"%char))
      && negb (bool_decide (c = "]"%char))
  end.

Definition has_id (v : string) (e : Element) : bool :=
  bool_decide (e_attrib e !! "id" = Some v).

(** ** The filings index *)

(** [filings_data["filings"]["recent"]]: six parallel arrays. *)
Record RecentFilings : Type := mkRecentFilings {
  accessionNumber_list : list string;
  filingDate_list : list string;
  reportDate_list : list string;
  form_list : list string;
  primaryDocument_list : list string;
  primaryDocDescription_list : list string }.

Record FilingsData : Type := mkFilingsData {
  fd_name : string;
  fd_sic : string;
  fd_sicDescription : string;
  fd_ein : string;
  fd_fiscalYearEnd : string;
  fd_exchanges : list string;
  fd_recent : RecentFilings }.

(** The [bio] dict; [list(set(...))] has no specified order, so the
    exchanges are kept as the set. *)
Record Bio : Type := mkBio {
  bio_name : string;
  bio_sic : string;
  bio_sicDescription : string;
  bio_EIN : string;
  bio_fiscalYearEnd : string;
  bio_Exchanges : gset string }.

(** A model string holds the UTF-8 encoding of the Python [str]: a
    character is a byte that is not of the form [10xxxxxx], followed by
    its continuation bytes, which are of that form. *)
Definition is_continuation (c : ascii) : bool :=
  let n := N_of_ascii c in ((128 <=? n) && (n <? 192))%N.

(** The continuation bytes at the head of [s], and what follows them. *)
Fixpoint span_continuation (s : string) : string * string :=
  match s with
  | String c rest =>
      if is_continuation c
      then let (tail, after) := span_continuation rest in
           (String c tail, after)
      else (EmptyString, s)
  | EmptyString => (EmptyString, EmptyString)
  end.

(** [(s[:n], s[n:])]: a slice counts characters, not bytes. *)
Fixpoint str_split_at (n : nat) (s : string) : string * string :=
  match n, s with
  | S n', String c rest =>
      let (tail, after) := span_continuation rest in
      let (taken, dropped) := str_split_at n' after in
      (String c (tail +:+ taken), dropped)
  | _, _ => (EmptyString, s)
  end.

(** [s[:2]] and [s[2:]]. *)
Definition str_take2 (s : string) : string := (str_split_at 2 s).1.
Definition str_drop2 (s : string) : string := (str_split_at 2 s).2.

(** [zip] of six lists: as long as the shortest. *)
Fixpoint zip6 {A B C D E F} (a : list A) (b : list B) (c : list C)
    (d : list D) (e : list E) (f : list F) : list (A * B * C * D * E * F) :=
  match a, b, c, d, e, f with
  | x1 :: a', x2 :: b', x3 :: c', x4 :: d', x5 :: e', x6 :: f' =>
      (x1, x2, x3, x4, x5, x6) :: zip6 a' b' c' d' e' f'
  | _, _, _, _, _, _ => []
  end.

(** The list comprehension of [get_filing]. *)
Definition build_filings (ticker cik : string) (recent : RecentFilings)
  : list Filing :=
  List.map
    (fun '(accessionNumber, filingDate, reportDate, form,
           primaryDocument, primaryDocDescription) =>
       mkFiling cik ticker accessionNumber filingDate reportDate form
                primaryDocument primaryDocDescription "No summary" None)
    (zip6 (accessionNumber_list recent) (filingDate_list recent)
          (reportDate_list recent) (form_list recent)
          (primaryDocument_list recent) (primaryDocDescription_list recent)).

Definition build_bio (filings_data : FilingsData) : Bio :=
  {| bio_name := fd_name filings_data;
     bio_sic := fd_sic filings_data;
     bio_sicDescription := fd_sicDescription filings_data;
     bio_EIN := fd_ein filings_data;
     bio_fiscalYearEnd :=
       str_take2 (fd_fiscalYearEnd filings_data) +:+ "/"
         +:+ str_drop2 (fd_fiscalYearEnd filings_data);
     bio_Exchanges := list_to_set (fd_exchanges filings_data) |}.

(** ** Strings of [get_xml] and [find_xml_link] *)

Definition upper_char (c : ascii) : ascii :=
  let n := N_of_ascii c in
  if ((97 <=? n) && (n <=? 122))%N then ascii_of_N (n - 32) else c.

(** [s.upper()] for a string of ASCII characters.  The bytes of the
    other characters are left as they are, while Python maps some of
    them to ASCII letters (dotless i to I, sharp s to SS).  None of them
    is mapped to a digit, a dash, Q or K, so the comparison of [get_xml]
    with ["10-Q"] and ["10-K"] is exact on every string; a statement
    that looks a ticker up by its upper case assumes an ASCII ticker. *)
Fixpoint upper (s : string) : string :=
  match s with
  | EmptyString => EmptyString
  | String c rest => String (upper_char c) (upper rest)
  end.

(** [s.endswith(suffix)]. *)
Definition endswith (s suffix : string) : bool :=
  let n := String.length s in
  let k := String.length suffix in
  (k <=? n)%nat
  && bool_decide (String.substring (n - k) k s = suffix).

(** [s.split('/')[-1]]: the text after the last slash. *)
Fixpoint after_last_slash (s : string) : string :=
  match s with
  | EmptyString => EmptyString
  | String c rest =>
      if contains "/" rest then after_last_slash rest
      else if decide (c = "/"%char) then rest
      else s
  end.

(** The [for tag in a_tags] loop of [find_xml_link] over the [href]
    attributes; [None] is falling off the end of the function. *)
Fixpoint first_xml_href (hrefs : list (option string)) : option string :=
  match hrefs with
  | [] => None
  | Some href :: rest =>
      if negb (bool_decide (href = EmptyString)) && endswith href "_htm.xml"
      then Some (after_last_slash href)
      else first_xml_href rest
  | None :: rest => first_xml_href rest
  end.

(** An f-string field holding a value that may be [None]. *)
Definition fmt_opt (o : option string) : string :=
  match o with
  | Some s => s
  | None => "None"
  end.

(** [item.form.upper() in ["10-Q", "10-K"]]. *)
Definition is_report_form (item : Filing) : bool :=
  bool_decide (upper (form item) = "10-Q")
  || bool_decide (upper (form item) = "10-K").

Definition set_xml_data (data : list XMLDataObject) (item : Filing) : Filing :=
  mkFiling (cik item) (ticker item) (accessionNumber item) (filingDate item)
           (reportDate item) (form item) (primaryDocument item)
           (primaryDocDescription item) (summary item) (Some data).

(** [not limit]: [None] and [0] are falsy. *)
Definition falsy_limit (limit : option Z) : bool :=
  match limit with
  | None => true
  | Some n => n =? 0
  end.

(** ** The functions that depend on the outside world

    The network, the decoders and the parsers of the libraries are the
    parameters of this section. *)

Section Env.
Context {World : Type}.

(** [get_request(url)]: the response, or [None] when the request raised. *)
Variable get_request : string -> World -> option Response * World.

(** [json.loads] on the body of a company-concept response: the decoded
    payload, or the exception raised for a body that is not JSON or not of
    the payload's shape. *)
Variable json_loads_concept : string -> result ConceptFacts.

(** [response.json()] on a filings-index response. *)
Variable response_json : Response -> result FilingsData.

(** [ET.fromstring]: the root element, or [ParseError]. *)
Variable fromstring : string -> result Element.

(** What [findall] answers for a path whose quoted literal is cut short by
    an apostrophe of the interpolated reference and whose predicate still
    closes right after it: the rest of the reference is read as more path,
    and ElementPath either rejects it or selects by whatever path it has
    become. *)
Variable findall_injected :
  Element -> string -> gmap string string -> result (list Element).

(** BeautifulSoup's view of an index page: [None] when the page has no
    [table] element, else the [href] attribute of every [a] element of the
    first table, in document order. *)
Variable soup_table_hrefs : string -> option (list (option string)).

(** A computation that talks to the world and may raise. *)
Definition io (A : Type) : Type := World -> result A * World.

Definition io_ret {A} (a : A) : io A := fun w => (Ok a, w).
Definition io_bind {A B} (m : io A) (k : A -> io B) : io B :=
  fun w => match m w with
           | (Ok a, w') => k a w'
           | (Raise e, w') => (Raise e, w')
           end.
Definition io_lift {A} (r : result A) : io A := fun w => (r, w).
Definition io_raise {A} (e : exn) : io A := fun w => (Raise e, w).

#[global] Instance io_mret : MRet io := @io_ret.
#[global] Instance io_mbind : MBind io := fun A B k m => io_bind m k.

Definition do_request (url : string) : io (option Response) :=
  fun w => let (r, w') := get_request url w in (Ok r, w').

(** *** [get_statement_data] *)

Definition concept_url (cik gaap_item : string) : string :=
  "https://data.sec.gov/api/xbrl/companyconcept/CIK" +:+ cik
    +:+ "/us-gaap/" +:+ gaap_item +:+ ".json".

(** [get_statement_data(cik, gaap_item)]; the result [None] is Python's
    [None]. *)
Definition get_statement_data (cik gaap_item : string)
  : io (option (list StatementObject)) :=
  response ← do_request (concept_url cik gaap_item);
  match response with
  | None => io_raise AttributeError
  | Some response =>
      if ok response then
        data ← io_lift (json_loads_concept (text response));
        statement_objects ← io_lift (statement_objects_of data);
        io_ret (Some statement_objects)
      else io_ret None
  end.

(** *** [get_filing] *)

Definition filings_url (cik : string) : string :=
  "https://data.sec.gov/submissions/CIK" +:+ cik +:+ ".json".

Definition get_filing (ticker cik : string) : io (Bio * list Filing) :=
  response ← do_request (filings_url cik);
  match response with
  | None => io_raise AttributeError
  | Some response =>
      filings_data ← io_lift (response_json response);
      io_ret (build_bio filings_data,
              build_filings ticker cik (fd_recent filings_data))
  end.

(** *** [extract_context] *)

(** [root.findall(f".//xbrl:context[@id='{context_ref}']", namespaces)]. *)
Definition find_contexts (root : Element) (context_ref : string)
    (ns : gmap string string) : result (list Element) :=
  if has_apostrophe context_ref then
    if breaks_predicate context_ref then Raise SyntaxError
    else findall_injected root (context_path context_ref) ns
  else
    t ← qname ns "xbrl" "context";
    mret (List.filter (fun e => has_tag t e && has_id context_ref e)
                      (descendants root)).

(** The body of the [for context_element] loop. *)
Definition context_object (context_ref : string) (ns : gmap string string)
    (context_element : Element) : result XMLContextObject :=
  entity_identifier_element ←
    find2 ns context_element "xbrl" "entity" "xbrl" "identifier";
  let entity_identifier :=
    match entity_identifier_element with
    | Some el => e_text el
    | None => Some "N/A"
    end in
  members ← findall_descendants ns context_element "xbrldi" "explicitMember";
  let segments :=
    List.map (fun member => (e_attrib member !! "dimension", e_text member))
             members in
  period_start_date ←
    findtext2 ns context_element "xbrl" "period" "xbrl" "startDate";
  period_end_date ←
    findtext2 ns context_element "xbrl" "period" "xbrl" "endDate";
  period_instant ←
    findtext2 ns context_element "xbrl" "period" "xbrl" "instant";
  mret (mkXMLContextObject context_ref entity_identifier segments
          period_start_date period_end_date period_instant).

Fixpoint context_loop (context_ref : string) (ns : gmap string string)
    (context_elements : list Element)
    (context_objects : list XMLContextObject)
  : result (list XMLContextObject) :=
  match context_elements with
  | [] => Ok context_objects
  | context_element :: rest =>
      obj ← context_object context_ref ns context_element;
      context_loop context_ref ns rest (context_objects ++ [obj])
  end.

Definition extract_context (root : Element) (context_ref : string)
    (ns : gmap string string) : result (list XMLContextObject) :=
  context_elements ← find_contexts root context_ref ns;
  context_loop context_ref ns context_elements [].

(** *** [extract_tags] *)

(** The body of [if 'fasb.org/us-gaap' in elem.tag]. *)
Definition data_object (root elem : Element) : result XMLDataObject :=
  let tag := after_brace (e_tag elem) in
  let context_ref := attrib_get elem "contextRef" "N/A" in
  let elem_id := attrib_get elem "id" "N/A" in
  let unit_ref := attrib_get elem "unitRef" "N/A" in
  let decimals := attrib_get elem "decimals" "N/A" in
  let value := e_text elem in
  context ← extract_context root context_ref namespaces;
  mret (mkXMLDataObject tag context_ref elem_id value unit_ref decimals
          (Some context)).

Definition is_us_gaap (elem : Element) : bool :=
  contains "fasb.org/us-gaap" (e_tag elem).

Fixpoint tags_loop (root : Element) (elems : list Element)
    (extracted_data : list XMLDataObject) : result (list XMLDataObject) :=
  match elems with
  | [] => Ok extracted_data
  | elem :: rest =>
      if is_us_gaap elem then
        obj ← data_object root elem;
        tags_loop root rest (extracted_data ++ [obj])
      else tags_loop root rest extracted_data
  end.

Definition extract_tags (xml_data : string) : result (list XMLDataObject) :=
  root ← fromstring xml_data;
  tags_loop root (iter root) [].

(** *** [find_xml_link] and [get_xml] *)

Definition find_xml_link (html_content : option Response)
  : result (option string) :=
  match html_content with
  | None => Raise AttributeError
  | Some page =>
      match soup_table_hrefs (text page) with
      | None => Ok (Some "tbody tag not found")
      | Some hrefs => Ok (first_xml_href hrefs)
      end
  end.

Definition base_url : string := "https://www.sec.gov/Archives/edgar/data/".

Definition index_url (item : Filing) : string :=
  base_url +:+ cik item +:+ "/" +:+ remove_dashes (accessionNumber item).

Definition xml_url (item : Filing) (xml_file_name : option string) : string :=
  index_url item +:+ "/" +:+ fmt_opt xml_file_name.

(** The two fetches and the extraction for one filing. *)
Definition fetch_facts (item : Filing) : io (list XMLDataObject) :=
  database_response ← do_request (index_url item);
  xml_file_name ← io_lift (find_xml_link database_response);
  xml_response ← do_request (xml_url item xml_file_name);
  match xml_response with
  | None => io_raise AttributeError
  | Some xml_response => io_lift (extract_tags (content xml_response))
  end.

(** The [for index, item in enumerate(filings)] loop.  [updated_filings] is
    the list being updated in place (its [Filing] objects are distinct
    objects, as [get_filing] builds them); it is returned together with
    the exception that ended the loop, if any. *)
Fixpoint xml_loop (limit : Z) (items : list Filing) (index : nat)
    (count : Z) (updated_filings : list Filing) (w : World)
  : (list Filing * option exn) * World :=
  match items with
  | [] => ((updated_filings, None), w)
  | item :: rest =>
      if is_report_form item && (count <? limit) then
        match fetch_facts item w with
        | (Ok data, w') =>
            xml_loop limit rest (S index) (count + 1)
              (alter (set_xml_data data) index updated_filings) w'
        | (Raise e, w') => ((updated_filings, Some e), w')
        end
      else xml_loop limit rest (S index) count updated_filings w
  end.

(** [get_xml(filings, limit)]. *)
Definition get_xml (filings : list Filing) (limit : option Z) (w : World)
  : (list Filing * option exn) * World :=
  let limit :=
    if falsy_limit limit then Z.of_nat (length filings) + 1
    else default 0 limit in
  xml_loop limit filings 0 0 filings w.

(** [get_xml(filings)]: the default [limit=3]. *)
Definition get_xml_default (filings : list Filing) (w : World)
  : (list Filing * option exn) * World :=
  get_xml filings (Some 3) w.

(** *** [get_xml] on objects

    [updated_filings] is the caller's list and the assignment
    [updated_filings[index].xml_data = data] changes the [Filing] object
    at that position, which is [item] itself.  Here the list holds
    references and the store gives the fields of every object, so an
    object that occurs at two positions shows at both what is assigned
    through either.  [xml_loop] above is this loop for a list of distinct
    objects, as [get_filing] builds it (lemma [xml_loop_objects_distinct]). *)
Definition store_set (store : nat -> Filing) (ref : nat) (obj : Filing)
  : nat -> Filing :=
  fun r => if decide (r = ref) then obj else store r.

Fixpoint xml_loop_objects (limit : Z) (items : list nat) (count : Z)
    (store : nat -> Filing) (w : World)
  : ((nat -> Filing) * option exn) * World :=
  match items with
  | [] => ((store, None), w)
  | ref :: rest =>
      let item := store ref in
      if is_report_form item && (count <? limit) then
        match fetch_facts item w with
        | (Ok data, w') =>
            xml_loop_objects limit rest (count + 1)
              (store_set store ref (set_xml_data data item)) w'
        | (Raise e, w') => ((store, Some e), w')
        end
      else xml_loop_objects limit rest count store w
  end.

Definition get_xml_objects (filings : list nat) (limit : option Z)
    (store : nat -> Filing) (w : World)
  : ((nat -> Filing) * option exn) * World :=
  let limit :=
    if falsy_limit limit then Z.of_nat (length filings) + 1
    else default 0 limit in
  xml_loop_objects limit filings 0 store w.


End Env.

(** ** Auxiliary definitions of the properties *)

(** [mapM] in the error monad. *)
Fixpoint result_mapM {A B} (f : A -> result B) (l : list A) : result (list B) :=
  match l with
  | [] => Ok []
  | x :: l' => y ← f x; ys ← result_mapM f l'; mret (y :: ys)
  end.

(** The entries of [l] whose pair is neither in [seen] nor carried by an
    earlier entry of [l]. *)
Fixpoint unseen (seen : gset (string * string)) (l : list UnitEntry)
  : list UnitEntry :=
  match l with
  | [] => []
  | e :: rest =>
      if decide (fp_end_date_tuple e ∈ seen) then unseen seen rest
      else e :: unseen ({[fp_end_date_tuple e]} ∪ seen) rest
  end.

(** An observation the deduplicator can convert: its [end] is a date in
    the format [%Y-%m-%d] and its value is in the range of a float. *)
Definition well_formed_entry (e : UnitEntry) : Prop :=
  is_Ok (strptime_ymd (u_end e)) /\ is_Ok (format_value_as_readable (u_val e)).

(** A response of the company-concept endpoint with a single unit group. *)
Definition only_first_group (data : ConceptFacts) : ConceptFacts :=
  mkConceptFacts (cf_cik data) (cf_tag data) (take 1 (cf_units data)).

(** The end-to-end scenario: two observations sharing [fp = "FY"] and
    [end = "2023-09-30"] with different values. *)
Definition scenario_series : list UnitEntry :=
  [ mkUnitEntry (JInt 2023) "FY" "2023-09-30" "0000320193-23-000106" "10-K"
                383285000000;
    mkUnitEntry (JInt 2024) "FY" "2023-09-30" "0000320193-24-000123" "10-K"
                383285000001 ].




Definition scenario_payload : ConceptFacts :=
  mkConceptFacts (JInt 320193) "Revenues" [("USD", scenario_series)].

(** A world in which every request is answered by one successful
    response. *)
Definition sample_response : Response :=
  mkResponse true "company concept body" EmptyString.

Definition sample_get_request (url : string) (w : unit)
  : option Response * unit :=
  (Some sample_response, w).

Definition sample_json_loads (body : string) : result ConceptFacts :=
  Ok scenario_payload.

(** The scenario with a second unit group declared after the first. *)
Definition two_group_payload : ConceptFacts :=
  mkConceptFacts (JInt 320193) "Revenues"
    [ ("USD", scenario_series);
      ("shares", [ mkUnitEntry (JInt 2023) "Q1" "2022-12-31"
                     "0000320193-23-000006" "10-Q" 15842407000 ]) ].

Definition two_group_json_loads (body : string) : result ConceptFacts :=
  Ok two_group_payload.

(** A successful response whose [units] object is empty. *)
Definition empty_units_payload : ConceptFacts :=
  mkConceptFacts (JInt 320193) "Revenues" [].

Definition empty_units_json_loads (body : string) : result ConceptFacts :=
  Ok empty_units_payload.

(** A world in which every request is answered by a 404. *)
Definition not_found_response : Response :=
  mkResponse false "Not Found" "Not Found".

Definition not_found_get_request (url : string) (w : unit)
  : option Response * unit :=
  (Some not_found_response, w).

(** The end-to-end scenario of the filings index. *)
Definition scenario_recent : RecentFilings :=
  mkRecentFilings ["0000320193-23-000106"] ["2023-11-03"] ["2023-09-30"]
                  ["10-K"] ["aapl-20230930.htm"] ["10-K"].

Definition scenario_filings_data : FilingsData :=
  mkFilingsData "Apple Inc." "3571" "Electronic Computers" "942404110"
                "0930" ["Nasdaq"] scenario_recent.

Definition scenario_response_json (response : Response) : result FilingsData :=
  Ok scenario_filings_data.

(** *** Names in Clark notation *)

Fixpoint has_char (c : ascii) (s : string) : bool :=
  match s with
  | EmptyString => false
  | String c' rest => bool_decide (c' = c) || has_char c rest
  end.

(** The text before the first closing brace. *)
Fixpoint before_brace (s : string) : string :=
  match s with
  | EmptyString => EmptyString
  | String c rest =>
      if decide (c = "}"%char) then EmptyString
      else String c (before_brace rest)
  end.

(** The namespace URI of a tag [{uri}local], none for a bare [local]. *)
Definition tag_namespace (t : string) : option string :=
  match t with
  | String c rest =>
      if decide (c = "{"%char) then Some (before_brace rest) else None
  | EmptyString => None
  end.

(** The local name of a tag. *)
Definition tag_local (t : string) : string :=
  match t with
  | String c rest => if decide (c = "{"%char) then after_brace rest else t
  | EmptyString => EmptyString
  end.

(** The element's namespace is of the us-gaap family. *)
Definition in_us_gaap_namespace (e : Element) : bool :=
  match tag_namespace (e_tag e) with
  | Some uri => contains "fasb.org/us-gaap" uri
  | None => false
  end.

Definition xbrl_tag (local : string) : string :=
  "{" +:+ "http://www.xbrl.org/2003/instance" +:+ "}" +:+ local.

Definition xbrldi_tag (local : string) : string :=
  "{" +:+ "http://xbrl.org/2006/xbrldi" +:+ "}" +:+ local.

(** The [context] elements below [root] whose [id] is [context_ref], in
    document order. *)
Definition matching_contexts (root : Element) (context_ref : string)
  : list Element :=
  List.filter
    (fun e => has_tag (xbrl_tag "context") e && has_id context_ref e)
    (descendants root).

Definition text_of_first (l : list Element) : option string :=
  match head l with
  | Some x => Some (match e_text x with Some t => t | None => EmptyString end)
  | None => None
  end.

(** The Context record of a [context] element. *)
Definition context_record (context_ref : string) (ce : Element)
  : XMLContextObject :=
  mkXMLContextObject context_ref
    (match head (child_path ce (xbrl_tag "entity") (xbrl_tag "identifier"))
     with
     | Some el => e_text el
     | None => Some "N/A"
     end)
    (List.map (fun member => (e_attrib member !! "dimension", e_text member))
       (List.filter (has_tag (xbrldi_tag "explicitMember")) (descendants ce)))
    (text_of_first (child_path ce (xbrl_tag "period") (xbrl_tag "startDate")))
    (text_of_first (child_path ce (xbrl_tag "period") (xbrl_tag "endDate")))
    (text_of_first (child_path ce (xbrl_tag "period") (xbrl_tag "instant"))).

Definition contexts_of (root : Element) (context_ref : string)
  : list XMLContextObject :=
  List.map (context_record context_ref) (matching_contexts root context_ref).

(** The Fact of a matching element. *)
Definition fact_of (root e : Element) : XMLDataObject :=
  mkXMLDataObject (tag_local (e_tag e))
    (attrib_get e "contextRef" "N/A") (attrib_get e "id" "N/A")
    (e_text e)
    (attrib_get e "unitRef" "N/A") (attrib_get e "decimals" "N/A")
    (Some (contexts_of root (attrib_get e "contextRef" "N/A"))).

(** An element of a well-formed statement document: its local name is an
    XML name (no slash) and, for a us-gaap element, its [contextRef] is an
    XML identifier (no apostrophe). *)
Definition well_formed_element (e : Element) : Prop :=
  has_char "/" (tag_local (e_tag e)) = false
  /\ (is_us_gaap e = true ->
      has_apostrophe (attrib_get e "contextRef" "N/A") = false).

Definition well_formed_document (root : Element) : Prop :=
  Forall well_formed_element (iter root).

(** An ElementPath engine that rejects every path with a cut literal. *)
Definition rejecting_engine (root : Element) (path : string)
    (ns : gmap string string) : result (list Element) :=
  Raise SyntaxError.

(** A small statement document: a context, a us-gaap fact that refers to
    it and a dei element. *)
Definition sample_context : Element :=
  mkElement (xbrl_tag "context") {[ "id" := "c1" ]} None
    [ mkElement (xbrl_tag "entity") ∅ None
        [ mkElement (xbrl_tag "identifier") ∅ (Some "0000320193") [] ];
      mkElement (xbrl_tag "period") ∅ None
        [ mkElement (xbrl_tag "instant") ∅ (Some "2023-09-30") [] ] ].

Definition sample_fact : Element :=
  mkElement "{http://fasb.org/us-gaap/2023}Assets"
    {[ "contextRef" := "c1"; "unitRef" := "usd"; "decimals" := "-6" ]}
    (Some "352583000000") [].

Definition sample_root : Element :=
  mkElement (xbrl_tag "xbrl") ∅ None
    [ sample_context;
      sample_fact;
      mkElement "{http://xbrl.sec.gov/dei/2023}EntityRegistrantName" ∅
        (Some "Apple Inc.") [] ].

(** The sample document with one more us-gaap fact, whose [contextRef]
    holds an apostrophe: as XML,
    [<us-gaap:Liabilities contextRef="a'b">290437000000</us-gaap:Liabilities>]. *)
Definition apostrophe_fact : Element :=
  mkElement "{http://fasb.org/us-gaap/2023}Liabilities"
    {[ "contextRef" := "a'b" ]} (Some "290437000000") [].

Definition apostrophe_root : Element :=
  mkElement (xbrl_tag "xbrl") ∅ None
    [ sample_context; sample_fact; apostrophe_fact ].

Definition sample_fromstring (xml_data : string) : result Element :=
  Ok sample_root.

(** *** Which filings the augmentation selects *)







(** Two filings that differ at most in the facts attached to them. *)
Definition same_header (a b : Filing) : Prop :=
  cik a = cik b /\ ticker a = ticker b
  /\ accessionNumber a = accessionNumber b
  /\ filingDate a = filingDate b /\ reportDate a = reportDate b
  /\ form a = form b /\ primaryDocument a = primaryDocument b
  /\ primaryDocDescription a = primaryDocDescription b
  /\ summary a = summary b.

(** An index page whose first table links the instance document. *)
Definition sample_soup_table_hrefs (page : string)
  : option (list (option string)) :=
  Some [ None;
         Some "/Archives/edgar/data/320193/000032019323000106/aapl-20230930.htm";
         Some "/Archives/edgar/data/320193/000032019323000106/aapl-20230930_htm.xml" ].

Definition sample_filings : list Filing :=
  [ mkFiling "0000320193" "AAPL" "0000320193-23-000106" "2023-11-03"
      "2023-09-30" "10-K" "aapl-20230930.htm" "10-K" "No summary" None;
    mkFiling "0000320193" "AAPL" "0000320193-23-000090" "2023-10-02"
      "2023-09-28" "8-K" "aapl-20230928.htm" "8-K" "No summary" None;
    mkFiling "0000320193" "AAPL" "0000320193-23-000077" "2023-08-04"
      "2023-07-01" "10-q" "aapl-20230701.htm" "10-Q" "No summary" None ].

(** *** Stable sorting *)

(** Neither key is smaller than the other. *)
Definition same_key {A K} (key : A -> K) (ltb : K -> K -> bool) (x a : A)
  : bool :=
  negb (ltb (key x) (key a)) && negb (ltb (key a) (key x)).



(** ** The rest of [utils.py]

    The remaining methods and functions of the module: the [__str__] of
    [XMLDataObject] and of [StatementObject], [Filing.get_unique_tags], [ticker_to_cik],
    [unique_forms], [filter_by_form], [get_filing_text],
    [get_primary_document] and [get_all_unique_tags]. *)

(** *** More of [str] *)

Definition lower_char (c : ascii) : ascii :=
  let n := N_of_ascii c in
  if ((65 <=? n) && (n <=? 90))%N then ascii_of_N (n + 32) else c.

(** [s.lower()]. *)
Fixpoint lower (s : string) : string :=
  match s with
  | EmptyString => EmptyString
  | String c rest => String (lower_char c) (lower rest)
  end.

(** [s.isascii()].  On such strings [upper] and [lower] are Python's;
    outside ASCII Python's case mappings can change the length of a
    string. *)
Fixpoint is_ascii (s : string) : bool :=
  match s with
  | EmptyString => true
  | String c rest => (N_of_ascii c <? 128)%N && is_ascii rest
  end.

Fixpoint zeros (n : nat) : string :=
  match n with
  | O => EmptyString
  | S n' => String "0" (zeros n')
  end.

(** [s.zfill(width)]: zeros on the left, after a leading sign. *)
Definition zfill (width : nat) (s : string) : string :=
  let n := String.length s in
  if (width <=? n)%nat then s
  else
    match s with
    | String c rest =>
        if bool_decide (c = "+"%char) || bool_decide (c = "-"%char)
        then String c (zeros (width - n) +:+ rest)
        else zeros (width - n) +:+ s
    | EmptyString => zeros (width - n)
    end.

(** [s.split('/')]. *)
Fixpoint split_slash (s : string) : list string :=
  match s with
  | EmptyString => [EmptyString]
  | String c rest =>
      if decide (c = "/"%char) then EmptyString :: split_slash rest
      else
        match split_slash rest with
        | segment :: segments => String c segment :: segments
        | [] => [String c EmptyString]
        end
  end.

(** [sep.join(l)]. *)
Fixpoint join (sep : string) (l : list string) : string :=
  match l with
  | [] => EmptyString
  | x :: rest =>
      match rest with
      | [] => x
      | _ :: _ => x +:+ sep +:+ join sep rest
      end
  end.

Definition newline : string := String (ascii_of_nat 10) EmptyString.

(** *** [str(datetime)] and [StatementObject.__str__] *)

(** [%0<width>d] of a non-negative int. *)
Definition pad (width : nat) (n : Z) : string := zfill width (digits_of n).

Definition date_str (d : datetime) : string :=
  pad 4 (year d) +:+ "-" +:+ pad 2 (month d) +:+ "-" +:+ pad 2 (day d).

(** [str(d)] of a naive datetime, that is [d.isoformat(sep=' ')]: the
    microseconds are printed when they are not zero. *)
Definition datetime_str (d : datetime) : string :=
  date_str d +:+ " " +:+ pad 2 (hour d) +:+ ":" +:+ pad 2 (minute d)
    +:+ ":" +:+ pad 2 (second d)
    +:+ (if microsecond d =? 0 then EmptyString
         else "." +:+ pad 6 (microsecond d)).

Definition StatementObject_str (self : StatementObject) : string :=
  "fp: " +:+ so_fp self +:+ newline
    +:+ "value: " +:+ so_value self +:+ newline
    +:+ "end_date: " +:+ datetime_str (so_end_date self) +:+ newline.

(** *** [XMLDataObject.__str__]

    The generator over [self.context] is consumed by [join] before the
    conditional is evaluated, so a [context] that is [None] (the default
    of the dataclass) is a [TypeError]. *)

Inductive str_outcome : Type :=
  | Str (s : string)
  | StrTypeError.

Definition XMLDataObject_str (self : XMLDataObject) : str_outcome :=
  match context self with
  | None => StrTypeError
  | Some contexts =>
      let context_ids := join ", " (List.map ctx_id contexts) in
      let context_str :=
        match contexts with
        | [] => "None"
        | _ :: _ => "Context(id='" +:+ context_ids +:+ "')"
        end in
      Str ("XMLDataObject(tag='" +:+ tag self
           +:+ "', context_ref='" +:+ context_ref self
           +:+ "', id='" +:+ elem_id self
           +:+ "', value='" +:+ fmt_opt (value self)
           +:+ "', unit_ref='" +:+ unit_ref self
           +:+ "', decimals=" +:+ decimals self
           +:+ ", context=" +:+ context_str +:+ ")" +:+ newline)
  end.

(** *** [Filing.get_unique_tags] and [get_all_unique_tags] *)

(** [not self.xml_data]: [None] and the empty list are falsy. *)
Definition no_xml_data (self : Filing) : bool :=
  match xml_data self with
  | None => true
  | Some [] => true
  | Some (_ :: _) => false
  end.

Definition get_unique_tags (self : Filing) : gset string :=
  if no_xml_data self then ∅
  else list_to_set (List.map tag (default [] (xml_data self))).

(** The [for filing in filings] loop of [get_all_unique_tags]. *)
Fixpoint unique_tags_loop (filings : list Filing) (unique_tags : gset string)
  : gset string :=
  match filings with
  | [] => unique_tags
  | filing :: rest =>
      if no_xml_data filing then unique_tags_loop rest unique_tags
      else unique_tags_loop rest (unique_tags ∪ get_unique_tags filing)
  end.

(** [get_all_unique_tags(filings)].  [list(set)] has no specified order;
    [elements] is one enumeration of the set without repetition. *)
Definition get_all_unique_tags (filings : list Filing) : list string :=
  elements (unique_tags_loop filings ∅).

(** *** [unique_forms] and [filter_by_form] *)

Definition unique_forms (filings : list Filing) : list string :=
  elements (list_to_set (List.map form filings) : gset string).

Definition filter_by_form (filings : list Filing) (filter : list string)
  : list Filing :=
  List.filter (fun filing => bool_decide (form filing ∈ filter)) filings.

(** *** [ticker_to_cik], [get_filing_text], [get_primary_document] *)

(** One entry of the company directory. *)
Record TickerItem : Type := mkTickerItem {
  ti_ticker : string;
  ti_cik_str : jval }.

(** The dict comprehension of [ticker_to_cik]: a later item replaces an
    earlier one with the same ticker. *)
Definition ciks_of (items : list TickerItem) : gmap string string :=
  foldl (fun ciks item => <[ti_ticker item := py_str (ti_cik_str item)]> ciks)
        ∅ items.

(** [ciks.get(ticker.upper())] followed by the [if cik:] padding. *)
Definition lookup_cik (items : list TickerItem) (ticker : string)
  : option string :=
  match ciks_of items !! upper ticker with
  | Some cik => if bool_decide (cik = EmptyString) then Some cik
                else Some (zfill 10 cik)
  | None => None
  end.

Definition tickers_url : string :=
  "https://www.sec.gov/files/company_tickers.json".

Definition archive_url (filing_obj : Filing) (file : string) : string :=
  "https://www.sec.gov/Archives/edgar/data/" +:+ cik filing_obj +:+ "/"
    +:+ remove_dashes (accessionNumber filing_obj) +:+ "/" +:+ file.

Section Env2.
Context {World : Type}.
Variable get_request : string -> World -> option Response * World.

(** [json.loads] on the body of the company directory: the values of the
    decoded object, in order. *)
Variable json_loads_tickers : string -> result (list TickerItem).

Definition ticker_to_cik (ticker : string) : io (World := World) (option string) :=
  response ← do_request get_request tickers_url;
  match response with
  | None => io_raise AttributeError
  | Some response =>
      data ← io_lift (json_loads_tickers (text response));
      io_ret (lookup_cik data ticker)
  end.

Definition get_filing_text (filing_obj : Filing) : io (World := World) string :=
  response ← do_request get_request
    (archive_url filing_obj (accessionNumber filing_obj +:+ ".txt"));
  match response with
  | None => io_raise AttributeError
  | Some response => io_ret (text response)
  end.

Definition get_primary_document (filing_obj : Filing)
  : io (World := World) string :=
  match split_slash (primaryDocument filing_obj) !! 1%nat with
  | None => io_raise IndexError
  | Some document =>
      response ← do_request get_request (archive_url filing_obj document);
      match response with
      | None => io_raise AttributeError
      | Some response => io_ret (content response)
      end
  end.

(** The lookup [ticker_to_cik(company_query.lower())] that
    [process_company_query] of [app.py] makes for a query that is not
    empty. *)
Definition query_cik (company_query : string) : io (World := World) (option string) :=
  ticker_to_cik (lower company_query).

End Env2.

(** *** Sample data of the further properties *)

(** A filings index whose arrays have different lengths. *)
Definition ragged_recent : RecentFilings :=
  mkRecentFilings ["0000320193-23-000106"; "0000320193-23-000090"]
                  ["2023-11-03"; "2023-10-02"; "2023-08-04"]
                  ["2023-09-30"; "2023-09-28"]
                  ["10-K"]
                  ["aapl-20230930.htm"; "aapl-20230928.htm"]
                  ["10-K"; "8-K"].

Definition ragged_filings_data : FilingsData :=
  mkFilingsData "Apple Inc." "3571" "Electronic Computers" "942404110"
                "0930" ["Nasdaq"; "Nasdaq"] ragged_recent.

Definition ragged_response_json (response : Response) : result FilingsData :=
  Ok ragged_filings_data.

(** The number a string of decimal digits denotes, leading zeros
    allowed. *)
Definition decimal_value (s : string) : option N :=
  match NilEmpty.uint_of_string s with
  | Some d => Some (N.of_uint d)
  | None => None
  end.

Definition sample_tickers : list TickerItem :=
  [ mkTickerItem "AAPL" (JInt 320193);
    mkTickerItem "MSFT" (JInt 789019);
    mkTickerItem "AAPL" (JInt 320194) ].

Definition sample_json_loads_tickers (body : string)
  : result (list TickerItem) :=
  Ok sample_tickers.

Definition sample_document_filing : Filing :=
  mkFiling "0000320193" "AAPL" "0000320193-23-000106" "2023-11-03"
    "2023-09-30" "10-K" "ix/aapl-20230930.htm" "10-K" "No summary" None.

Definition min6 (a b c d e f : nat) : nat :=
  Nat.min a (Nat.min b (Nat.min c (Nat.min d (Nat.min e f)))).

(** A date at midnight, as [strptime] builds one from a [%Y-%m-%d]
    string. *)
Definition midnight_date (d : datetime) : Prop :=
  1 <= year d <= 9999 /\ 1 <= month d <= 12
  /\ 1 <= day d <= days_in_month (year d) (month d)
  /\ hour d = 0 /\ minute d = 0 /\ second d = 0 /\ microsecond d = 0.

(** A company-concept payload whose second observation carries a date
    that is not in the [%Y-%m-%d] format. *)
Definition bad_date_series : list UnitEntry :=
  [ mkUnitEntry (JInt 2023) "FY" "2023-09-30" "0000320193-23-000106" "10-K"
                383285000000;
    mkUnitEntry (JInt 2023) "Q1" "2022/12/31" "0000320193-23-000006" "10-Q"
                117154000000 ].

Definition bad_date_payload : ConceptFacts :=
  mkConceptFacts (JInt 320193) "Revenues" [("USD", bad_date_series)].

Definition bad_date_json_loads (body : string) : result ConceptFacts :=
  Ok bad_date_payload.

(** Three statements in ascending order of [end_date], the last two on
    the same date. *)
Definition sample_statement (end_date : datetime) (fp : string)
  : StatementObject :=
  {| so_cik := JInt 320193; so_gaap_item := "Revenues";
     so_end_date := end_date; so_accn := "0000320193-23-000106";
     so_form := "10-K"; so_fy := "2023"; so_fp := fp;
     so_value := "$383.29B" |}.

Definition sample_statements : list StatementObject :=
  [ sample_statement (Datetime 2022 12 31 0 0 0 0) "Q1";
    sample_statement (Datetime 2023 9 30 0 0 0 0) "FY";
    sample_statement (Datetime 2023 9 30 0 0 0 0) "Q4" ].

(** The sample filings after an augmentation that found one fact for the
    annual report and none for the quarterly one. *)
Definition sample_augmented_filings : list Filing :=
  [ mkFiling "0000320193" "AAPL" "0000320193-23-000106" "2023-11-03"
      "2023-09-30" "10-K" "aapl-20230930.htm" "10-K" "No summary"
      (Some [fact_of sample_root sample_fact]);
    mkFiling "0000320193" "AAPL" "0000320193-23-000090" "2023-10-02"
      "2023-09-28" "8-K" "aapl-20230928.htm" "8-K" "No summary" None;
    mkFiling "0000320193" "AAPL" "0000320193-23-000077" "2023-08-04"
      "2023-07-01" "10-q" "aapl-20230701.htm" "10-Q" "No summary" (Some []) ].

(** A world that records the URL of every request; in it every request
    fails, so [get_request] gives no response. *)
Definition offline_get_request (url : string) (w : list string)
  : option Response * list string :=
  (None, w ++ [url]).

(** A recording world whose pages hold no table. *)
Definition recording_get_request (url : string) (w : list string)
  : option Response * list string :=
  (Some sample_response, w ++ [url]).

Definition no_table (page : string) : option (list (option string)) := None.

Definition no_links (page : string) : option (list (option string)) :=
  Some [None; Some "aapl-20230930.htm"].

(** * Properties *)

(** ** Evaluations of the library models *)

Example fmt_1 : format_value_as_readable 1500000000 = Ok "$1.50B".
Proof. vm_compute. reflexivity. Qed.
Example fmt_2 : format_value_as_readable 2500000 = Ok "$2.50M".
Proof. vm_compute. reflexivity. Qed.
Example fmt_3 : format_value_as_readable 750 = Ok "$750.00".
Proof. vm_compute. reflexivity. Qed.
Example fmt_4 : format_value_as_readable 42 = Ok "$42.00".
Proof. vm_compute. reflexivity. Qed.
Example fmt_5 : format_value_as_readable (-1500000000) = Ok "$-1,500,000,000.00".
Proof. vm_compute. reflexivity. Qed.
Example fmt_6 : format_value_as_readable 1015000000 = Ok "$1.01B".
Proof. vm_compute. reflexivity. Qed.
Example fmt_7 : format_value_as_readable 999999999 = Ok "$1,000.00M".
Proof. vm_compute. reflexivity. Qed.
Example fmt_8 : format_value_as_readable 1234567890123 = Ok "$1,234.57B".
Proof. vm_compute. reflexivity. Qed.
Example fmt_9 : format_value_as_readable (10 ^ 400) = Raise OverflowError.
Proof. vm_compute. reflexivity. Qed.
Example py_float_max : py_float (2 ^ 1024 - 2 ^ 970 - 1) = Ok (Float (2 ^ 53 - 1) 971).
Proof. vm_compute. reflexivity. Qed.
Example py_float_overflow : py_float (2 ^ 1024 - 2 ^ 970) = Raise OverflowError.
Proof. vm_compute. reflexivity. Qed.
Example strptime_1 : strptime_ymd "2023-09-30" = Ok (Datetime 2023 9 30 0 0 0 0).
Proof. reflexivity. Qed.
Example strptime_2 : strptime_ymd "2023-9-3" = Ok (Datetime 2023 9 3 0 0 0 0).
Proof. reflexivity. Qed.
Example strptime_3 : strptime_ymd "2023-02-29" = Raise ValueError.
Proof. reflexivity. Qed.
Example strptime_4 : strptime_ymd "0000-01-01" = Raise ValueError.
Proof. reflexivity. Qed.
Example strptime_5 : strptime_ymd "2023-09-30 " = Raise ValueError.
Proof. reflexivity. Qed.
Example strptime_6 : strptime_ymd "2023-09- 3" = Ok (Datetime 2023 9 3 0 0 0 0).
Proof. reflexivity. Qed.
Example strptime_7 : strptime_ymd "2023-13-01" = Raise ValueError.
Proof. reflexivity. Qed.
Example strptime_8 : strptime_ymd "2024-02-29" = Ok (Datetime 2024 2 29 0 0 0 0).
Proof. reflexivity. Qed.
Example breaks_predicate_1 : breaks_predicate "a'b" = true.
Proof. reflexivity. Qed.
Example breaks_predicate_2 : breaks_predicate "N/A" = false.
Proof. reflexivity. Qed.
Example breaks_predicate_3 : breaks_predicate "a'][@k='v" = false.
Proof. reflexivity. Qed.
Example upper_1 : upper "10-q" = "10-Q".
Proof. reflexivity. Qed.
Example first_xml_href_1 :
  first_xml_href [None; Some "/a/b/x.htm"; Some "/a/b/x_htm.xml"]
  = Some "x_htm.xml".
Proof. reflexivity. Qed.
Example before_dot_1 : before_dot (py_str (JStr "2023.0")) = "2023".
Proof. reflexivity. Qed.
Example before_dot_2 : before_dot (py_str (JInt 2023)) = "2023".
Proof. reflexivity. Qed.
Example str_take2_1 : str_take2 "0930" +:+ "/" +:+ str_drop2 "0930" = "09/30".
Proof. reflexivity. Qed.
Example str_take2_2 : str_take2 "é1" +:+ "/" +:+ str_drop2 "é1" = "é1/".
Proof. reflexivity. Qed.
Example str_take2_3 : str_take2 "9" +:+ "/" +:+ str_drop2 "9" = "9/".
Proof. reflexivity. Qed.

(** ** The magnitude formatter *)

Lemma rne_div_error (a b : Z) : 0 < b -> 2 * Z.abs (rne_div a b * b - a) <= b.
Proof.
  intros Hb. unfold rne_div.
  pose proof (Z.div_mod a b ltac:(lia)) as Hdm.
  pose proof (Z.mod_pos_bound a b Hb) as Hr.
  set (q := a / b) in *. set (r := a mod b) in *.
  destruct (Z.ltb_spec (2 * r) b); [nia|].
  destruct (Z.ltb_spec b (2 * r)); [nia|].
  destruct (Z.even q); nia.
Qed.

Lemma log2_gap (n d : Z) (k : Z) :
  0 < n -> 0 < d -> 0 <= k -> n < d * 2 ^ k -> Z.log2 n - Z.log2 d <= k.
Proof.
  intros Hn Hd Hk Hlt.
  destruct (Z.log2_spec n Hn) as [Hn1 _].
  destruct (Z.log2_spec d Hd) as [_ Hd2].
  pose proof (Z.log2_nonneg d) as Hld.
  destruct (Z_le_gt_dec (Z.log2 n - Z.log2 d) k) as [|Hgt]; [done|exfalso].
  assert (Hle : 2 ^ (Z.succ (Z.log2 d) + k) <= 2 ^ Z.log2 n)
    by (apply Z.pow_le_mono_r; lia).
  rewrite Z.pow_add_r in Hle by lia.
  assert (0 < 2 ^ k) by (apply Z.pow_pos_nonneg; lia).
  nia.
Qed.

Lemma binary64_exponent_small (n d : Z) :
  0 < n -> 0 < d -> n < d * 2 ^ 45 -> -1074 <= binary64_exponent n d <= -7.
Proof.
  intros Hn Hd Hlt. unfold binary64_exponent.
  pose proof (log2_gap n d 45 Hn Hd ltac:(lia) Hlt).
  destruct (2 ^ 53 <=? _); lia.
Qed.

(** Below [2 ^ 45] the quotient is rendered to within one hundredth. *)
Lemma round_binary64_hundredths (n d : Z) :
  0 <= n -> 0 < d -> n < d * 2 ^ 45 ->
  exists x, round_binary64 n d = Ok x /\ 0 <= f_mant x
            /\ Z.abs (hundredths x * d - 100 * n) < d.
Proof.
  intros Hn Hd Hlt. unfold round_binary64.
  destruct (Z.eqb_spec n 0) as [->|Hn0].
  { eexists; split; [reflexivity|]. split; [simpl; lia|]. vm_compute hundredths. lia. }
  pose proof (binary64_exponent_small n d ltac:(lia) Hd Hlt) as He.
  set (e := binary64_exponent n d) in *.
  assert ((971 <? e) || (e =? 971) && (2 ^ 53 <=? scaled_rne n d e) = false) as ->.
  { destruct (Z.ltb_spec 971 e); [lia|]. destruct (Z.eqb_spec e 971); [lia|done]. }
  eexists; split; [reflexivity|].
  unfold hundredths, scaled_rne; simpl f_mant; simpl f_exp.
  destruct (Z.leb_spec 0 e); [lia|].
  destruct (Z.leb_spec 0 (- e)); [|lia].
  set (k := - e) in *.
  assert (Hk : 2 ^ 7 <= 2 ^ k) by (apply Z.pow_le_mono_r; lia).
  change (2 ^ 7) with 128 in Hk.
  assert (Hm := rne_div_error (n * 2 ^ k) d Hd).
  set (m := rne_div (n * 2 ^ k) d) in *.
  assert (Hm0 : 0 <= m).
  { subst m. unfold rne_div.
    assert (0 <= n * 2 ^ k / d) by (apply Z.div_pos; nia).
    repeat case_match; lia. }
  split; [done|].
  rewrite (Z.abs_eq m) by done.
  assert (Hh := rne_div_error (m * 100) (1 * 2 ^ k) ltac:(lia)).
  set (h := rne_div (m * 100) (1 * 2 ^ k)) in *.
  nia.
Qed.

Lemma append_empty (s : string) : s +:+ EmptyString = s.
Proof.
  induction s as [|c s IH]; [done|].
  change (String c (s +:+ EmptyString) = String c s). by rewrite IH.
Qed.

Lemma format_branch (v d : Z) (suffix : string) :
  0 <= v -> 0 < d -> v < d * 2 ^ 45 ->
  exists h,
    (x ← py_truediv v d; mret ("$" +:+ format_2f x +:+ suffix))
      = Ok ("$" +:+ render_hundredths false h +:+ suffix)
    /\ Z.abs (h * d - 100 * v) < d.
Proof.
  intros Hv Hd Hlt. unfold py_truediv.
  destruct (Z.leb_spec 0 v); [|lia].
  destruct (round_binary64_hundredths v d Hv Hd Hlt) as (x & -> & Hx & Hh).
  exists (hundredths x). split; [|done].
  simpl. unfold format_2f. destruct (Z.ltb_spec (f_mant x) 0); [lia|done].
Qed.

(** C2 (as amended).  For an int [0 <= v < 10 ^ 18] the formatter applies
    its thresholds to [v]: from [10 ^ 9] up it renders [v / 10 ^ 9] with the
    suffix [B], from [10 ^ 6] up [v / 10 ^ 6] with [M], from [10 ^ 3] up
    [v / 10 ^ 3] with [K], and below [10 ^ 3] the value itself; the numeric
    portion has two decimals and thousands separators after a leading [$],
    and it is less than one hundredth away from the quotient (equal to the
    value in the raw case).  In particular 1_500_000_000 gives ["$1.50B"],
    2_500_000 gives ["$2.50M"], 750 gives ["$750.00"] and 42 gives
    ["$42.00"]. *)
Theorem format_value_as_readable_thresholds (v : Z) :
  0 <= v < 10 ^ 18 ->
  (10 ^ 9 <= v ->
     exists h, format_value_as_readable v
                 = Ok ("$" +:+ render_hundredths false h +:+ "B")
               /\ Z.abs (h * 10 ^ 9 - 100 * v) < 10 ^ 9)
  /\ (10 ^ 6 <= v < 10 ^ 9 ->
     exists h, format_value_as_readable v
                 = Ok ("$" +:+ render_hundredths false h +:+ "M")
               /\ Z.abs (h * 10 ^ 6 - 100 * v) < 10 ^ 6)
  /\ (10 ^ 3 <= v < 10 ^ 6 ->
     exists h, format_value_as_readable v
                 = Ok ("$" +:+ render_hundredths false h +:+ "K")
               /\ Z.abs (h * 10 ^ 3 - 100 * v) < 10 ^ 3)
  /\ (v < 10 ^ 3 ->
     format_value_as_readable v
       = Ok ("$" +:+ render_hundredths false (100 * v)))
  /\ render_hundredths false 123456789 = "1,234,567.89"
  /\ format_value_as_readable 1500000000 = Ok "$1.50B"
  /\ format_value_as_readable 2500000 = Ok "$2.50M"
  /\ format_value_as_readable 750 = Ok "$750.00"
  /\ format_value_as_readable 42 = Ok "$42.00".
Proof.
  change (10 ^ 18) with 1000000000000000000.
  change (10 ^ 9) with 1000000000.
  change (10 ^ 6) with 1000000.
  change (10 ^ 3) with 1000.
  intros Hv.
  assert (H45 : 2 ^ 45 = 35184372088832) by reflexivity.
  split; [|split; [|split; [|split; [|repeat split; vm_compute; reflexivity]]]].
  - intros Hge. unfold format_value_as_readable.
    destruct (Z.leb_spec 1000000000 v); [|lia].
    apply format_branch; lia.
  - intros Hge. unfold format_value_as_readable.
    destruct (Z.leb_spec 1000000000 v); [lia|].
    destruct (Z.leb_spec 1000000 v); [|lia].
    apply format_branch; lia.
  - intros Hge. unfold format_value_as_readable.
    destruct (Z.leb_spec 1000000000 v); [lia|].
    destruct (Z.leb_spec 1000000 v); [lia|].
    destruct (Z.leb_spec 1000 v); [|lia].
    apply format_branch; lia.
  - intros Hlt. unfold format_value_as_readable.
    destruct (Z.leb_spec 1000000000 v); [lia|].
    destruct (Z.leb_spec 1000000 v); [lia|].
    destruct (Z.leb_spec 1000 v); [lia|].
    destruct (format_branch v 1 EmptyString ltac:(lia) ltac:(lia) ltac:(lia))
      as (h & Heq & Hh).
    assert (h = 100 * v) as -> by lia.
    unfold py_float. destruct (py_truediv v 1) as [x|err]; [|done].
    simpl in *. by rewrite !append_empty in Heq.
Qed.

Lemma format_value_as_readable_thresholds_witness :
  0 <= 1234567890 < 10 ^ 18
  /\ exists h, format_value_as_readable 1234567890
                = Ok ("$" +:+ render_hundredths false h +:+ "B")
              /\ Z.abs (h * 10 ^ 9 - 100 * 1234567890) < 10 ^ 9.
Proof.
  assert (H : 0 <= 1234567890 < 10 ^ 18) by (vm_compute; split; congruence).
  split; [exact H|].
  apply (proj1 (format_value_as_readable_thresholds 1234567890 H)).
  vm_compute; congruence.
Defined.

(** C2 (as stated) fails: 750 is below the [K] threshold and is rendered
    raw, and a negative magnitude is compared with its sign, so it is never
    scaled. *)
Lemma format_value_as_readable_not_abs :
  format_value_as_readable 750 <> Ok "$0.75K"
  /\ format_value_as_readable 750 = Ok "$750.00"
  /\ format_value_as_readable (-1500000000) = Ok "$-1,500,000,000.00".
Proof. vm_compute. repeat split; congruence. Qed.

(** ** Sorting by date *)

Section SortedFacts.
Context {A K : Type} (key : A -> K) (ltb : K -> K -> bool).
Hypothesis ltb_asym : forall a b, ltb a b = true -> ltb b a = false.
Hypothesis le_trans :
  forall a b c, ltb b a = false -> ltb c b = false -> ltb c a = false.

Lemma insert_by_perm (x : A) (l : list A) :
  Permutation (insert_by key ltb x l) (x :: l).
Proof.
  induction l as [|y l IH]; simpl; [done|].
  destruct (ltb (key y) (key x)); [|done].
  rewrite IH. apply perm_swap.
Qed.

Lemma sorted_by_perm (l : list A) : Permutation (sorted_by key ltb l) l.
Proof.
  induction l as [|x l IH]; simpl; [done|].
  rewrite insert_by_perm. by constructor.
Qed.

Lemma insert_by_sorted (x : A) (l : list A) :
  StronglySorted (key_le key ltb) l ->
  StronglySorted (key_le key ltb) (insert_by key ltb x l).
Proof.
  induction 1 as [|y l Hl IH Hy]; simpl.
  - repeat constructor.
  - destruct (ltb (key y) (key x)) eqn:Hyx.
    + constructor; [done|].
      rewrite insert_by_perm.
      constructor; [|done]. by apply ltb_asym.
    + constructor; [by constructor|].
      constructor; [done|].
      eapply Forall_impl; [exact Hy|].
      intros z Hz. unfold key_le in *. by eapply le_trans.
Qed.

Lemma sorted_by_sorted (l : list A) :
  StronglySorted (key_le key ltb) (sorted_by key ltb l).
Proof.
  induction l; simpl; [constructor|]. by apply insert_by_sorted.
Qed.

(** Inserting [x] leaves a class of elements in its order when the members
    of the class are never smaller than one another; [x] comes first among
    them. *)
Lemma insert_by_filter (p : A -> bool) (x : A) (l : list A) :
  (forall a b, p a = true -> p b = true -> ltb (key a) (key b) = false) ->
  List.filter p (insert_by key ltb x l) = List.filter p (x :: l).
Proof.
  intros Hp. induction l as [|y l IH]; [done|].
  simpl insert_by. destruct (ltb (key y) (key x)) eqn:Hyx; [|done].
  simpl in *. rewrite IH.
  destruct (p x) eqn:Hx, (p y) eqn:Hy; try done.
  by rewrite Hp in Hyx.
Qed.

Lemma sorted_by_filter (p : A -> bool) (l : list A) :
  (forall a b, p a = true -> p b = true -> ltb (key a) (key b) = false) ->
  List.filter p (sorted_by key ltb l) = List.filter p l.
Proof.
  intros Hp. induction l as [|x l IH]; [done|].
  simpl sorted_by. rewrite insert_by_filter by done.
  simpl. by rewrite IH.
Qed.

Hypothesis ltb_irrefl : forall k, ltb k k = false.

Lemma same_key_refl (x : A) : same_key key ltb x x = true.
Proof. unfold same_key. by rewrite ltb_irrefl. Qed.

Lemma sorted_head_le (x y : A) (l : list A) :
  StronglySorted (key_le key ltb) (x :: l) -> y ∈ x :: l ->
  ltb (key y) (key x) = false.
Proof.
  intros Hs [->|Hin]%elem_of_cons; [apply ltb_irrefl|].
  apply StronglySorted_inv in Hs as [_ Hall].
  by apply (proj1 (Forall_forall _ _) Hall).
Qed.

Lemma filter_head_elem (p : A -> bool) (x : A) (l l' : list A) :
  List.filter p l = x :: l' -> x ∈ l.
Proof.
  intros H. apply list_elem_of_In.
  apply (proj1 (filter_In p x l)). rewrite H. by left.
Qed.

(** Two sorted lists in which every class of equal keys appears in the
    same order are the same list. *)
Lemma stable_sorted_unique (l1 l2 : list A) :
  StronglySorted (key_le key ltb) l1 ->
  StronglySorted (key_le key ltb) l2 ->
  (forall x, List.filter (same_key key ltb x) l1
             = List.filter (same_key key ltb x) l2) ->
  l1 = l2.
Proof.
  revert l2. induction l1 as [|x t1 IH]; intros l2 Hs1 Hs2 Hf.
  - destruct l2 as [|y t2]; [done|].
    specialize (Hf y). simpl in Hf. by rewrite same_key_refl in Hf.
  - destruct l2 as [|y t2].
    { specialize (Hf x). simpl in Hf. by rewrite same_key_refl in Hf. }
    assert (Hx : x ∈ y :: t2).
    { eapply (filter_head_elem (same_key key ltb x)).
      rewrite <- Hf. simpl. by rewrite same_key_refl. }
    assert (Hy : y ∈ x :: t1).
    { eapply (filter_head_elem (same_key key ltb y)).
      rewrite Hf. simpl. by rewrite same_key_refl. }
    pose proof (sorted_head_le _ _ _ Hs1 Hy) as Hxy.
    pose proof (sorted_head_le _ _ _ Hs2 Hx) as Hyx.
    assert (Hsame : same_key key ltb x y = true)
      by (unfold same_key; by rewrite Hxy, Hyx).
    pose proof (Hf x) as Hfx. simpl in Hfx.
    rewrite same_key_refl, Hsame in Hfx. injection Hfx as <- _.
    f_equal. apply IH.
    + by apply StronglySorted_inv in Hs1 as [? _].
    + by apply StronglySorted_inv in Hs2 as [? _].
    + intros z. specialize (Hf z). simpl in Hf.
      destruct (same_key key ltb z x); [by injection Hf|done].
Qed.

(** Every stable sort by [key] returns what [sorted_by] returns. *)
Lemma sorted_by_unique (l out : list A) :
  StronglySorted (key_le key ltb) out ->
  (forall x, List.filter (same_key key ltb x) out
             = List.filter (same_key key ltb x) l) ->
  out = sorted_by key ltb l.
Proof.
  intros Hs Hf. apply stable_sorted_unique; [done|apply sorted_by_sorted|].
  intros x. rewrite Hf. symmetry. apply sorted_by_filter.
  intros a b [Ha1 Ha2]%andb_true_iff [Hb1 Hb2]%andb_true_iff.
  apply negb_true_iff in Ha1, Ha2, Hb1, Hb2.
  by apply (le_trans _ (key x)).
Qed.

End SortedFacts.

Lemma lex_ltb_irrefl (a : list Z) : lex_ltb a a = false.
Proof.
  induction a as [|x a IH]; [done|]. simpl.
  rewrite Z.ltb_irrefl, Z.eqb_refl. done.
Qed.

Lemma lex_ltb_asym (a b : list Z) : lex_ltb a b = true -> lex_ltb b a = false.
Proof.
  revert b. induction a as [|x a IH]; intros [|y b]; simpl; try done.
  destruct (Z.ltb_spec x y), (Z.eqb_spec x y), (Z.ltb_spec y x),
    (Z.eqb_spec y x); simpl; try lia; try done.
  apply IH.
Qed.

Lemma lex_le_trans (a b c : list Z) :
  length a = length b -> length b = length c ->
  lex_ltb b a = false -> lex_ltb c b = false -> lex_ltb c a = false.
Proof.
  revert b c. induction a as [|x a IH]; intros [|y b] [|z c]; simpl; try done.
  intros Hab Hbc.
  destruct (Z.ltb_spec y x), (Z.eqb_spec y x), (Z.ltb_spec z y),
    (Z.eqb_spec z y), (Z.ltb_spec z x), (Z.eqb_spec z x);
    simpl; try lia; try done.
  apply IH; lia.
Qed.

Lemma datetime_ltb_irrefl (d : datetime) : datetime_ltb d d = false.
Proof. apply lex_ltb_irrefl. Qed.

Lemma datetime_ltb_asym (d1 d2 : datetime) :
  datetime_ltb d1 d2 = true -> datetime_ltb d2 d1 = false.
Proof. apply lex_ltb_asym. Qed.

Lemma datetime_le_trans (d1 d2 d3 : datetime) :
  datetime_ltb d2 d1 = false -> datetime_ltb d3 d2 = false ->
  datetime_ltb d3 d1 = false.
Proof. apply lex_le_trans; reflexivity. Qed.

(** C9.  [sort_statements_by_date] returns the statements sorted by
    [end_date] ascending (a permutation of the input in which no statement
    is followed by one with a smaller date), and the sort is stable: the
    statements that share any given [end_date] appear in the output in
    their input order. *)
Theorem sort_statements_by_date_stable (statements : list StatementObject) :
  Permutation (sort_statements_by_date statements) statements
  /\ StronglySorted
       (fun a b => datetime_ltb (so_end_date b) (so_end_date a) = false)
       (sort_statements_by_date statements)
  /\ forall d : datetime,
       List.filter (fun s => bool_decide (so_end_date s = d))
                   (sort_statements_by_date statements)
       = List.filter (fun s => bool_decide (so_end_date s = d)) statements.
Proof.
  unfold sort_statements_by_date. split; [apply sorted_by_perm|]. split.
  - apply (sorted_by_sorted so_end_date datetime_ltb).
    + apply datetime_ltb_asym.
    + apply datetime_le_trans.
  - intros d. apply sorted_by_filter.
    intros a b Ha%bool_decide_eq_true Hb%bool_decide_eq_true.
    rewrite Ha, Hb. apply datetime_ltb_irrefl.
Qed.

(** ** The statement deduplicator *)

Lemma result_mapM_Ok {A B} (f : A -> result B) (l : list A) :
  Forall (fun x => is_Ok (f x)) l ->
  exists out, result_mapM f l = Ok out /\ Forall2 (fun x y => f x = Ok y) l out.
Proof.
  induction 1 as [|x l [y Hy] _ (ys & Hys & IH)]; simpl.
  - exists []. by split.
  - exists (y :: ys). rewrite Hy. simpl. rewrite Hys. simpl.
    split; [done|]. by constructor.
Qed.

Lemma statement_loop_unseen data l seen acc :
  statement_loop data l seen acc
  = objs ← result_mapM (make_statement_object data) (unseen seen l);
    mret (acc ++ objs).
Proof.
  revert seen acc. induction l as [|e l IH]; intros seen acc; simpl.
  - by rewrite app_nil_r.
  - destruct (decide (fp_end_date_tuple e ∈ seen)); [apply IH|].
    simpl. destruct (make_statement_object data e) as [o|err]; simpl; [|done].
    rewrite IH.
    destruct (result_mapM _ _) as [objs|err]; simpl; [|done].
    by rewrite <- app_assoc.
Qed.

Lemma unseen_sublist seen l : sublist (unseen seen l) l.
Proof.
  revert seen. induction l as [|e l IH]; intros seen; simpl; [constructor|].
  destruct (decide _); [apply sublist_cons | apply sublist_skip]; apply IH.
Qed.






Lemma well_formed_entry_Ok data e :
  well_formed_entry e -> is_Ok (make_statement_object data e).
Proof.
  intros [[d Hd] [v Hv]]. unfold make_statement_object.
  rewrite Hd. simpl. rewrite Hv. simpl. by eexists.
Qed.

Lemma statement_objects_of_first data name series others :
  cf_units data = (name, series) :: others ->
  statement_objects_of data
  = result_mapM (make_statement_object data) (unseen ∅ series).
Proof.
  intros Hu. unfold statement_objects_of, first_unit_group. rewrite Hu.
  simpl. rewrite statement_loop_unseen.
  by destruct (result_mapM _ _).
Qed.

Section StatementData.
Context {World : Type}.
Variable get_request : string -> World -> option Response * World.
Variable json_loads_concept : string -> result ConceptFacts.

Lemma get_statement_data_success cik gaap_item w w' response data :
  get_request (concept_url cik gaap_item) w = (Some response, w') ->
  ok response = true ->
  json_loads_concept (text response) = Ok data ->
  get_statement_data get_request json_loads_concept cik gaap_item w
  = (Some <$> statement_objects_of data, w').
Proof.
  intros Hreq Hok Hdata.
  unfold get_statement_data, mbind, io_mbind, io_bind, do_request.
  rewrite Hreq, Hok. unfold io_lift. rewrite Hdata.
  by destruct (statement_objects_of data).
Qed.

Lemma get_statement_data_converts
    cik gaap_item w w' response data name series others :
  get_request (concept_url cik gaap_item) w = (Some response, w') ->
  ok response = true ->
  json_loads_concept (text response) = Ok data ->
  cf_units data = (name, series) :: others ->
  Forall well_formed_entry series ->
  exists out,
    get_statement_data get_request json_loads_concept cik gaap_item w
      = (Ok (Some out), w')
    /\ Forall2 (fun e o => make_statement_object data e = Ok o)
               (unseen ∅ series) out.
Proof.
  intros Hreq Hok Hdata Hu Hwf.
  rewrite (get_statement_data_success _ _ _ _ _ _ Hreq Hok Hdata).
  rewrite (statement_objects_of_first _ _ _ _ Hu).
  destruct (result_mapM_Ok (make_statement_object data) (unseen ∅ series))
    as (out & Hout & Hall).
  { apply Forall_forall. intros e He. apply well_formed_entry_Ok.
    eapply (proj1 (Forall_forall _ _) Hwf), elem_of_sublist;
      [exact He|apply unseen_sublist]. }
  exists out. by rewrite Hout.
Qed.

Lemma make_statement_object_fields data unit o :
  make_statement_object data unit = Ok o ->
  so_cik o = cf_cik data /\ so_gaap_item o = cf_tag data
  /\ so_accn o = u_accn unit /\ so_form o = u_form unit
  /\ so_fp o = u_fp unit
  /\ strptime_ymd (u_end unit) = Ok (so_end_date o)
  /\ format_value_as_readable (u_val unit) = Ok (so_value o)
  /\ so_fy o = before_dot (py_str (u_fy unit)).
Proof.
  unfold make_statement_object.
  destruct (strptime_ymd (u_end unit)) as [d|]; [|done].
  destruct (format_value_as_readable (u_val unit)) as [v|]; [|done].
  by intros [= <-].
Qed.


Lemma result_mapM_inv {A B} (f : A -> result B) (l : list A) out :
  result_mapM f l = Ok out -> Forall2 (fun x y => f x = Ok y) l out.
Proof.
  revert out. induction l as [|x l IH]; intros out; simpl.
  - intros [= <-]. constructor.
  - destruct (f x) as [y|] eqn:Hy; simpl; [|done].
    destruct (result_mapM f l) as [ys|]; simpl; [|done].
    intros [= <-]. constructor; [done|]. by apply IH.
Qed.

Lemma make_statement_object_only_first data e :
  make_statement_object (only_first_group data) e
  = make_statement_object data e.
Proof. reflexivity. Qed.

(** C7.  When the units mapping declares more than one unit group,
    [get_statement_data] consults the first one only: its outcome is that
    of the response with every other group removed, and every observation
    of its output is the conversion of an entry of the first group. *)
Theorem get_statement_data_first_group_only
    cik gaap_item w w' response data name series second others :
  get_request (concept_url cik gaap_item) w = (Some response, w') ->
  ok response = true ->
  json_loads_concept (text response) = Ok data ->
  cf_units data = (name, series) :: second :: others ->
  get_statement_data get_request json_loads_concept cik gaap_item w
    = (Some <$> statement_objects_of (only_first_group data), w')
  /\ cf_units (only_first_group data) = [(name, series)]
  /\ forall out,
       get_statement_data get_request json_loads_concept cik gaap_item w
         = (Ok (Some out), w') ->
       forall o, o ∈ out ->
         exists e, e ∈ series /\ make_statement_object data e = Ok o.
Proof.
  intros Hreq Hok Hdata Hu.
  rewrite (get_statement_data_success _ _ _ _ _ _ Hreq Hok Hdata).
  assert (Hfirst : cf_units (only_first_group data) = [(name, series)])
    by (simpl; by rewrite Hu).
  rewrite (statement_objects_of_first _ _ _ _ Hu).
  rewrite (statement_objects_of_first _ _ _ _ Hfirst).
  repeat split; [done|].
  intros out Hrun o Ho.
  destruct (result_mapM _ _) as [out'|] eqn:Hout; [|done].
  injection Hrun as <-.
  apply result_mapM_inv in Hout.
  apply list_elem_of_lookup in Ho as [i Hi].
  destruct (Forall2_lookup_r _ _ _ _ _ Hout Hi) as (e & He & Hmk).
  exists e. split; [|done].
  eapply elem_of_sublist; [|apply unseen_sublist].
  eapply list_elem_of_lookup_2, He.
Qed.

(** C8 (as amended).  A response with a non-success status makes
    [get_statement_data] return [None] without raising; a successful
    response whose payload declares at least one unit group, the first
    one a series of well-formed observations, makes it return a list of
    [StatementObject]. *)
Theorem get_statement_data_status :
  (forall cik gaap_item w w' response,
      get_request (concept_url cik gaap_item) w = (Some response, w') ->
      ok response = false ->
      get_statement_data get_request json_loads_concept cik gaap_item w
        = (Ok None, w'))
  /\ (forall cik gaap_item w w' response data name series others,
      get_request (concept_url cik gaap_item) w = (Some response, w') ->
      ok response = true ->
      json_loads_concept (text response) = Ok data ->
      cf_units data = (name, series) :: others ->
      Forall well_formed_entry series ->
      exists out,
        get_statement_data get_request json_loads_concept cik gaap_item w
          = (Ok (Some out), w')).
Proof.
  split.
  - intros cik gaap_item w w' response Hreq Hok.
    unfold get_statement_data, mbind, io_mbind, io_bind, do_request.
    by rewrite Hreq, Hok.
  - intros cik gaap_item w w' response data name series others
      Hreq Hok Hdata Hu Hwf.
    destruct (get_statement_data_converts _ _ _ _ _ _ _ _ _
                Hreq Hok Hdata Hu Hwf) as (out & Hrun & _).
    by exists out.
Qed.

(** A request that raised leaves [get_request] without a response, and
    reading [response.ok] fails. *)
Lemma get_statement_data_no_response cik gaap_item w w' :
  get_request (concept_url cik gaap_item) w = (None, w') ->
  get_statement_data get_request json_loads_concept cik gaap_item w
    = (Raise AttributeError, w').
Proof.
  intros Hreq.
  unfold get_statement_data, mbind, io_mbind, io_bind, do_request.
  by rewrite Hreq.
Qed.

Lemma get_statement_data_no_units cik gaap_item w w' response data :
  get_request (concept_url cik gaap_item) w = (Some response, w') ->
  ok response = true ->
  json_loads_concept (text response) = Ok data ->
  cf_units data = [] ->
  get_statement_data get_request json_loads_concept cik gaap_item w
    = (Raise IndexError, w').
Proof.
  intros Hreq Hok Hdata Hu.
  rewrite (get_statement_data_success _ _ _ _ _ _ Hreq Hok Hdata).
  unfold statement_objects_of, first_unit_group. by rewrite Hu.
Qed.

End StatementData.

Lemma scenario_series_well_formed : Forall well_formed_entry scenario_series.
Proof. repeat constructor; eexists; vm_compute; reflexivity. Defined.



Lemma get_statement_data_first_group_only_witness :
  get_statement_data sample_get_request two_group_json_loads
    "0000320193" "Revenues" tt
  = (Some <$> statement_objects_of (only_first_group two_group_payload), tt).
Proof.
  apply (get_statement_data_first_group_only
           sample_get_request two_group_json_loads "0000320193" "Revenues"
           tt tt sample_response two_group_payload "USD" scenario_series
           _ [] eq_refl eq_refl eq_refl eq_refl).
Defined.

Lemma get_statement_data_status_witness :
  get_statement_data not_found_get_request sample_json_loads
    "0000320193" "Revenues" tt = (Ok None, tt)
  /\ exists out,
       get_statement_data sample_get_request sample_json_loads
         "0000320193" "Revenues" tt = (Ok (Some out), tt).
Proof.
  split.
  - apply (proj1 (get_statement_data_status not_found_get_request
                    sample_json_loads)
             "0000320193" "Revenues" tt tt not_found_response
             eq_refl eq_refl).
  - apply (proj2 (get_statement_data_status sample_get_request
                    sample_json_loads)
             "0000320193" "Revenues" tt tt sample_response scenario_payload
             "USD" scenario_series [] eq_refl eq_refl eq_refl eq_refl
             scenario_series_well_formed).
Defined.

(** C8 (as stated) fails: a successful response whose units mapping is
    empty makes [get_statement_data] raise [IndexError] instead of
    returning a list. *)
Lemma get_statement_data_success_not_always_list :
  ok sample_response = true
  /\ get_statement_data sample_get_request empty_units_json_loads
       "0000320193" "Revenues" tt = (Raise IndexError, tt).
Proof. split; reflexivity. Qed.

(** C10.  The first unit group is selected unconditionally: when the units
    mapping of a successful response is non-empty the access is in bounds
    and yields the first declared group; when it is empty
    [get_statement_data] raises [IndexError] instead of returning an empty
    result, and there is such a response. *)
Theorem first_unit_group_precondition :
  (forall data, cf_units data <> [] ->
     exists name series others,
       cf_units data = (name, series) :: others
       /\ first_unit_group data = Ok series)
  /\ (forall (World : Type)
        (get_request : string -> World -> option Response * World)
        (json_loads_concept : string -> result ConceptFacts)
        cik gaap_item w w' response data,
      get_request (concept_url cik gaap_item) w = (Some response, w') ->
      ok response = true ->
      json_loads_concept (text response) = Ok data ->
      cf_units data = [] ->
      get_statement_data get_request json_loads_concept cik gaap_item w
        = (Raise IndexError, w'))
  /\ (ok sample_response = true
      /\ cf_units empty_units_payload = []
      /\ get_statement_data sample_get_request empty_units_json_loads
           "0000320193" "Revenues" tt = (Raise IndexError, tt)).
Proof.
  split; [|split].
  - intros data Hne. unfold first_unit_group.
    destruct (cf_units data) as [|[name series] others]; [done|].
    by exists name, series, others.
  - intros. by eapply get_statement_data_no_units.
  - repeat split.
Qed.

Lemma first_unit_group_precondition_witness :
  first_unit_group scenario_payload = Ok scenario_series
  /\ get_statement_data sample_get_request empty_units_json_loads
       "0000320193" "Revenues" tt = (Raise IndexError, tt).
Proof.
  split.
  - destruct (proj1 first_unit_group_precondition scenario_payload)
      as (name & series & others & Hu & Hfirst); [discriminate|].
    injection Hu as _ <- _. exact Hfirst.
  - apply (proj1 (proj2 first_unit_group_precondition) unit
             sample_get_request empty_units_json_loads
             "0000320193" "Revenues" tt tt sample_response
             empty_units_payload eq_refl eq_refl eq_refl eq_refl).
Defined.

(** ** The filing catalog *)

Lemma zip6_lookup {A B C D E F} (a : list A) (b : list B) (c : list C)
    (d : list D) (e : list E) (f : list F) (i : nat) x1 x2 x3 x4 x5 x6 :
  zip6 a b c d e f !! i = Some (x1, x2, x3, x4, x5, x6)
  <-> a !! i = Some x1 /\ b !! i = Some x2 /\ c !! i = Some x3
      /\ d !! i = Some x4 /\ e !! i = Some x5 /\ f !! i = Some x6.
Proof.
  revert b c d e f i.
  induction a as [|y1 a IH];
    intros [|y2 b] [|y3 c] [|y4 d] [|y5 e] [|y6 f] i; simpl;
    try (split; [done | intros H; decompose [and] H; done]).
  destruct i as [|i]; simpl.
  - split; [intros [= -> -> -> -> -> ->]; done|].
    intros H; decompose [and] H. congruence.
  - apply IH.
Qed.

Lemma zip6_length {A B C D E F} (a : list A) (b : list B) (c : list C)
    (d : list D) (e : list E) (f : list F) (n : nat) :
  length a = n -> length b = n -> length c = n ->
  length d = n -> length e = n -> length f = n ->
  length (zip6 a b c d e f) = n.
Proof.
  revert b c d e f n.
  induction a as [|y1 a IH];
    intros [|y2 b] [|y3 c] [|y4 d] [|y5 e] [|y6 f] [|n]; simpl; try done.
  intros. f_equal. apply IH; lia.
Qed.

Section Filings.
Context {World : Type}.
Variable get_request : string -> World -> option Response * World.
Variable response_json : Response -> result FilingsData.

(** C3.  For a filings-index payload whose six parallel arrays all have
    length [N], [get_filing] produces exactly [N] [Filing] records, the
    [i]-th built from the [i]-th element of each array with the given
    [cik] and [ticker], the default summary and no facts ([xml_data] is
    [None]); the single-element payload of the scenario yields the one
    [Filing] with those fields. *)
Theorem get_filing_positional
    ticker cik w w' response filings_data (N : nat) :
  get_request (filings_url cik) w = (Some response, w') ->
  response_json response = Ok filings_data ->
  length (accessionNumber_list (fd_recent filings_data)) = N ->
  length (filingDate_list (fd_recent filings_data)) = N ->
  length (reportDate_list (fd_recent filings_data)) = N ->
  length (form_list (fd_recent filings_data)) = N ->
  length (primaryDocument_list (fd_recent filings_data)) = N ->
  length (primaryDocDescription_list (fd_recent filings_data)) = N ->
  exists bio filings,
    get_filing get_request response_json ticker cik w
      = (Ok (bio, filings), w')
    /\ length filings = N
    /\ (forall i, (i < N)%nat ->
          exists accession filing_date report_date form_code document
                 description,
            accessionNumber_list (fd_recent filings_data) !! i
              = Some accession
            /\ filingDate_list (fd_recent filings_data) !! i
               = Some filing_date
            /\ reportDate_list (fd_recent filings_data) !! i
               = Some report_date
            /\ form_list (fd_recent filings_data) !! i = Some form_code
            /\ primaryDocument_list (fd_recent filings_data) !! i
               = Some document
            /\ primaryDocDescription_list (fd_recent filings_data) !! i
               = Some description
            /\ filings !! i
               = Some (mkFiling cik ticker accession filing_date report_date
                         form_code document description "No summary" None))
    /\ build_filings "AAPL" "0000320193" scenario_recent
       = [ mkFiling "0000320193" "AAPL" "0000320193-23-000106" "2023-11-03"
             "2023-09-30" "10-K" "aapl-20230930.htm" "10-K" "No summary"
             None ].
Proof.
  intros Hreq Hjson H1 H2 H3 H4 H5 H6.
  eexists _, _. split.
  { unfold get_filing, mbind, io_mbind, io_bind, do_request, io_lift.
    rewrite Hreq, Hjson. reflexivity. }
  set (r := fd_recent filings_data) in *.
  split; [|split; [|reflexivity]].
  - unfold build_filings. rewrite length_map. by apply zip6_length.
  - intros i Hi.
    destruct (lookup_lt_is_Some_2 (accessionNumber_list r) i) as [x1 E1];
      [lia|].
    destruct (lookup_lt_is_Some_2 (filingDate_list r) i) as [x2 E2]; [lia|].
    destruct (lookup_lt_is_Some_2 (reportDate_list r) i) as [x3 E3]; [lia|].
    destruct (lookup_lt_is_Some_2 (form_list r) i) as [x4 E4]; [lia|].
    destruct (lookup_lt_is_Some_2 (primaryDocument_list r) i) as [x5 E5];
      [lia|].
    destruct (lookup_lt_is_Some_2 (primaryDocDescription_list r) i)
      as [x6 E6]; [lia|].
    exists x1, x2, x3, x4, x5, x6. repeat split; try done.
    unfold build_filings.
    change (List.map ?f ?l) with (f <$> l).
    rewrite list_lookup_fmap.
    by rewrite (proj2 (zip6_lookup _ _ _ _ _ _ i x1 x2 x3 x4 x5 x6)).
Qed.

End Filings.

Lemma get_filing_positional_witness :
  exists bio filings,
    get_filing sample_get_request scenario_response_json
      "AAPL" "0000320193" tt = (Ok (bio, filings), tt)
    /\ length filings = 1%nat.
Proof.
  destruct (get_filing_positional sample_get_request scenario_response_json
              "AAPL" "0000320193" tt tt sample_response
              scenario_filings_data 1
              eq_refl eq_refl eq_refl eq_refl eq_refl eq_refl eq_refl eq_refl)
    as (bio & filings & Hrun & Hlen & _).
  exists bio, filings. split; [exact Hrun|exact Hlen].
Defined.

(** ** The context resolver *)

Lemma bind_Ok {A B} (a : A) (f : A -> result B) : (Ok a ≫= f) = f a.
Proof. reflexivity. Qed.

Lemma namespaces_xbrl :
  namespaces !! "xbrl" = Some "http://www.xbrl.org/2003/instance".
Proof. vm_compute. reflexivity. Qed.

Lemma namespaces_xbrldi :
  namespaces !! "xbrldi" = Some "http://xbrl.org/2006/xbrldi".
Proof. vm_compute. reflexivity. Qed.

Lemma qname_xbrl local : qname namespaces "xbrl" local = Ok (xbrl_tag local).
Proof. unfold qname. by rewrite namespaces_xbrl. Qed.

Lemma qname_xbrldi local :
  qname namespaces "xbrldi" local = Ok (xbrldi_tag local).
Proof. unfold qname. by rewrite namespaces_xbrldi. Qed.

Lemma context_object_record context_ref ce :
  context_object context_ref namespaces ce
  = Ok (context_record context_ref ce).
Proof.
  unfold context_object, find2, findtext2, find2, findall_descendants.
  rewrite !qname_xbrl, qname_xbrldi. reflexivity.
Qed.

Lemma context_loop_map context_ref ces acc :
  context_loop context_ref namespaces ces acc
  = Ok (acc ++ List.map (context_record context_ref) ces).
Proof.
  revert acc. induction ces as [|ce ces IH]; intros acc.
  - cbn [context_loop List.map]. by rewrite app_nil_r.
  - cbn [context_loop List.map]. rewrite context_object_record, bind_Ok, IH.
    by rewrite <- app_assoc.
Qed.

Section Resolver.
Variable findall_injected :
  Element -> string -> gmap string string -> result (list Element).

(** For a reference without an apostrophe the resolver returns the record
    of every [context] element below the root whose [id] is the reference;
    the list is empty when there is none. *)
Lemma extract_context_resolves root context_ref :
  has_apostrophe context_ref = false ->
  extract_context findall_injected root context_ref namespaces
  = Ok (contexts_of root context_ref).
Proof.
  intros Hq. unfold extract_context, find_contexts. rewrite Hq.
  rewrite qname_xbrl, !bind_Ok. by rewrite context_loop_map.
Qed.

Lemma extract_context_no_match root context_ref :
  has_apostrophe context_ref = false ->
  matching_contexts root context_ref = [] ->
  extract_context findall_injected root context_ref namespaces = Ok [].
Proof.
  intros Hq Hnone. rewrite extract_context_resolves by done.
  unfold contexts_of. by rewrite Hnone.
Qed.

End Resolver.

(** C6 at a reference with an apostrophe.  The reference [a'b] is
    interpolated into the path unescaped, which closes the quoted literal
    early: the path handed to ElementPath is
    [.//xbrl:context[@id='a'b']], its predicate is rejected, and the
    resolver raises [SyntaxError] for every document root instead of
    returning a list. *)
Theorem extract_context_apostrophe :
  context_path "a'b" = ".//xbrl:context[@id='a'b']"
  /\ forall findall_injected root ns,
       extract_context findall_injected root "a'b" ns = Raise SyntaxError.
Proof. split; reflexivity. Qed.

(** ** The fact extractor *)

Lemma prefix_has_char (c : ascii) (n s : string) :
  has_char c n = true -> String.prefix n s = true -> has_char c s = true.
Proof.
  revert s. induction n as [|a n IH]; intros [|b s]; simpl; try done.
  destruct (ascii_dec a b) as [->|]; [|done].
  intros [Hc|Hc]%orb_true_iff Hp; apply orb_true_iff; [by left|].
  right. by apply IH.
Qed.

Lemma contains_has_char (c : ascii) (n s : string) :
  has_char c n = true -> contains n s = true -> has_char c s = true.
Proof.
  intros Hc. induction s as [|b s IH].
  - cbn [contains]. rewrite orb_false_r. by apply prefix_has_char.
  - cbn [contains]. intros [Hp|Hs]%orb_true_iff.
    + by eapply prefix_has_char.
    + simpl. apply orb_true_iff. right. by apply IH.
Qed.

Lemma prefix_before_brace (n rest : string) :
  has_char "}" n = false ->
  String.prefix n rest = String.prefix n (before_brace rest)
  \/ n = EmptyString.
Proof.
  revert rest. induction n as [|a n IH]; intros rest Hn; [by right|left].
  simpl in Hn. apply orb_false_iff in Hn as [Ha Hn].
  apply bool_decide_eq_false in Ha.
  destruct rest as [|b rest]; [done|]. simpl.
  destruct (decide (b = "}"%char)) as [->|Hb]; simpl.
  - destruct (ascii_dec a "}"); [done|done].
  - destruct (ascii_dec a b); [|done].
    destruct (IH rest Hn) as [->| ->]; [done|]. by destruct rest, (before_brace _).
Qed.

Lemma contains_before_brace (n rest : string) :
  has_char "}" n = false -> has_char "/" n = true ->
  has_char "/" (after_brace rest) = false ->
  contains n rest = contains n (before_brace rest).
Proof.
  intros Hb Hs. induction rest as [|b rest IH]; [done|].
  intros Hlocal.
  assert (Hne : n <> EmptyString) by (by intros ->).
  cbn [contains].
  destruct (prefix_before_brace n (String b rest) Hb) as [->|]; [|done].
  simpl in *. destruct (decide (b = "}"%char)) as [->|Hneq].
  - cbn [contains]. f_equal.
    destruct (contains n rest) eqn:Hc; [|done].
    by rewrite (contains_has_char _ _ _ Hs Hc) in Hlocal.
  - cbn [contains]. f_equal. by apply IH.
Qed.

Lemma is_us_gaap_namespace (e : Element) :
  has_char "/" (tag_local (e_tag e)) = false ->
  is_us_gaap e = in_us_gaap_namespace e.
Proof.
  unfold is_us_gaap, in_us_gaap_namespace, tag_local, tag_namespace.
  destruct (e_tag e) as [|c rest]; [done|].
  destruct (decide (c = "{"%char)) as [->|Hc]; intros Hlocal.
  - cbn [contains].
    rewrite <- contains_before_brace by done.
    change (String.prefix "fasb.org/us-gaap" (String "{" rest)) with false.
    done.
  - destruct (contains _ _) eqn:Hcontains; [|done].
    by rewrite (contains_has_char "/" "fasb.org/us-gaap" _ eq_refl Hcontains)
      in Hlocal.
Qed.

Lemma after_brace_local (e : Element) :
  in_us_gaap_namespace e = true ->
  after_brace (e_tag e) = tag_local (e_tag e).
Proof.
  unfold in_us_gaap_namespace, tag_namespace, tag_local.
  destruct (e_tag e) as [|c rest]; [done|].
  destruct (decide (c = "{"%char)) as [->|]; [|done].
  intros _. cbn [after_brace]. by case_decide.
Qed.

Section Extractor.
Variable fromstring : string -> result Element.
Variable findall_injected :
  Element -> string -> gmap string string -> result (list Element).

Lemma data_object_fact root e :
  well_formed_element e -> is_us_gaap e = true ->
  data_object findall_injected root e = Ok (fact_of root e).
Proof.
  intros [Hlocal Hq] Hm. unfold data_object.
  rewrite extract_context_resolves by auto.
  rewrite bind_Ok. unfold fact_of.
  rewrite after_brace_local; [done|].
  by rewrite <- is_us_gaap_namespace.
Qed.

Lemma tags_loop_facts root elems acc :
  Forall well_formed_element elems ->
  tags_loop findall_injected root elems acc
  = Ok (acc ++ List.map (fact_of root)
                        (List.filter in_us_gaap_namespace elems)).
Proof.
  intros Hwf. revert acc.
  induction Hwf as [|e elems He _ IH]; intros acc.
  - cbn [tags_loop List.filter List.map]. by rewrite app_nil_r.
  - cbn [tags_loop List.filter].
    rewrite <- (is_us_gaap_namespace e) by apply He.
    destruct (is_us_gaap e) eqn:Hm; [|apply IH].
    rewrite data_object_fact, bind_Ok, IH by done.
    cbn [List.map]. by rewrite <- app_assoc.
Qed.

Lemma tags_loop_none root elems acc :
  Forall (fun e => is_us_gaap e = false) elems ->
  tags_loop findall_injected root elems acc = Ok acc.
Proof.
  induction 1 as [|e elems He _ IH]; cbn [tags_loop]; [done|].
  by rewrite He.
Qed.

(** For a statement document in which no [contextRef] of a us-gaap
    element holds an apostrophe, [extract_tags] emits exactly one Fact per
    element whose namespace URI contains [fasb.org/us-gaap], in document
    order, and nothing for the other elements; each Fact carries the local
    name of its element, the namespace stripped.  A document in which no
    element matches yields the empty list, not an error. *)
Lemma extract_tags_us_gaap :
  (forall xml_data root,
      fromstring xml_data = Ok root ->
      well_formed_document root ->
      extract_tags fromstring findall_injected xml_data
        = Ok (List.map (fact_of root)
                (List.filter in_us_gaap_namespace (iter root)))
      /\ (forall fact,
            fact ∈ List.map (fact_of root)
                     (List.filter in_us_gaap_namespace (iter root)) ->
            exists e, e ∈ iter root /\ in_us_gaap_namespace e = true
                      /\ tag fact = tag_local (e_tag e)))
  /\ (forall xml_data root,
      fromstring xml_data = Ok root ->
      Forall (fun e => is_us_gaap e = false) (iter root) ->
      extract_tags fromstring findall_injected xml_data = Ok []).
Proof.
  split.
  - intros xml_data root Hparse Hwf. split.
    + unfold extract_tags. rewrite Hparse, bind_Ok.
      by rewrite tags_loop_facts.
    + intros fact Hfact.
      apply list_elem_of_In, in_map_iff in Hfact as (e & <- & He).
      apply filter_In in He as [He Hm].
      exists e. by rewrite list_elem_of_In.
  - intros xml_data root Hparse Hnone.
    unfold extract_tags. rewrite Hparse, bind_Ok.
    by apply tags_loop_none.
Qed.

Lemma breaks_predicate_apostrophe (context_ref : string) :
  breaks_predicate context_ref = true -> has_apostrophe context_ref = true.
Proof.
  unfold breaks_predicate.
  induction context_ref as [|c s IH]; cbn [after_apostrophe has_apostrophe];
    [done|].
  destruct (decide (c = "'"%char)) as [->|Hc]; [done|].
  intros H. rewrite IH by done. apply orb_true_r.
Qed.

Lemma tags_loop_app root elems more acc :
  tags_loop findall_injected root (elems ++ more) acc
  = (tags_loop findall_injected root elems acc
       ≫= tags_loop findall_injected root more).
Proof.
  revert acc. induction elems as [|e elems IH]; intros acc; [done|].
  cbn [app tags_loop]. destruct (is_us_gaap e); [|apply IH].
  destruct (data_object findall_injected root e) as [obj|err]; [|done].
  rewrite !bind_Ok. apply IH.
Qed.

(** C4 at a document with an apostrophe in a reference.  The claim
    promises one Fact per us-gaap element of every well-formed document.
    An apostrophe is a legal character of an attribute value, and a
    us-gaap element whose [contextRef] holds one (followed by a character
    that leaves the predicate of the path ill-formed, or by nothing) makes
    [extract_tags] raise [SyntaxError] when it resolves the reference:
    no Fact is returned, those of the elements before it included. *)
Theorem extract_tags_apostrophe_reference
    (xml_data : string) (root : Element)
    (before : list Element) (elem : Element) (after : list Element) :
  fromstring xml_data = Ok root ->
  iter root = before ++ elem :: after ->
  Forall well_formed_element before ->
  is_us_gaap elem = true ->
  breaks_predicate (attrib_get elem "contextRef" "N/A") = true ->
  extract_tags fromstring findall_injected xml_data = Raise SyntaxError.
Proof.
  intros Hparse Hiter Hbefore Hgaap Hbreaks.
  unfold extract_tags. rewrite Hparse, bind_Ok, Hiter, tags_loop_app.
  rewrite tags_loop_facts, bind_Ok by done.
  cbn [tags_loop]. rewrite Hgaap.
  unfold data_object, extract_context, find_contexts.
  by rewrite (breaks_predicate_apostrophe _ Hbreaks), Hbreaks.
Qed.

End Extractor.

Lemma sample_root_well_formed : well_formed_document sample_root.
Proof. repeat constructor; intros; vm_compute; reflexivity. Defined.

Lemma extract_tags_us_gaap_witness :
  extract_tags sample_fromstring rejecting_engine "statement document"
  = Ok [fact_of sample_root sample_fact]
  /\ extract_tags (fun _ => Ok sample_context) rejecting_engine
       "statement document" = Ok [].
Proof.
  split.
  - apply (proj1 (proj1 (extract_tags_us_gaap sample_fromstring
                           rejecting_engine)
                    "statement document" sample_root eq_refl
                    sample_root_well_formed)).
  - apply (proj2 (extract_tags_us_gaap (fun _ => Ok sample_context)
                    rejecting_engine)
             "statement document" sample_context eq_refl).
    repeat constructor.
Defined.

Lemma extract_tags_apostrophe_reference_witness :
  extract_tags (fun _ => Ok apostrophe_root) (fun _ _ _ => Ok [])
    "statement document" = Raise SyntaxError.
Proof.
  apply (extract_tags_apostrophe_reference
           (fun _ => Ok apostrophe_root) (fun _ _ _ => Ok [])
           "statement document" apostrophe_root
           (apostrophe_root :: iter sample_context ++ [sample_fact])
           apostrophe_fact [] eq_refl).
  - vm_compute. reflexivity.
  - repeat constructor; intros; vm_compute; reflexivity.
  - vm_compute. reflexivity.
  - vm_compute. reflexivity.
Defined.

(** ** Statement augmentation *)




(** *** The test of the form code *)






Lemma store_set_same store ref obj : store_set store ref obj ref = obj.
Proof. unfold store_set. by rewrite decide_True. Qed.

Lemma store_set_other store ref obj r :
  r <> ref -> store_set store ref obj r = store r.
Proof. intros Hr. unfold store_set. by rewrite decide_False. Qed.

Lemma store_set_fmap store ref obj (refs : list nat) :
  ref ∉ refs -> store_set store ref obj <$> refs = store <$> refs.
Proof.
  intros Hnot. apply list_fmap_ext. intros i r Hr.
  apply store_set_other. intros ->. apply Hnot.
  by eapply list_elem_of_lookup_2.
Qed.

Section Augmentation.
Context {World : Type}.
Variable get_request : string -> World -> option Response * World.
Variable fromstring : string -> result Element.
Variable findall_injected :
  Element -> string -> gmap string string -> result (list Element).
Variable soup_table_hrefs : string -> option (list (option string)).

Abbreviation fetch :=
  (fetch_facts get_request fromstring findall_injected soup_table_hrefs).
Abbreviation loop :=
  (xml_loop get_request fromstring findall_injected soup_table_hrefs).
Abbreviation loop_objects :=
  (xml_loop_objects get_request fromstring findall_injected
     soup_table_hrefs).




(** On a list of distinct objects the loop on objects is the loop on
    positions: reading the list back from the final store gives the list
    that [xml_loop] returns. *)
Lemma xml_loop_objects_distinct (limit : Z) (items : list nat) :
  forall (done : list nat) count store w,
    NoDup (done ++ items) ->
    loop limit (store <$> items) (length done) count
      (store <$> (done ++ items)) w
    = let '((store', e), w') := loop_objects limit items count store w in
      ((store' <$> (done ++ items), e), w').
Proof.
  induction items as [|ref rest IH]; intros done count store w Hnodup.
  - done.
  - assert (Hnodup' : NoDup ((done ++ [ref]) ++ rest))
      by (by rewrite <- app_assoc).
    assert (Hlen : S (length done) = length (done ++ [ref]))
      by (rewrite length_app; simpl; lia).
    apply NoDup_app in Hnodup as (_ & Hdone & Hrest).
    apply NoDup_cons in Hrest as [Hfresh _].
    assert (Hnot : ref ∉ done).
    { intros Hin. apply (Hdone ref Hin). by left. }
    rewrite fmap_cons. cbn [xml_loop xml_loop_objects].
    destruct (is_report_form (store ref) && (count <? limit)).
    + destruct (fetch (store ref) w) as [[data|e] w1]; [|done].
      set (store1 := store_set store ref (set_xml_data data (store ref))).
      replace (alter (set_xml_data data) (length done)
                 (store <$> (done ++ ref :: rest)))
        with (store1 <$> ((done ++ [ref]) ++ rest)).
      2:{ rewrite !fmap_app, !fmap_cons, fmap_nil.
          subst store1. rewrite !store_set_fmap, store_set_same by done.
          rewrite <- app_assoc.
          rewrite <- (length_fmap store done), <- (Nat.add_0_r (length _)).
          by rewrite alter_app_r. }
      rewrite <- (store_set_fmap store ref (set_xml_data data (store ref))
                    rest Hfresh).
      rewrite Hlen, IH by done.
      destruct (loop_objects limit rest (count + 1) _ w1) as [[store' e] w'].
      by rewrite <- app_assoc.
    + replace (store <$> (done ++ ref :: rest))
        with (store <$> ((done ++ [ref]) ++ rest))
        by (by rewrite <- app_assoc).
      rewrite Hlen, IH by done.
      destruct (loop_objects limit rest count store w) as [[store' e] w'].
      by rewrite <- app_assoc.
Qed.

Lemma get_xml_objects_distinct (filings : list nat) (limit : option Z)
    (store : nat -> Filing) (w : World) :
  NoDup filings ->
  get_xml get_request fromstring findall_injected soup_table_hrefs
    (store <$> filings) limit w
  = let '((store', e), w') :=
      get_xml_objects get_request fromstring findall_injected
        soup_table_hrefs filings limit store w in
    ((store' <$> filings, e), w').
Proof.
  intros Hnodup. unfold get_xml, get_xml_objects. rewrite length_fmap.
  apply (xml_loop_objects_distinct _ filings [] 0 store w Hnodup).
Qed.

End Augmentation.




(** * Further properties of [utils.py] *)

(** ** [filter_by_form] and [unique_forms] *)

Lemma list_filter_sublist {A} (p : A -> bool) (l : list A) :
  sublist (List.filter p l) l.
Proof.
  induction l as [|x l IH]; simpl; [constructor|].
  destruct (p x); [by apply sublist_skip | by apply sublist_cons].
Qed.

Lemma list_filter_elem_of {A} (p : A -> bool) (l : list A) (x : A) :
  x ∈ List.filter p l <-> x ∈ l /\ p x = true.
Proof. rewrite !list_elem_of_In. apply filter_In. Qed.

Lemma list_filter_all {A} (p : A -> bool) (l : list A) :
  (forall x, x ∈ l -> p x = true) -> List.filter p l = l.
Proof.
  induction l as [|x l IH]; intros H; simpl; [done|].
  rewrite (H x) by left. f_equal. apply IH. intros y Hy. apply H. by right.
Qed.

Lemma list_filter_filter {A} (p q : A -> bool) (l : list A) :
  List.filter q (List.filter p l) = List.filter (fun x => p x && q x) l.
Proof.
  induction l as [|x l IH]; simpl; [done|].
  destruct (p x); simpl; [|done]. destruct (q x); by rewrite IH.
Qed.

Lemma form_selected (filing : Filing) (selection : list string) :
  bool_decide (form filing ∈ selection) = true <-> form filing ∈ selection.
Proof. apply bool_decide_eq_true. Qed.

(** [filter_by_form] returns exactly the filings whose form is one of the
    selected codes, compared as written, and keeps them in their original
    order. *)
Theorem filter_by_form_exact (filings : list Filing) (selection : list string) :
  sublist (filter_by_form filings selection) filings
  /\ (forall filing,
        filing ∈ filter_by_form filings selection
        <-> filing ∈ filings /\ form filing ∈ selection)
  /\ (forall code,
        List.filter (fun filing => bool_decide (form filing = code))
                    (filter_by_form filings selection)
        = if bool_decide (code ∈ selection)
          then List.filter (fun filing => bool_decide (form filing = code))
                           filings
          else []).
Proof.
  unfold filter_by_form. split; [apply list_filter_sublist|]. split.
  - intros filing. rewrite list_filter_elem_of. cbn beta.
    by rewrite form_selected.
  - intros code. rewrite list_filter_filter.
    case_bool_decide as Hc.
    + apply filter_ext. intros f.
      destruct (bool_decide (form f = code)) eqn:Hf; [|apply andb_false_r].
      apply bool_decide_eq_true in Hf as ->.
      by rewrite bool_decide_eq_true_2.
    + induction filings as [|f fs IH]; simpl; [done|].
      destruct (bool_decide (form f ∈ selection)) eqn:H1; simpl; [|done].
      destruct (bool_decide (form f = code)) eqn:H2; simpl; [|done].
      apply bool_decide_eq_true in H1, H2. congruence.
Qed.

(** Filtering twice keeps the filings whose form is in both selections;
    the order of the two filters does not matter and filtering again by
    the same selection changes nothing. *)
Theorem filter_by_form_compose (filings : list Filing) (a b : list string) :
  filter_by_form (filter_by_form filings a) b
  = List.filter (fun filing => bool_decide (form filing ∈ a)
                               && bool_decide (form filing ∈ b)) filings
  /\ filter_by_form (filter_by_form filings a) b
     = filter_by_form (filter_by_form filings b) a
  /\ filter_by_form (filter_by_form filings a) a = filter_by_form filings a
  /\ filter_by_form filings [] = [].
Proof.
  unfold filter_by_form. rewrite !list_filter_filter. repeat split.
  - apply filter_ext. intros f. apply andb_comm.
  - apply filter_ext. intros f. by destruct (bool_decide _).
  - induction filings as [|f fs IH]; [done|]. cbn [List.filter].
    by rewrite bool_decide_eq_false_2 by apply not_elem_of_nil.
Qed.

(** [unique_forms] lists every form code of the filings once, and
    filtering the filings by that list gives all of them back. *)
Theorem unique_forms_cover (filings : list Filing) :
  NoDup (unique_forms filings)
  /\ (forall code,
        code ∈ unique_forms filings
        <-> exists filing, filing ∈ filings /\ form filing = code)
  /\ filter_by_form filings (unique_forms filings) = filings
  /\ (length (unique_forms filings) <= length filings)%nat.
Proof.
  unfold unique_forms.
  assert (Hmem : forall code,
            code ∈ elements (list_to_set (List.map form filings) : gset string)
            <-> exists filing, filing ∈ filings /\ form filing = code).
  { intros code. rewrite elem_of_elements, elem_of_list_to_set.
    rewrite list_elem_of_In, in_map_iff.
    split; intros (f & H1 & H2); exists f; by rewrite ?list_elem_of_In in *. }
  split; [apply NoDup_elements|]. split; [exact Hmem|]. split.
  - apply list_filter_all. intros f Hf.
    apply form_selected, Hmem. by exists f.
  - rewrite <- (length_map form filings).
    apply submseteq_length, NoDup_submseteq; [apply NoDup_elements|].
    intros code. by rewrite elem_of_elements, elem_of_list_to_set.
Qed.

(** The form filter compares codes as written while [get_xml] upper-cases
    them: the filings selected by ["10-Q"; "10-K"] are among the report
    filings of [get_xml], in the same order, and a report filing is
    missed by the filter exactly when its code is not in upper case. *)
Theorem filter_by_form_reports (filings : list Filing) :
  sublist (filter_by_form filings ["10-Q"; "10-K"])
          (List.filter is_report_form filings)
  /\ (forall filing,
        filing ∈ List.filter is_report_form filings ->
        filing ∈ filter_by_form filings ["10-Q"; "10-K"]
        <-> upper (form filing) = form filing).
Proof.
  assert (Hup : upper "10-Q" = "10-Q" /\ upper "10-K" = "10-K") by done.
  assert (Hsel : forall f, form f ∈ ["10-Q"; "10-K"] <->
                           form f = "10-Q" \/ form f = "10-K").
  { intros f. rewrite !elem_of_cons, elem_of_nil. tauto. }
  split.
  - unfold filter_by_form.
    replace (List.filter (fun filing => bool_decide (form filing ∈ _)) filings)
      with (List.filter (fun filing => bool_decide (form filing ∈ ["10-Q"; "10-K"]))
              (List.filter is_report_form filings)).
    { apply list_filter_sublist. }
    rewrite list_filter_filter. apply filter_ext. intros f.
    destruct (bool_decide (form f ∈ _)) eqn:Hf; [|apply andb_false_r].
    rewrite andb_true_r. apply form_selected, Hsel in Hf.
    unfold is_report_form. apply orb_true_iff.
    destruct Hf as [-> | ->]; [left|right]; by apply bool_decide_eq_true.
  - intros f [Hin Hr]%list_filter_elem_of.
    unfold filter_by_form. rewrite list_filter_elem_of. cbn beta.
    unfold is_report_form in Hr. apply orb_true_iff in Hr.
    split.
    + intros [_ H%form_selected]. apply Hsel in H.
      destruct H as [H | H]; rewrite H; done.
    + intros Heq. split; [done|]. apply form_selected, Hsel.
      rewrite <- Heq.
      destruct Hr as [H%bool_decide_eq_true | H%bool_decide_eq_true];
        [by left | by right].
Qed.

Lemma filter_by_form_exact_witness :
  mkFiling "0000320193" "AAPL" "0000320193-23-000090" "2023-10-02"
    "2023-09-28" "8-K" "aapl-20230928.htm" "8-K" "No summary" None
  ∈ filter_by_form sample_filings ["8-K"; "10-K"].
Proof.
  apply (proj2 (proj1 (proj2 (filter_by_form_exact sample_filings
                                ["8-K"; "10-K"])) _)).
  split; [by repeat constructor|by left].
Defined.

Lemma unique_forms_cover_witness : "10-q" ∈ unique_forms sample_filings.
Proof.
  apply (proj2 (proj1 (proj2 (unique_forms_cover sample_filings)) "10-q")).
  exists (mkFiling "0000320193" "AAPL" "0000320193-23-000077" "2023-08-04"
            "2023-07-01" "10-q" "aapl-20230701.htm" "10-Q" "No summary" None).
  split; [by repeat constructor|reflexivity].
Defined.

Lemma filter_by_form_reports_witness :
  ~ mkFiling "0000320193" "AAPL" "0000320193-23-000077" "2023-08-04"
      "2023-07-01" "10-q" "aapl-20230701.htm" "10-Q" "No summary" None
    ∈ filter_by_form sample_filings ["10-Q"; "10-K"].
Proof.
  intros Hin.
  apply (proj2 (filter_by_form_reports sample_filings) _) in Hin.
  - discriminate Hin.
  - apply list_filter_elem_of. split; [by repeat constructor|reflexivity].
Defined.

(** ** [get_filing] beyond equal lengths *)

Lemma zip6_length_min {A B C D E F} (a : list A) (b : list B) (c : list C)
    (d : list D) (e : list E) (f : list F) :
  length (zip6 a b c d e f)
  = min6 (length a) (length b) (length c) (length d) (length e) (length f).
Proof.
  unfold min6. revert b c d e f.
  induction a as [|y1 a IH];
    intros [|y2 b] [|y3 c] [|y4 d] [|y5 e] [|y6 f]; simpl; try lia.
  rewrite IH. lia.
Qed.

Lemma span_continuation_ascii (s : string) :
  is_ascii s = true -> span_continuation s = (EmptyString, s).
Proof.
  destruct s as [|c s]; [done|]. cbn [is_ascii span_continuation].
  intros [Hc _]%andb_true_iff. unfold is_continuation.
  destruct (N.leb_spec 128 (N_of_ascii c)); [|done].
  apply N.ltb_lt in Hc. lia.
Qed.

Lemma str_split_at_ascii (s : string) :
  is_ascii s = true ->
  s = str_take2 s +:+ str_drop2 s
  /\ String.length (str_take2 s) = Nat.min (String.length s) 2.
Proof.
  unfold str_take2, str_drop2. intros Hs.
  destruct s as [|a [|b rest]]; [done|done|].
  cbn [is_ascii] in Hs.
  apply andb_true_iff in Hs as [Ha Hs].
  pose proof Hs as Hbrest.
  apply andb_true_iff in Hs as [Hb Hrest].
  cbn [str_split_at].
  rewrite (span_continuation_ascii (String b rest)) by done.
  rewrite (span_continuation_ascii rest) by done.
  by destruct rest.
Qed.

Section FilingsMore.
Context {World : Type}.
Variable get_request : string -> World -> option Response * World.
Variable response_json : Response -> result FilingsData.

Lemma get_filing_run ticker cik w w' response filings_data :
  get_request (filings_url cik) w = (Some response, w') ->
  response_json response = Ok filings_data ->
  get_filing get_request response_json ticker cik w
  = (Ok (build_bio filings_data,
         build_filings ticker cik (fd_recent filings_data)), w').
Proof.
  intros Hreq Hjson.
  unfold get_filing, mbind, io_mbind, io_bind, do_request, io_lift.
  by rewrite Hreq, Hjson.
Qed.

(** When the six arrays of the index have different lengths, [get_filing]
    does not fail: it returns as many filings as the shortest array has
    elements, each still built from the elements at its own position. *)
Theorem get_filing_truncates ticker cik w w' response filings_data :
  get_request (filings_url cik) w = (Some response, w') ->
  response_json response = Ok filings_data ->
  exists bio filings,
    get_filing get_request response_json ticker cik w
      = (Ok (bio, filings), w')
    /\ length filings
       = min6 (length (accessionNumber_list (fd_recent filings_data)))
              (length (filingDate_list (fd_recent filings_data)))
              (length (reportDate_list (fd_recent filings_data)))
              (length (form_list (fd_recent filings_data)))
              (length (primaryDocument_list (fd_recent filings_data)))
              (length (primaryDocDescription_list (fd_recent filings_data)))
    /\ forall i filing, filings !! i = Some filing ->
         accessionNumber_list (fd_recent filings_data) !! i
           = Some (accessionNumber filing)
         /\ filingDate_list (fd_recent filings_data) !! i
            = Some (filingDate filing)
         /\ reportDate_list (fd_recent filings_data) !! i
            = Some (reportDate filing)
         /\ form_list (fd_recent filings_data) !! i = Some (form filing)
         /\ primaryDocument_list (fd_recent filings_data) !! i
            = Some (primaryDocument filing)
         /\ primaryDocDescription_list (fd_recent filings_data) !! i
            = Some (primaryDocDescription filing).
Proof.
  intros Hreq Hjson. eexists _, _.
  split; [by eapply get_filing_run|].
  unfold build_filings. split.
  - rewrite length_map. apply zip6_length_min.
  - intros i filing.
    change (List.map ?f ?l) with (f <$> l). rewrite list_lookup_fmap.
    destruct (zip6 _ _ _ _ _ _ !! i) as [[[[[[x1 x2] x3] x4] x5] x6]|] eqn:Hz;
      [|done].
    intros [= <-]. by apply zip6_lookup in Hz.
Qed.

(** The fiscal year end of the bio is the value of the index with one
    slash after its first two characters: for an ASCII value, what
    stands before the slash and what stands after it make up the value
    again, and the part before the slash has two characters, or as many
    as the value has when it is shorter. *)
Theorem get_filing_bio ticker cik w w' response filings_data :
  is_ascii (fd_fiscalYearEnd filings_data) = true ->
  get_request (filings_url cik) w = (Some response, w') ->
  response_json response = Ok filings_data ->
  exists bio filings month day,
    get_filing get_request response_json ticker cik w
      = (Ok (bio, filings), w')
    /\ fd_fiscalYearEnd filings_data = month +:+ day
    /\ bio_fiscalYearEnd bio = month +:+ "/" +:+ day
    /\ String.length month
       = Nat.min (String.length (fd_fiscalYearEnd filings_data)) 2.
Proof.
  intros Hascii Hreq Hjson.
  exists (build_bio filings_data),
    (build_filings ticker cik (fd_recent filings_data)),
    (str_take2 (fd_fiscalYearEnd filings_data)),
    (str_drop2 (fd_fiscalYearEnd filings_data)).
  split; [by eapply get_filing_run|].
  destruct (str_split_at_ascii _ Hascii) as [Hsplit Hlen].
  by repeat split.
Qed.

End FilingsMore.

Lemma get_filing_truncates_witness :
  exists bio filings,
    get_filing sample_get_request ragged_response_json
      "AAPL" "0000320193" tt = (Ok (bio, filings), tt)
    /\ length filings = 1%nat.
Proof.
  destruct (get_filing_truncates sample_get_request ragged_response_json
              "AAPL" "0000320193" tt tt sample_response ragged_filings_data
              eq_refl eq_refl)
    as (bio & filings & Hrun & Hlen & _).
  exists bio, filings. split; [exact Hrun|exact Hlen].
Defined.

Lemma get_filing_bio_witness :
  exists bio filings,
    get_filing sample_get_request ragged_response_json
      "AAPL" "0000320193" tt = (Ok (bio, filings), tt)
    /\ bio_fiscalYearEnd bio = "09/30".
Proof.
  destruct (get_filing_bio sample_get_request ragged_response_json
              "AAPL" "0000320193" tt tt sample_response ragged_filings_data
              eq_refl eq_refl eq_refl)
    as (bio & filings & month & day & Hrun & _).
  exists bio, filings. split; [exact Hrun|].
  injection Hrun as <- _. reflexivity.
Defined.

(** ** [get_primary_document] and [get_filing_text] *)

Lemma append_cons (c : ascii) (s t : string) :
  String c s +:+ t = String c (s +:+ t).
Proof. reflexivity. Qed.

Lemma split_slash_no_slash (s : string) :
  has_char "/" s = false -> split_slash s = [s].
Proof.
  induction s as [|c s IH]; [done|]. cbn [has_char split_slash].
  intros [Hc Hs]%orb_false_iff. apply bool_decide_eq_false in Hc.
  rewrite decide_False by done. by rewrite IH.
Qed.

Lemma split_slash_first (a rest : string) :
  has_char "/" a = false ->
  split_slash (a +:+ String "/" rest) = a :: split_slash rest.
Proof.
  induction a as [|c a IH]; [done|]. cbn [has_char].
  intros [Hc Hs]%orb_false_iff. apply bool_decide_eq_false in Hc.
  rewrite append_cons. cbn [split_slash].
  rewrite decide_False by done. by rewrite IH.
Qed.

Lemma remove_dashes_no_dash (s : string) :
  has_char "-" (remove_dashes s) = false.
Proof.
  induction s as [|c s IH]; [done|]. cbn [remove_dashes].
  destruct (decide (c = "-"%char)) as [|Hc]; [done|].
  cbn [has_char]. by rewrite bool_decide_eq_false_2.
Qed.

Lemma remove_dashes_id (s : string) :
  has_char "-" s = false -> remove_dashes s = s.
Proof.
  induction s as [|c s IH]; [done|]. cbn [has_char remove_dashes].
  intros [Hc Hs]%orb_false_iff. apply bool_decide_eq_false in Hc.
  rewrite decide_False by done. by rewrite IH.
Qed.

Section Documents.
Context {World : Type}.
Variable get_request : string -> World -> option Response * World.

(** [get_primary_document] takes the second slash-separated segment of
    [primaryDocument]: for a document name without a slash, such as the
    names of the filings index, it raises [IndexError] and makes no
    request. *)
Theorem get_primary_document_no_slash (filing_obj : Filing) (w : World) :
  has_char "/" (primaryDocument filing_obj) = false ->
  get_primary_document get_request filing_obj w = (Raise IndexError, w).
Proof.
  intros Hs. unfold get_primary_document.
  by rewrite split_slash_no_slash.
Qed.

(** For a [primaryDocument] of the form [a/b], [get_primary_document]
    requests [b] in the archive directory of the filing (the accession
    number without its dashes) and returns the content of the response;
    a request that raised makes it fail with [AttributeError]. *)
Theorem get_primary_document_second_segment
    (filing_obj : Filing) (a b : string) (w : World) :
  primaryDocument filing_obj = a +:+ String "/" b ->
  has_char "/" a = false -> has_char "/" b = false ->
  get_primary_document get_request filing_obj w
  = match get_request
            ("https://www.sec.gov/Archives/edgar/data/" +:+ cik filing_obj
               +:+ "/" +:+ remove_dashes (accessionNumber filing_obj)
               +:+ "/" +:+ b) w with
    | (Some response, w') => (Ok (content response), w')
    | (None, w') => (Raise AttributeError, w')
    end.
Proof.
  intros Hdoc Ha Hb. unfold get_primary_document.
  rewrite Hdoc, split_slash_first, split_slash_no_slash by done.
  cbn [lookup list_lookup].
  unfold mbind, io_mbind, io_bind, do_request, archive_url.
  by destruct (get_request _ w) as [[response|] w'].
Qed.

(** [get_filing_text] requests the [.txt] submission in the archive
    directory of the filing and returns its text; the directory name is
    the accession number with every dash removed and nothing else
    changed, and a request that raised makes it fail with
    [AttributeError]. *)
Theorem get_filing_text_request (filing_obj : Filing) (w : World) :
  get_filing_text get_request filing_obj w
  = match get_request
            ("https://www.sec.gov/Archives/edgar/data/" +:+ cik filing_obj
               +:+ "/" +:+ remove_dashes (accessionNumber filing_obj)
               +:+ "/" +:+ accessionNumber filing_obj +:+ ".txt") w with
    | (Some response, w') => (Ok (text response), w')
    | (None, w') => (Raise AttributeError, w')
    end
  /\ has_char "-" (remove_dashes (accessionNumber filing_obj)) = false
  /\ remove_dashes (remove_dashes (accessionNumber filing_obj))
     = remove_dashes (accessionNumber filing_obj).
Proof.
  split; [|split; [apply remove_dashes_no_dash|]].
  - unfold get_filing_text, mbind, io_mbind, io_bind, do_request, archive_url.
    by destruct (get_request _ w) as [[response|] w'].
  - apply remove_dashes_id, remove_dashes_no_dash.
Qed.

End Documents.

Lemma get_primary_document_no_slash_witness :
  get_primary_document sample_get_request
    (mkFiling "0000320193" "AAPL" "0000320193-23-000106" "2023-11-03"
       "2023-09-30" "10-K" "aapl-20230930.htm" "10-K" "No summary" None) tt
  = (Raise IndexError, tt).
Proof.
  apply (get_primary_document_no_slash sample_get_request). reflexivity.
Defined.

Lemma get_primary_document_second_segment_witness :
  get_primary_document sample_get_request sample_document_filing tt
  = (Ok (content sample_response), tt).
Proof.
  apply (get_primary_document_second_segment sample_get_request
           sample_document_filing "ix" "aapl-20230930.htm" tt);
    reflexivity.
Defined.

(** ** [ticker_to_cik] *)

Lemma upper_char_idem (c : ascii) : upper_char (upper_char c) = upper_char c.
Proof. destruct c as [[|] [|] [|] [|] [|] [|] [|] [|]]; reflexivity. Qed.

Lemma upper_lower_char (c : ascii) : upper_char (lower_char c) = upper_char c.
Proof. destruct c as [[|] [|] [|] [|] [|] [|] [|] [|]]; reflexivity. Qed.

Lemma upper_idem (s : string) : upper (upper s) = upper s.
Proof.
  induction s as [|c s IH]; [done|]. cbn [upper].
  by rewrite upper_char_idem, IH.
Qed.

Lemma upper_lower (s : string) : upper (lower s) = upper s.
Proof.
  induction s as [|c s IH]; [done|]. cbn [upper lower].
  by rewrite upper_lower_char, IH.
Qed.

Lemma length_append_str (s t : string) :
  String.length (s +:+ t) = (String.length s + String.length t)%nat.
Proof.
  induction s as [|c s IH]; [done|]. rewrite append_cons. simpl. by rewrite IH.
Qed.

Lemma length_zeros (n : nat) : String.length (zeros n) = n.
Proof. induction n; simpl; congruence. Qed.

Lemma zfill_length (width : nat) (s : string) :
  String.length (zfill width s) = Nat.max width (String.length s).
Proof.
  unfold zfill. destruct (Nat.leb_spec width (String.length s)); [lia|].
  destruct s as [|c s]; [rewrite length_zeros; simpl; lia|].
  destruct (_ || _); simpl;
    rewrite ?append_cons, length_append_str, length_zeros; simpl; lia.
Qed.

Lemma decimal_value_zeros (n : nat) (s : string) :
  decimal_value (zeros n +:+ s) = decimal_value s.
Proof.
  induction n as [|n IH]; [done|].
  cbn [zeros]. rewrite append_cons. unfold decimal_value in *.
  cbn [NilEmpty.uint_of_string].
  destruct (NilEmpty.uint_of_string (zeros n +:+ s)) as [d|],
           (NilEmpty.uint_of_string s) as [d'|]; simpl in *; congruence.
Qed.

Lemma digits_of_value (z : Z) :
  0 <= z -> decimal_value (digits_of z) = Some (Z.to_N z).
Proof.
  intros Hz. unfold decimal_value, digits_of, NilZero.string_of_uint.
  destruct (N.to_uint (Z.to_N z)) eqn:Hd;
    try (rewrite <- Hd, NilEmpty.usu; by rewrite DecimalN.Unsigned.of_to).
  pose proof (DecimalN.Unsigned.of_to (Z.to_N z)) as Hn.
  rewrite Hd in Hn. simpl in *. by rewrite <- Hn.
Qed.

Lemma digits_of_unsigned (z : Z) :
  0 <= z ->
  exists c rest, digits_of z = String c rest
                 /\ c <> "+"%char /\ c <> "-"%char.
Proof.
  intros Hz. pose proof (digits_of_value z Hz) as Hv.
  unfold decimal_value in Hv.
  destruct (digits_of z) as [|c rest] eqn:Hd.
  - exfalso. unfold digits_of, NilZero.string_of_uint in Hd.
    destruct (N.to_uint (Z.to_N z)); discriminate.
  - exists c, rest. split; [done|].
    cbn [NilEmpty.uint_of_string] in Hv.
    destruct (NilEmpty.uint_of_string rest) as [d|]; [|done].
    split; intros ->; discriminate.
Qed.

Lemma zfill_digits (z : Z) :
  0 <= z ->
  zfill 10 (digits_of z)
  = zeros (10 - String.length (digits_of z)) +:+ digits_of z.
Proof.
  intros Hz. destruct (digits_of_unsigned z Hz) as (c & rest & Hd & Hp & Hm).
  unfold zfill. rewrite Hd in *.
  destruct (Nat.leb_spec 10 (String.length (String c rest))) as [Hl|Hl].
  - by replace (10 - String.length (String c rest))%nat with 0%nat by lia.
  - by rewrite !bool_decide_eq_false_2.
Qed.

Lemma ciks_of_other (items : list TickerItem) (m : gmap string string)
    (k : string) :
  (forall item, item ∈ items -> ti_ticker item <> k) ->
  foldl (fun ciks item =>
           <[ti_ticker item := py_str (ti_cik_str item)]> ciks) m items !! k
  = m !! k.
Proof.
  revert m. induction items as [|x items IH]; intros m Hne; [done|].
  cbn [foldl]. rewrite IH.
  - apply lookup_insert_ne, Hne. by left.
  - intros item Hin. apply Hne. by right.
Qed.

Lemma ciks_of_last (pre post : list TickerItem) (item : TickerItem) :
  (forall x, x ∈ post -> ti_ticker x <> ti_ticker item) ->
  ciks_of (pre ++ item :: post) !! ti_ticker item
  = Some (py_str (ti_cik_str item)).
Proof.
  intros Hpost. unfold ciks_of. rewrite foldl_app. cbn [foldl].
  rewrite ciks_of_other by done. apply lookup_insert_eq.
Qed.

Section Tickers.
Context {World : Type}.
Variable get_request : string -> World -> option Response * World.
Variable json_loads_tickers : string -> result (list TickerItem).

Lemma ticker_to_cik_run ticker w w' response items :
  get_request tickers_url w = (Some response, w') ->
  json_loads_tickers (text response) = Ok items ->
  ticker_to_cik get_request json_loads_tickers ticker w
  = (Ok (lookup_cik items ticker), w').
Proof.
  intros Hreq Hjson.
  unfold ticker_to_cik, mbind, io_mbind, io_bind, do_request, io_lift.
  by rewrite Hreq, Hjson.
Qed.

(** An ASCII ticker whose upper case is not in the company directory
    gives [None]; no exception is raised. *)
Theorem ticker_to_cik_unknown ticker w w' response items :
  is_ascii ticker = true ->
  get_request tickers_url w = (Some response, w') ->
  json_loads_tickers (text response) = Ok items ->
  (forall item, item ∈ items -> ti_ticker item <> upper ticker) ->
  ticker_to_cik get_request json_loads_tickers ticker w = (Ok None, w').
Proof.
  intros _ Hreq Hjson Hne.
  rewrite (ticker_to_cik_run _ _ _ _ _ Hreq Hjson).
  unfold lookup_cik, ciks_of. by rewrite ciks_of_other.
Qed.

(** An ASCII ticker whose upper case is in the directory gives the CIK
    of the last entry that carries it, as at least ten characters: the
    decimal digits of the number preceded by zeros, which read back as
    the same number. *)
Theorem ticker_to_cik_padded ticker w w' response pre item post (z : Z) :
  is_ascii ticker = true ->
  get_request tickers_url w = (Some response, w') ->
  json_loads_tickers (text response) = Ok (pre ++ item :: post) ->
  ti_ticker item = upper ticker ->
  (forall x, x ∈ post -> ti_ticker x <> upper ticker) ->
  ti_cik_str item = JInt z -> 0 <= z ->
  exists cik,
    ticker_to_cik get_request json_loads_tickers ticker w
      = (Ok (Some cik), w')
    /\ cik = zeros (10 - String.length (digits_of z)) +:+ digits_of z
    /\ String.length cik = Nat.max 10 (String.length (digits_of z))
    /\ decimal_value cik = Some (Z.to_N z).
Proof.
  intros _ Hreq Hjson Hk Hpost Hcik Hz.
  rewrite (ticker_to_cik_run _ _ _ _ _ Hreq Hjson).
  unfold lookup_cik. rewrite <- Hk in *. rewrite ciks_of_last by done.
  rewrite Hcik. cbn [py_str]. unfold py_str_int.
  destruct (Z.ltb_spec z 0); [lia|].
  destruct (digits_of_unsigned z Hz) as (c & rest & Hd & _).
  rewrite bool_decide_eq_false_2 by (by rewrite Hd).
  eexists. split; [reflexivity|]. split; [by apply zfill_digits|].
  split; [apply zfill_length|].
  rewrite zfill_digits, decimal_value_zeros by done.
  by apply digits_of_value.
Qed.

(** The lookup ignores the case of an ASCII query: [ticker_to_cik]
    gives the same answer for a ticker, its upper case and its lower
    case, so the lower-casing of the caller in [app.py] changes
    nothing. *)
Theorem ticker_to_cik_case_insensitive (ticker : string) (w : World) :
  is_ascii ticker = true ->
  ticker_to_cik get_request json_loads_tickers (upper ticker) w
  = ticker_to_cik get_request json_loads_tickers ticker w
  /\ ticker_to_cik get_request json_loads_tickers (lower ticker) w
     = ticker_to_cik get_request json_loads_tickers ticker w
  /\ query_cik get_request json_loads_tickers ticker w
     = ticker_to_cik get_request json_loads_tickers ticker w.
Proof.
  intros _.
  assert (Hl : forall items t, lookup_cik items (lower t) = lookup_cik items t)
    by (intros; unfold lookup_cik; by rewrite upper_lower).
  assert (Hu : forall items t, lookup_cik items (upper t) = lookup_cik items t)
    by (intros; unfold lookup_cik; by rewrite upper_idem).
  unfold query_cik, ticker_to_cik, mbind, io_mbind, io_bind, do_request,
    io_lift, io_ret.
  destruct (get_request tickers_url w) as [[response|] w']; [|done].
  destruct (json_loads_tickers (text response)) as [items|e]; [|done].
  by rewrite Hl, Hu.
Qed.

End Tickers.

Lemma ticker_to_cik_unknown_witness :
  ticker_to_cik sample_get_request sample_json_loads_tickers "goog" tt
  = (Ok None, tt).
Proof.
  apply (ticker_to_cik_unknown sample_get_request sample_json_loads_tickers
           "goog" tt tt sample_response sample_tickers eq_refl eq_refl
           eq_refl).
  intros item Hin.
  repeat (apply elem_of_cons in Hin as [-> | Hin]; [discriminate|]).
  by apply elem_of_nil in Hin.
Defined.

Lemma ticker_to_cik_padded_witness :
  ticker_to_cik sample_get_request sample_json_loads_tickers "aapl" tt
  = (Ok (Some "0000320194"), tt).
Proof.
  destruct (ticker_to_cik_padded sample_get_request sample_json_loads_tickers
              "aapl" tt tt sample_response
              [mkTickerItem "AAPL" (JInt 320193);
               mkTickerItem "MSFT" (JInt 789019)]
              (mkTickerItem "AAPL" (JInt 320194)) [] 320194
              eq_refl eq_refl eq_refl eq_refl
              (fun x Hx => False_ind _ (proj1 (elem_of_nil x) Hx))
              eq_refl ltac:(by vm_compute))
    as (cik & Hrun & -> & _).
  exact Hrun.
Defined.

Lemma ticker_to_cik_case_insensitive_witness :
  query_cik sample_get_request sample_json_loads_tickers "Aapl" tt
  = ticker_to_cik sample_get_request sample_json_loads_tickers "Aapl" tt.
Proof.
  apply (ticker_to_cik_case_insensitive sample_get_request
           sample_json_loads_tickers "Aapl" tt).
  reflexivity.
Defined.

(** ** [format_value_as_readable] outside the scaled ranges *)

Lemma rne_div_zero (b : Z) : 0 < b -> rne_div 0 b = 0.
Proof.
  intros Hb. unfold rne_div. rewrite Z.div_0_l, Z.mod_0_l by lia.
  destruct (Z.ltb_spec (2 * 0) b); [done|lia].
Qed.

Lemma hundredths_zero (x : float) : f_mant x = 0 -> hundredths x = 0.
Proof.
  intros Hm. unfold hundredths, scaled_rne. rewrite Hm.
  assert (Hpow : forall k, 0 < 1 * 2 ^ k \/ k < 0).
  { intros k. destruct (Z.ltb_spec k 0); [by right|left].
    pose proof (Z.pow_pos_nonneg 2 k). lia. }
  destruct (Z.leb_spec 0 (- f_exp x)).
  - destruct (Hpow (- f_exp x)); [by apply rne_div_zero|lia].
  - simpl. by apply rne_div_zero.
Qed.

Lemma render_hundredths_whole (neg : bool) (n : Z) :
  render_hundredths neg (100 * n)
  = (if neg then "-" else EmptyString) +:+ thousands (digits_of n) +:+ ".00".
Proof.
  unfold render_hundredths.
  rewrite (Z.mul_comm 100 n), Z.div_mul, Z.mod_mul by lia.
  reflexivity.
Qed.

Lemma py_float_exact (v : Z) :
  - 2 ^ 45 < v < 2 ^ 45 ->
  exists x, py_float v = Ok x
            /\ format_2f x = render_hundredths (v <? 0) (100 * Z.abs v).
Proof.
  intros Hv. unfold py_float, py_truediv.
  destruct (Z.leb_spec 0 v) as [Hpos|Hneg].
  - destruct (round_binary64_hundredths v 1) as (x & Hx & Hm & Hh);
      [lia..|].
    exists x. split; [done|]. unfold format_2f.
    replace (hundredths x) with (100 * Z.abs v) by lia.
    destruct (Z.ltb_spec (f_mant x) 0), (Z.ltb_spec v 0); (lia || done).
  - destruct (round_binary64_hundredths (- v) 1) as (x & Hx & Hm & Hh);
      [lia..|].
    rewrite Hx. exists (float_neg x). split; [done|].
    unfold format_2f.
    assert (Hsame : hundredths (float_neg x) = hundredths x).
    { unfold hundredths, float_neg. simpl. by rewrite Z.abs_opp. }
    assert (Hval : hundredths x = 100 * Z.abs v) by lia.
    rewrite Hsame, Hval.
    assert (f_mant x <> 0).
    { intros H0. apply hundredths_zero in H0. lia. }
    simpl f_mant.
    destruct (Z.ltb_spec (- f_mant x) 0), (Z.ltb_spec v 0); (lia || done).
Qed.

Lemma round_binary64_overflow (n d : Z) :
  0 < d -> d * 2 ^ 1024 <= n -> round_binary64 n d = Raise OverflowError.
Proof.
  intros Hd Hn. unfold round_binary64.
  assert (H1024 : 0 < 2 ^ 1024) by (by apply Z.pow_pos_nonneg).
  destruct (Z.eqb_spec n 0) as [->|_]; [nia|].
  assert (He : 971 < binary64_exponent n d); [|
    by destruct (Z.ltb_spec 971 (binary64_exponent n d)); [|lia]].
  unfold binary64_exponent.
  set (e0 := Z.log2 n - Z.log2 d - 53).
  assert (He0 : 971 <= e0).
  { subst e0.
    destruct (Z.log2_spec d Hd) as [Hd1 _].
    assert (Hle : Z.log2 d + 1024 <= Z.log2 n).
    { apply Z.log2_le_pow2; [nia|].
      rewrite Z.pow_add_r by (pose proof (Z.log2_nonneg d); lia). nia. }
    lia. }
  destruct (Z.eq_dec e0 971) as [Heq|Hne]; [|destruct (_ <=? _); lia].
  rewrite Heq. unfold scaled_floor. cbn [Z.leb Z.compare].
  assert (2 ^ 53 <= n / (d * 2 ^ 971)); [|
    by destruct (Z.leb_spec (2 ^ 53) (n / (d * 2 ^ 971))); lia].
  assert (Hp : 0 < 2 ^ 971) by (by apply Z.pow_pos_nonneg).
  apply Z.div_le_lower_bound; [nia|].
  replace (2 ^ 1024) with (2 ^ 971 * 2 ^ 53) in Hn
    by (rewrite <- Z.pow_add_r by lia; reflexivity).
  nia.
Qed.

Lemma round_binary64_finite (n d : Z) :
  0 <= n -> 0 < d -> n < d * 2 ^ 1000 -> is_Ok (round_binary64 n d).
Proof.
  intros Hn Hd Hlt. unfold round_binary64.
  destruct (Z.eqb_spec n 0) as [->|Hn0]; [by eexists|].
  assert (He : binary64_exponent n d <= 948).
  { unfold binary64_exponent.
    pose proof (log2_gap n d 1000 ltac:(lia) Hd ltac:(lia) Hlt).
    destruct (2 ^ 53 <=? _); lia. }
  destruct (Z.ltb_spec 971 (binary64_exponent n d)); [lia|].
  destruct (Z.eqb_spec (binary64_exponent n d) 971); [lia|].
  by eexists.
Qed.

(** Below one thousand, negative amounts included, no scaling applies: the
    value is rendered in full with its sign after the dollar sign,
    thousands separators and two zero decimals. *)
Theorem format_value_as_readable_unscaled (v : Z) :
  - 2 ^ 45 < v < 1000 ->
  format_value_as_readable v
  = Ok ("$" +:+ (if v <? 0 then "-" else EmptyString)
          +:+ thousands (digits_of (Z.abs v)) +:+ ".00").
Proof.
  intros Hv. unfold format_value_as_readable.
  destruct (Z.leb_spec 1000000000 v); [lia|].
  destruct (Z.leb_spec 1000000 v); [lia|].
  destruct (Z.leb_spec 1000 v); [lia|].
  destruct (py_float_exact v) as (x & -> & Hx).
  { assert (1000 < 2 ^ 45) by (by vm_compute). lia. }
  cbn [mbind result_bind mret result_ret]. rewrite Hx.
  by rewrite render_hundredths_whole.
Qed.

Lemma format_value_as_readable_unscaled_witness :
  format_value_as_readable (-2500000) = Ok "$-2,500,000.00".
Proof.
  apply (format_value_as_readable_unscaled (-2500000)).
  by vm_compute.
Defined.

(** The formatter returns a string for every int of magnitude below
    [2 ^ 1000]. *)
Theorem format_value_as_readable_finite (v : Z) :
  Z.abs v < 2 ^ 1000 -> is_Ok (format_value_as_readable v).
Proof.
  intros Hv. unfold format_value_as_readable.
  assert (Hp : 0 < 2 ^ 1000) by (by apply Z.pow_pos_nonneg).
  assert (Hbind : forall d suffix, 0 < d ->
            is_Ok (x ← py_truediv v d;
                   mret ("$" +:+ format_2f x +:+ suffix) : result string)).
  { intros d suffix Hd. unfold py_truediv.
    destruct (Z.leb_spec 0 v).
    - destruct (round_binary64_finite v d) as [x ->]; [lia|done|nia|].
      by eexists.
    - destruct (round_binary64_finite (- v) d) as [x ->]; [lia|done|nia|].
      by eexists. }
  destruct (1000000000 <=? v); [by apply Hbind|].
  destruct (1000000 <=? v); [by apply Hbind|].
  destruct (1000 <=? v); [by apply Hbind|].
  specialize (Hbind 1 EmptyString ltac:(lia)).
  destruct Hbind as [s Hs]. unfold py_float.
  destruct (py_truediv v 1) as [x|e]; [by eexists|done].
Qed.

Lemma format_value_as_readable_finite_witness :
  is_Ok (format_value_as_readable (- 10 ^ 300)).
Proof.
  apply (format_value_as_readable_finite (- 10 ^ 300)).
  by vm_compute.
Defined.

(** An int too large for a float makes the formatter raise
    [OverflowError]: from [10 ^ 9 * 2 ^ 1024] up the division overflows,
    and from [- 2 ^ 1024] down the conversion does. *)
Theorem format_value_as_readable_overflow (v : Z) :
  10 ^ 9 * 2 ^ 1024 <= v \/ v <= - 2 ^ 1024 ->
  format_value_as_readable v = Raise OverflowError.
Proof.
  intros Hv. unfold format_value_as_readable.
  assert (Hp : 0 < 2 ^ 1024) by (by apply Z.pow_pos_nonneg).
  change (10 ^ 9) with 1000000000 in Hv.
  destruct Hv as [Hv|Hv].
  - destruct (Z.leb_spec 1000000000 v); [|nia].
    unfold py_truediv. destruct (Z.leb_spec 0 v); [|lia].
    by rewrite round_binary64_overflow by lia.
  - destruct (Z.leb_spec 1000000000 v); [lia|].
    destruct (Z.leb_spec 1000000 v); [lia|].
    destruct (Z.leb_spec 1000 v); [lia|].
    unfold py_float, py_truediv. destruct (Z.leb_spec 0 v); [lia|].
    by rewrite round_binary64_overflow by lia.
Qed.

Lemma format_value_as_readable_overflow_witness :
  format_value_as_readable (- 2 ^ 1024) = Raise OverflowError.
Proof.
  apply (format_value_as_readable_overflow (- 2 ^ 1024)).
  right. by vm_compute.
Defined.

(** ** The observations [get_statement_data] builds *)

Lemma digit_val_range (c : ascii) (v : Z) : digit_val c = Some v -> 0 <= v <= 9.
Proof.
  unfold digit_val. destruct (_ && _) eqn:H; [|done].
  intros [= <-]. apply andb_true_iff in H as [H1 H2]. lia.
Qed.

Lemma digit_in_range (lo hi : Z) (c : ascii) (v : Z) :
  digit_in lo hi c = Some v -> lo <= v <= hi.
Proof.
  unfold digit_in. destruct (digit_val c); [|done].
  destruct (_ && _) eqn:H; [|done].
  intros [= <-]. apply andb_true_iff in H as [H1 H2]. lia.
Qed.

Lemma alt2_range tens tens_val lo hi cs x rest :
  (x, rest) ∈ alt2 tens tens_val lo hi cs ->
  10 * tens_val + lo <= x <= 10 * tens_val + hi.
Proof.
  unfold alt2. destruct cs as [|c1 [|c2 cs]]; try by intros ?%elem_of_nil.
  destruct (decide _); [|by intros ?%elem_of_nil].
  destruct (digit_in lo hi c2) as [v|] eqn:Hv; [|by intros ?%elem_of_nil].
  intros [= -> ->]%list_elem_of_singleton.
  apply digit_in_range in Hv. lia.
Qed.

Lemma alt1_range lo hi cs x rest :
  (x, rest) ∈ alt1 lo hi cs -> lo <= x <= hi.
Proof.
  unfold alt1. destruct cs as [|c1 cs]; [by intros ?%elem_of_nil|].
  destruct (digit_in lo hi c1) as [v|] eqn:Hv; [|by intros ?%elem_of_nil].
  intros [= -> ->]%list_elem_of_singleton.
  by apply digit_in_range in Hv.
Qed.

Lemma match_m_range cs x rest : (x, rest) ∈ match_m cs -> 1 <= x <= 12.
Proof.
  unfold match_m. rewrite !elem_of_app.
  intros [H|[H|H]];
    [apply alt2_range in H..|apply alt1_range in H]; lia.
Qed.

Lemma match_d_range cs x rest : (x, rest) ∈ match_d cs -> 1 <= x <= 31.
Proof.
  unfold match_d. rewrite !elem_of_app.
  intros [H|[H|[H|[H|[H|H]]]]];
    try (apply alt2_range in H; lia); apply alt1_range in H; lia.
Qed.

Lemma first_md_range months m d rest :
  Forall (fun p => 1 <= p.1 <= 12) months ->
  first_md months = Some (m, d, rest) -> 1 <= m <= 12 /\ 1 <= d <= 31.
Proof.
  induction 1 as [|[m' after_m] months Hm _ IH]; [done|].
  cbn [first_md]. destruct (expect_dash after_m) as [after_dash|]; [|done].
  destruct (match_d after_dash) as [|[d' rest'] others] eqn:Hd; [done|].
  intros [= -> -> ->]. split; [done|].
  apply (match_d_range after_dash d rest). rewrite Hd. by left.
Qed.

Lemma match_Y_range cs y rest : match_Y cs = Some (y, rest) -> 0 <= y <= 9999.
Proof.
  unfold match_Y. destruct cs as [|a [|b [|c [|d cs]]]]; try done.
  destruct (digit_val a) as [va|] eqn:Ha; [|done].
  destruct (digit_val b) as [vb|] eqn:Hb; [|done].
  destruct (digit_val c) as [vc|] eqn:Hc; [|done].
  destruct (digit_val d) as [vd|] eqn:Hd; [|done].
  intros [= <- <-].
  apply digit_val_range in Ha, Hb, Hc, Hd. lia.
Qed.

Lemma strptime_ymd_midnight (s : string) (d : datetime) :
  strptime_ymd s = Ok d -> midnight_date d.
Proof.
  unfold strptime_ymd.
  destruct (match_Y _) as [[y after_y]|] eqn:HY; [|done].
  destruct (expect_dash after_y) as [after_dash|]; [|done].
  destruct (first_md _) as [[[m dd] rest]|] eqn:Hmd; [|done].
  destruct rest; [|done].
  destruct (_ && _) eqn:Hc; [|done].
  intros [= <-]. apply andb_true_iff in Hc as [Hy Hd].
  apply match_Y_range in HY.
  apply first_md_range in Hmd as [Hm Hdd].
  - unfold midnight_date. cbn. lia.
  - apply Forall_forall. intros [x r] Hin. by apply match_m_range in Hin.
Qed.

Lemma strptime_ymd_error (s : string) (e : exn) :
  strptime_ymd s = Raise e -> e = ValueError.
Proof.
  unfold strptime_ymd. repeat case_match; congruence.
Qed.

Lemma before_dot_no_dot (s : string) : has_char "." (before_dot s) = false.
Proof.
  induction s as [|c s IH]; [done|]. cbn [before_dot].
  destruct (decide (c = "."%char)); [done|].
  cbn [has_char]. by rewrite bool_decide_eq_false_2, IH.
Qed.

Lemma format_value_as_readable_dollar (v : Z) (s : string) :
  format_value_as_readable v = Ok s -> exists rest, s = String "$" rest.
Proof.
  unfold format_value_as_readable, py_float.
  repeat case_match;
    (destruct (py_truediv v _) as [x|]; [|done]);
    intros [= <-]; by eexists.
Qed.

Lemma unseen_app seen l1 l2 :
  unseen seen (l1 ++ l2)
  = unseen seen l1
      ++ unseen (list_to_set (fp_end_date_tuple <$> l1) ∪ seen) l2.
Proof.
  revert seen. induction l1 as [|e l1 IH]; intros seen; cbn.
  - f_equal. by rewrite (left_id_L ∅ (∪)).
  - assert (Hset : list_to_set (fp_end_date_tuple <$> l1)
                     ∪ ({[fp_end_date_tuple e]} ∪ seen)
                   =@{gset (string * string)}
                   {[fp_end_date_tuple e]}
                     ∪ list_to_set (fp_end_date_tuple <$> l1) ∪ seen).
    { rewrite (assoc_L (∪)). f_equal. apply (comm_L (∪)). }
    destruct (decide (fp_end_date_tuple e ∈ seen)) as [Hin|Hin].
    + rewrite IH. f_equal. f_equal.
      apply set_eq. intros k. rewrite !elem_of_union, elem_of_singleton.
      split; [tauto|]. intros [[->|?]|?]; tauto.
    + rewrite IH. cbn. by rewrite Hset.
Qed.

Lemma result_mapM_app_raise {A B} (f : A -> result B) l1 x l2 e :
  Forall (fun a => is_Ok (f a)) l1 -> f x = Raise e ->
  result_mapM f (l1 ++ x :: l2) = Raise e.
Proof.
  intros Hl Hx. induction Hl as [|a l1 [b Hb] _ IH]; cbn.
  - by rewrite Hx.
  - rewrite Hb. cbn. by rewrite IH.
Qed.

Lemma sorted_by_fixed {A K} (key : A -> K) (ltb : K -> K -> bool) (l : list A) :
  StronglySorted (key_le key ltb) l -> sorted_by key ltb l = l.
Proof.
  induction 1 as [|x l Hl IH Hx]; [done|].
  cbn [sorted_by]. rewrite IH.
  destruct l as [|y l]; [done|]. cbn [insert_by].
  apply Forall_cons in Hx as [Hy _]. unfold key_le in Hy. by rewrite Hy.
Qed.

Section StatementMore.
Context {World : Type}.
Variable get_request : string -> World -> option Response * World.
Variable json_loads_concept : string -> result ConceptFacts.

(** Whatever the payload, every observation of a returned list carries
    the payload's own [cik] and [tag], a real calendar date at midnight, a
    fiscal year without a dot and a value that starts with the dollar
    sign; and the list is never longer than the first unit group. *)
Theorem get_statement_data_fields cik gaap_item w w' out :
  get_statement_data get_request json_loads_concept cik gaap_item w
    = (Ok (Some out), w') ->
  exists response data name series others,
    get_request (concept_url cik gaap_item) w = (Some response, w')
    /\ ok response = true
    /\ json_loads_concept (text response) = Ok data
    /\ cf_units data = (name, series) :: others
    /\ (length out <= length series)%nat
    /\ Forall (fun o =>
                 so_cik o = cf_cik data /\ so_gaap_item o = cf_tag data
                 /\ midnight_date (so_end_date o)
                 /\ has_char "." (so_fy o) = false
                 /\ exists rest, so_value o = String "$" rest) out.
Proof.
  unfold get_statement_data, mbind, io_mbind, io_bind, do_request, io_lift,
    io_ret, io_raise.
  destruct (get_request _ w) as [[response|] w1] eqn:Hreq; [|done].
  destruct (ok response) eqn:Hok; [|done].
  destruct (json_loads_concept (text response)) as [data|] eqn:Hdata; [|done].
  destruct (statement_objects_of data) as [objs|] eqn:Hobjs; [|done].
  intros [= -> ->].
  unfold statement_objects_of, first_unit_group in Hobjs.
  destruct (cf_units data) as [|[name series] others] eqn:Hu; [done|].
  cbn in Hobjs. rewrite statement_loop_unseen in Hobjs.
  destruct (result_mapM _ _) as [objs|] eqn:Hmap; [|done].
  cbn in Hobjs. injection Hobjs as <-.
  apply result_mapM_inv in Hmap.
  exists response, data, name, series, others.
  repeat split; try done.
  - rewrite <- (Forall2_length _ _ _ Hmap).
    apply sublist_length, unseen_sublist.
  - clear -Hmap. induction Hmap as [|e o l objs Ho _ IH]; [constructor|].
    constructor; [|done].
    apply make_statement_object_fields in Ho
      as (-> & -> & _ & _ & _ & Hd & Hv & ->).
    split; [done|]. split; [done|].
    split; [by apply strptime_ymd_midnight in Hd|].
    split; [apply before_dot_no_dot|].
    by apply format_value_as_readable_dollar in Hv.
Qed.

(** One observation whose [end] is an ASCII string outside the
    [%Y-%m-%d] format, at the first occurrence of its [fp] and [end],
    makes the whole call raise [ValueError]: the observations before it
    are lost with it. *)
Theorem get_statement_data_bad_date
    cik gaap_item w w' response data name before unit after others :
  is_ascii (u_end unit) = true ->
  get_request (concept_url cik gaap_item) w = (Some response, w') ->
  ok response = true ->
  json_loads_concept (text response) = Ok data ->
  cf_units data = (name, before ++ unit :: after) :: others ->
  Forall well_formed_entry before ->
  (u_fp unit, u_end unit) ∉ (fun e => (u_fp e, u_end e)) <$> before ->
  ~ is_Ok (strptime_ymd (u_end unit)) ->
  get_statement_data get_request json_loads_concept cik gaap_item w
    = (Raise ValueError, w').
Proof.
  intros _ Hreq Hok Hdata Hu Hwf Hfresh Hbad.
  change (fp_end_date_tuple unit ∉ fp_end_date_tuple <$> before) in Hfresh.
  rewrite (get_statement_data_success _ _ _ _ _ _ _ _ Hreq Hok Hdata).
  rewrite (statement_objects_of_first _ _ _ _ Hu).
  rewrite unseen_app. cbn [unseen].
  rewrite decide_False.
  2:{ rewrite elem_of_union, elem_of_list_to_set.
      intros [?|?%not_elem_of_empty]; done. }
  rewrite (result_mapM_app_raise _ _ _ _ ValueError); [done| |].
  - apply Forall_forall. intros e He. apply well_formed_entry_Ok.
    apply (proj1 (Forall_forall _ _) Hwf).
    eapply elem_of_sublist; [exact He|apply unseen_sublist].
  - unfold make_statement_object.
    destruct (strptime_ymd (u_end unit)) as [d|e] eqn:Hd.
    + destruct Hbad. by eexists.
    + by apply strptime_ymd_error in Hd as ->.
Qed.

End StatementMore.

Lemma get_statement_data_fields_witness :
  exists out,
    get_statement_data sample_get_request sample_json_loads
      "0000320193" "Revenues" tt = (Ok (Some out), tt)
    /\ (length out <= 2)%nat
    /\ Forall (fun o => so_cik o = JInt 320193
                        /\ midnight_date (so_end_date o)) out.
Proof.
  eexists. split; [by vm_compute|].
  destruct (get_statement_data_fields sample_get_request sample_json_loads
              "0000320193" "Revenues" tt tt _ eq_refl)
    as (response & data & name & series & others
        & Hreq & _ & Hdata & Hu & Hlen & Hall).
  injection Hreq as <-. injection Hdata as <-. injection Hu as <- <- <-.
  split; [exact Hlen|].
  eapply Forall_impl; [exact Hall|]. cbn. tauto.
Defined.

Lemma get_statement_data_bad_date_witness :
  get_statement_data sample_get_request bad_date_json_loads
    "0000320193" "Revenues" tt = (Raise ValueError, tt).
Proof.
  apply (get_statement_data_bad_date sample_get_request bad_date_json_loads
           "0000320193" "Revenues" tt tt sample_response bad_date_payload
           "USD" [mkUnitEntry (JInt 2023) "FY" "2023-09-30"
                    "0000320193-23-000106" "10-K" 383285000000]
           (mkUnitEntry (JInt 2023) "Q1" "2022/12/31"
              "0000320193-23-000006" "10-Q" 117154000000) [] []
           eq_refl eq_refl eq_refl eq_refl eq_refl).
  - repeat constructor; eexists; vm_compute; reflexivity.
  - intros [= Hfp _]%list_elem_of_singleton.
  - intros [d Hd]. vm_compute in Hd. discriminate.
Defined.

(** Sorting twice is sorting once, and the number of statements is
    kept. *)
Theorem sort_statements_by_date_idempotent (statements : list StatementObject) :
  sort_statements_by_date (sort_statements_by_date statements)
  = sort_statements_by_date statements
  /\ length (sort_statements_by_date statements) = length statements.
Proof.
  unfold sort_statements_by_date. split.
  - apply sorted_by_fixed, sorted_by_sorted.
    + apply datetime_ltb_asym.
    + apply datetime_le_trans.
  - apply Permutation_length, sorted_by_perm.
Qed.

(** Statements that are already in ascending order of [end_date] are
    returned as they are, ties included. *)
Theorem sort_statements_by_date_sorted_input (statements : list StatementObject) :
  StronglySorted
    (fun a b => datetime_ltb (so_end_date b) (so_end_date a) = false)
    statements ->
  sort_statements_by_date statements = statements.
Proof. intros Hs. by apply sorted_by_fixed. Qed.

Lemma sort_statements_by_date_sorted_input_witness :
  sort_statements_by_date sample_statements = sample_statements.
Proof.
  apply (sort_statements_by_date_sorted_input sample_statements).
  repeat constructor.
Defined.

(** ** Printing the extracted facts *)

Lemma contexts_of_ids root context_ref :
  List.map ctx_id (contexts_of root context_ref)
  = replicate (length (matching_contexts root context_ref)) context_ref.
Proof.
  unfold contexts_of.
  induction (matching_contexts root context_ref) as [|ce ces IH]; [done|].
  cbn. by rewrite IH.
Qed.

Section Printing.
Variable fromstring : string -> result Element.
Variable findall_injected :
  Element -> string -> gmap string string -> result (list Element).

Lemma data_object_context root elem fact :
  data_object findall_injected root elem = Ok fact ->
  extract_context findall_injected root (context_ref fact) namespaces
    = Ok (default [] (context fact))
  /\ context fact <> None
  /\ context_ref fact = attrib_get elem "contextRef" "N/A".
Proof.
  unfold data_object.
  destruct (extract_context _ _ _ _) as [ctxs|] eqn:Hctx; [|done].
  rewrite bind_Ok. intros [= <-]. split; [exact Hctx|]. by split.
Qed.

Lemma tags_loop_elements root elems acc facts :
  tags_loop findall_injected root elems acc = Ok facts ->
  forall fact, fact ∈ facts ->
    fact ∈ acc
    \/ exists elem, elem ∈ elems /\ is_us_gaap elem = true
                    /\ data_object findall_injected root elem = Ok fact.
Proof.
  revert acc. induction elems as [|elem elems IH]; intros acc; cbn [tags_loop].
  - intros [= <-] fact Hin. by left.
  - destruct (is_us_gaap elem) eqn:Hm.
    + destruct (data_object findall_injected root elem) as [obj|] eqn:Hobj;
        [|done].
      rewrite bind_Ok. intros Hloop fact Hin.
      destruct (IH _ Hloop fact Hin) as [Hacc|(e & He & Hg & Hd)].
      * apply elem_of_app in Hacc as [Hacc| ->%list_elem_of_singleton];
          [by left|].
        right. exists elem. split; [by left|done].
      * right. exists e. split; [by right|done].
    + intros Hloop fact Hin.
      destruct (IH _ Hloop fact Hin) as [Hacc|(e & He & Hg & Hd)];
        [by left|].
      right. exists e. split; [by right|done].
Qed.

(** Every fact [extract_tags] returns can be printed, while a fact built
    with the default [context] of the dataclass cannot: [__str__] joins
    the context ids before it tests [self.context], and iterating [None]
    is a [TypeError]. *)
Theorem XMLDataObject_str_extracted :
  (forall xml_data facts,
      extract_tags fromstring findall_injected xml_data = Ok facts ->
      Forall (fun fact => exists s, XMLDataObject_str fact = Str s) facts)
  /\ (forall tag context_ref elem_id value unit_ref decimals,
        XMLDataObject_str
          (mkXMLDataObject tag context_ref elem_id value unit_ref decimals
             None)
        = StrTypeError).
Proof.
  split; [|done].
  intros xml_data facts. unfold extract_tags.
  destruct (fromstring xml_data) as [root|]; [|done].
  rewrite bind_Ok. intros Hloop. apply Forall_forall. intros fact Hin.
  destruct (tags_loop_elements _ _ _ _ Hloop fact Hin)
    as [?%elem_of_nil|(e & _ & _ & Hd)]; [done|].
  apply data_object_context in Hd as (_ & Hctx & _).
  unfold XMLDataObject_str. destruct (context fact); [by eexists|done].
Qed.

(** The ids a printed fact shows are its own [contextRef], once for
    every [context] element of the document that carries that id; a
    fact whose reference matches no context prints [context=None]. *)
Theorem XMLDataObject_str_repeats_ref root elem fact :
  data_object findall_injected root elem = Ok fact ->
  has_apostrophe (context_ref fact) = false ->
  XMLDataObject_str fact
  = Str ("XMLDataObject(tag='" +:+ tag fact
         +:+ "', context_ref='" +:+ context_ref fact
         +:+ "', id='" +:+ elem_id fact
         +:+ "', value='" +:+ fmt_opt (value fact)
         +:+ "', unit_ref='" +:+ unit_ref fact
         +:+ "', decimals=" +:+ decimals fact
         +:+ ", context="
         +:+ match length (matching_contexts root (context_ref fact)) with
             | O => "None"
             | S n =>
                 "Context(id='"
                 +:+ join ", " (replicate (S n) (context_ref fact)) +:+ "')"
             end
         +:+ ")" +:+ newline).
Proof.
  intros Hd Hq. apply data_object_context in Hd as (Hctx & Hsome & _).
  rewrite extract_context_resolves in Hctx by done.
  unfold XMLDataObject_str.
  destruct (context fact) as [ctxs|]; [|done].
  cbn in Hctx. injection Hctx as <-.
  rewrite contexts_of_ids. unfold contexts_of.
  by destruct (matching_contexts root (context_ref fact)).
Qed.

End Printing.

Lemma XMLDataObject_str_extracted_witness :
  exists s, XMLDataObject_str (fact_of sample_root sample_fact) = Str s.
Proof.
  pose proof (proj1 (XMLDataObject_str_extracted sample_fromstring
                       rejecting_engine)
                "statement document" [fact_of sample_root sample_fact]) as H.
  assert (Hrun : extract_tags sample_fromstring rejecting_engine
                   "statement document"
                 = Ok [fact_of sample_root sample_fact])
    by (vm_compute; reflexivity).
  exact (Forall_inv (H Hrun)).
Defined.

Lemma XMLDataObject_str_repeats_ref_witness :
  exists tail,
    XMLDataObject_str (fact_of sample_root sample_fact)
    = Str ("XMLDataObject(tag='" +:+ tail).
Proof.
  eexists.
  apply (XMLDataObject_str_repeats_ref rejecting_engine sample_root
           sample_fact (fact_of sample_root sample_fact)).
  - vm_compute. reflexivity.
  - vm_compute. reflexivity.
Defined.

(** ** [get_unique_tags] and [get_all_unique_tags] *)

Lemma get_unique_tags_elem_of (filing : Filing) (t : string) :
  t ∈ get_unique_tags filing
  <-> exists facts fact,
        xml_data filing = Some facts /\ fact ∈ facts /\ tag fact = t.
Proof.
  unfold get_unique_tags, no_xml_data.
  destruct (xml_data filing) as [[|fact facts]|]; cbn [default].
  - split; [by intros ?%not_elem_of_empty|].
    by intros (fs & f & [= <-] & ?%elem_of_nil & _).
  - rewrite elem_of_list_to_set, list_elem_of_In, in_map_iff. split.
    + intros (f & Ht & Hin). exists (fact :: facts), f.
      by rewrite list_elem_of_In.
    + intros (fs & f & [= <-] & Hin & Ht). exists f.
      by rewrite <- list_elem_of_In.
  - split; [by intros ?%not_elem_of_empty|].
    by intros (fs & f & [=] & _).
Qed.

Lemma unique_tags_loop_union (filings : list Filing) (acc : gset string) :
  unique_tags_loop filings acc
  = acc ∪ ⋃ (get_unique_tags <$> filings).
Proof.
  revert acc. induction filings as [|filing filings IH]; intros acc.
  - rewrite fmap_nil, union_list_nil. cbn [unique_tags_loop].
    by rewrite (right_id_L ∅ (∪)).
  - rewrite fmap_cons, union_list_cons. cbn [unique_tags_loop].
    destruct (no_xml_data filing) eqn:Hno; rewrite IH.
    + assert (get_unique_tags filing = ∅) as ->
        by (unfold get_unique_tags; by rewrite Hno).
      by rewrite (left_id_L ∅ (∪)).
    + by rewrite (assoc_L (∪)).
Qed.

(** [get_all_unique_tags] lists, without repetition, exactly the tags of
    the facts attached to the filings: a filing without facts ([None] or
    an empty list) contributes nothing. *)
Theorem get_all_unique_tags_exact (filings : list Filing) :
  NoDup (get_all_unique_tags filings)
  /\ forall t,
       t ∈ get_all_unique_tags filings
       <-> exists filing facts fact,
             filing ∈ filings /\ xml_data filing = Some facts
             /\ fact ∈ facts /\ tag fact = t.
Proof.
  unfold get_all_unique_tags. split; [apply NoDup_elements|].
  intros t. rewrite elem_of_elements, unique_tags_loop_union.
  rewrite (left_id_L ∅ (∪)), elem_of_union_list. split.
  - intros (X & (filing & -> & Hin)%list_elem_of_fmap & Ht).
    apply get_unique_tags_elem_of in Ht as (facts & fact & ? & ? & ?).
    by exists filing, facts, fact.
  - intros (filing & facts & fact & Hin & Hx & Hf & Ht).
    exists (get_unique_tags filing). split.
    + apply list_elem_of_fmap. by exists filing.
    + apply get_unique_tags_elem_of. by exists facts, fact.
Qed.

Lemma get_all_unique_tags_exact_witness :
  "Assets" ∈ get_all_unique_tags sample_augmented_filings.
Proof.
  apply (proj2 (get_all_unique_tags_exact sample_augmented_filings)).
  eexists _, _, (fact_of sample_root sample_fact).
  split; [by left|]. split; [reflexivity|]. split; [by left|reflexivity].
Defined.

(** The tags of a concatenation are those of its parts, and the order
    of the filings only permutes the result. *)
Theorem get_all_unique_tags_app (filings more : list Filing) :
  Permutation (get_all_unique_tags (filings ++ more))
              (get_all_unique_tags (more ++ filings))
  /\ forall t,
       t ∈ get_all_unique_tags (filings ++ more)
       <-> t ∈ get_all_unique_tags filings \/ t ∈ get_all_unique_tags more.
Proof.
  unfold get_all_unique_tags. rewrite !unique_tags_loop_union.
  rewrite !(left_id_L ∅ (∪)), !fmap_app, !union_list_app_L. split.
  - by rewrite (comm_L (∪)).
  - intros t. by rewrite !elem_of_elements, elem_of_union.
Qed.

Lemma get_all_unique_tags_app_witness :
  "Assets" ∈ get_all_unique_tags (sample_filings ++ sample_augmented_filings).
Proof.
  apply (proj2 (get_all_unique_tags_app sample_filings
                  sample_augmented_filings) "Assets").
  right. apply list_elem_of_In. vm_compute. by left.
Defined.

(** ** [find_xml_link] and [get_xml] on failures *)

Lemma contains_slash (s : string) : contains "/" s = has_char "/" s.
Proof.
  induction s as [|c s IH]; [done|].
  cbn [contains has_char String.prefix]. rewrite IH.
  destruct (ascii_dec "/" c) as [<-|Hc].
  - by destruct s.
  - rewrite bool_decide_eq_false_2 by congruence. done.
Qed.

Lemma after_last_slash_no_slash (s : string) :
  has_char "/" (after_last_slash s) = false.
Proof.
  induction s as [|c s IH]; [done|]. cbn [after_last_slash].
  destruct (contains "/" s) eqn:Hs; [done|].
  rewrite contains_slash in Hs.
  destruct (decide (c = "/"%char)) as [->|Hc]; [done|].
  cbn [has_char]. by rewrite bool_decide_eq_false_2, Hs.
Qed.

Lemma first_xml_href_no_slash hrefs name :
  first_xml_href hrefs = Some name -> has_char "/" name = false.
Proof.
  induction hrefs as [|[href|] hrefs IH]; cbn [first_xml_href]; [done| |done].
  destruct (_ && _); [|done].
  intros [= <-]. apply after_last_slash_no_slash.
Qed.

Lemma first_xml_href_none hrefs :
  Forall (fun href => match href with
                      | Some h => endswith h "_htm.xml" = false
                      | None => True
                      end) hrefs ->
  first_xml_href hrefs = None.
Proof.
  induction 1 as [|[h|] hrefs Hh _ IH]; cbn [first_xml_href]; [done| |done].
  by rewrite Hh, andb_false_r.
Qed.

Lemma same_header_refl (a : Filing) : same_header a a.
Proof. by repeat split. Qed.

Lemma same_header_set_xml_data data (a b : Filing) :
  same_header a b -> same_header a (set_xml_data data b).
Proof. by intros H. Qed.

Section AugmentationMore.
Context {World : Type}.
Variable get_request : string -> World -> option Response * World.
Variable fromstring : string -> result Element.
Variable findall_injected :
  Element -> string -> gmap string string -> result (list Element).
Variable soup_table_hrefs : string -> option (list (option string)).

Abbreviation fetch' :=
  (fetch_facts get_request fromstring findall_injected soup_table_hrefs).
Abbreviation loop' :=
  (xml_loop get_request fromstring findall_injected soup_table_hrefs).

(** The name [find_xml_link] returns is never a path: it holds no slash,
    so the URL [get_xml] builds from it stays in the folder of the
    filing. *)
Theorem find_xml_link_file_name (html_content : option Response) (name : string) :
  find_xml_link soup_table_hrefs html_content = Ok (Some name) ->
  has_char "/" name = false
  /\ (name = "tbody tag not found"
      \/ exists page hrefs,
           html_content = Some page
           /\ soup_table_hrefs (text page) = Some hrefs
           /\ first_xml_href hrefs = Some name).
Proof.
  unfold find_xml_link. destruct html_content as [page|]; [|done].
  destruct (soup_table_hrefs (text page)) as [hrefs|] eqn:Hs.
  - intros [= Hn]. split; [by eapply first_xml_href_no_slash|].
    right. by exists page, hrefs.
  - intros [= <-]. split; [done|by left].
Qed.

(** When the index page of a filing holds no table, or a table without
    a link that ends in [_htm.xml], the facts are still requested: from
    the URL that ends in the sentinel [tbody tag not found] in the first
    case and in [None] in the second, and whatever that request returns
    goes to [extract_tags]. *)
Theorem fetch_facts_missing_link (item : Filing) (w w1 : World)
    (page : Response) (name : string) :
  get_request (index_url item) w = (Some page, w1) ->
  (soup_table_hrefs (text page) = None /\ name = "tbody tag not found")
  \/ (exists hrefs,
        soup_table_hrefs (text page) = Some hrefs
        /\ Forall (fun href => match href with
                               | Some h => endswith h "_htm.xml" = false
                               | None => True
                               end) hrefs
        /\ name = "None") ->
  fetch' item w
  = match get_request (index_url item +:+ "/" +:+ name) w1 with
    | (Some xml_response, w2) =>
        (extract_tags fromstring findall_injected (content xml_response), w2)
    | (None, w2) => (Raise AttributeError, w2)
    end.
Proof.
  intros Hreq Hname.
  unfold fetch_facts, mbind, io_mbind, io_bind, do_request, io_lift, io_raise.
  rewrite Hreq. cbn [find_xml_link].
  assert (Hlink : match soup_table_hrefs (text page) with
                  | Some hrefs => Ok (first_xml_href hrefs)
                  | None => Ok (Some "tbody tag not found")
                  end = Ok (if decide (name = "None") then None
                            else Some name)).
  { destruct Hname as [[-> ->]|(hrefs & -> & Hall & ->)]; [done|].
    by rewrite first_xml_href_none. }
  rewrite Hlink.
  assert (Hurl : xml_url item (if decide (name = "None") then None
                               else Some name)
                 = index_url item +:+ "/" +:+ name).
  { unfold xml_url. by destruct (decide (name = "None")) as [->|]. }
  rewrite Hurl.
  by destruct (get_request _ w1) as [[xml_response|] w2].
Qed.

Lemma xml_loop_skip limit pre rest index count updated w :
  Forall (fun item => is_report_form item = false) pre ->
  loop' limit (pre ++ rest) index count updated w
  = loop' limit rest (index + length pre) count updated w.
Proof.
  intros Hpre. revert index.
  induction Hpre as [|item pre Hitem _ IH]; intros index.
  - by rewrite Nat.add_0_r.
  - cbn [app xml_loop length]. rewrite Hitem. cbn [andb].
    rewrite IH. f_equal. lia.
Qed.

Lemma xml_loop_idle limit items index count updated w :
  Forall (fun item => is_report_form item = false) items \/ limit <= count ->
  loop' limit items index count updated w = ((updated, None), w).
Proof.
  intros Hidle. revert index.
  induction items as [|item items IH]; intros index; [done|].
  cbn [xml_loop].
  assert (is_report_form item && (count <? limit) = false) as ->.
  { destruct Hidle as [Hall|Hle].
    - by rewrite (Forall_inv Hall).
    - destruct (Z.ltb_spec count limit); [lia|apply andb_false_r]. }
  apply IH. destruct Hidle as [Hall|Hle]; [left|by right].
  by apply Forall_inv_tail in Hall.
Qed.

Lemma xml_loop_headers limit items :
  forall index count updated w filings,
    Forall2 same_header filings updated ->
    Forall2 same_header filings
      (loop' limit items index count updated w).1.1
    /\ forall j,
         (forall k item, j = (index + k)%nat -> items !! k = Some item ->
                         is_report_form item = false) ->
         (loop' limit items index count updated w).1.1 !! j = updated !! j.
Proof.
  induction items as [|item items IH];
    intros index count updated w filings Hbase; [done|].
  cbn [xml_loop].
  destruct (is_report_form item && (count <? limit)) eqn:Hsel.
  - destruct (fetch' item w) as [[data|e] w1]; [|done].
    destruct (IH (S index) (count + 1)
                (alter (set_xml_data data) index updated) w1 filings)
      as [Hh Hpos].
    { apply Forall2_alter_r; [done|].
      intros x y _ _. apply same_header_set_xml_data. }
    split; [done|]. intros j Hj.
    rewrite Hpos.
    + apply list_lookup_alter_ne. intros ->.
      apply andb_true_iff in Hsel as [Hr _].
      specialize (Hj 0%nat item ltac:(lia) eq_refl). congruence.
    + intros k x -> Hx. apply (Hj (S k) x); [lia|done].
  - destruct (IH (S index) count updated w filings Hbase) as [Hh Hpos].
    split; [done|]. intros j Hj. apply Hpos.
    intros k x -> Hx. apply (Hj (S k) x); [lia|done].
Qed.

(** Whatever the requests return, [get_xml] changes nothing but the
    facts: in every outcome, an exception included, the list that comes
    back has the filings of the input, position by position, with every
    field other than [xml_data] as it was, and a filing that is not a
    10-Q or 10-K is left untouched. *)
Theorem get_xml_keeps_headers (filings : list Filing) (limit : option Z)
    (w : World) :
  let outcome :=
    get_xml get_request fromstring findall_injected soup_table_hrefs
      filings limit w in
  Forall2 same_header filings outcome.1.1
  /\ length outcome.1.1 = length filings
  /\ forall i item,
       filings !! i = Some item -> is_report_form item = false ->
       outcome.1.1 !! i = Some item.
Proof.
  cbn zeta. unfold get_xml.
  set (lim := if falsy_limit limit then _ else _).
  destruct (xml_loop_headers lim filings 0 0 filings w filings) as [Hh Hpos].
  { apply Forall2_same_length_lookup. split; [done|].
    intros i x y Hx Hy. replace y with x by congruence.
    apply same_header_refl. }
  split; [done|]. split; [symmetry; by eapply Forall2_length|].
  intros i item Hi Hr. rewrite Hpos; [done|].
  intros k x -> Hx. cbn in Hi. congruence.
Qed.

(** Without a report filing in the list, or with a negative limit,
    [get_xml] performs no request at all: the filings come back as they
    were and the world is the one it started in. *)
Theorem get_xml_no_request (filings : list Filing) (limit : option Z)
    (w : World) :
  Forall (fun item => is_report_form item = false) filings
  \/ (exists n, limit = Some n /\ n < 0) ->
  get_xml get_request fromstring findall_injected soup_table_hrefs
    filings limit w = ((filings, None), w).
Proof.
  intros Hidle. unfold get_xml. apply xml_loop_idle.
  destruct Hidle as [Hall|(n & -> & Hn)]; [by left|right].
  cbn [falsy_limit]. destruct (Z.eqb_spec n 0); [lia|]. cbn. lia.
Qed.

(** The first report filing whose facts cannot be fetched ends the
    augmentation with the exception of the fetch: when it is the first
    report filing of the list, the filings come back unchanged and none
    of the later filings is requested. *)
Theorem get_xml_first_failure
    (others : list Filing) (item : Filing) (later : list Filing)
    (limit : option Z) (w w' : World) (e : exn) :
  Forall (fun other => is_report_form other = false) others ->
  is_report_form item = true ->
  falsy_limit limit = true \/ 0 < default 0 limit ->
  fetch' item w = (Raise e, w') ->
  get_xml get_request fromstring findall_injected soup_table_hrefs
    (others ++ item :: later) limit w
  = ((others ++ item :: later, Some e), w').
Proof.
  intros Hothers Hitem Hlimit Hfetch. unfold get_xml.
  rewrite xml_loop_skip by done. cbn [xml_loop].
  rewrite Hitem, Hfetch. cbn [andb].
  set (lim := if falsy_limit limit then _ else _).
  assert (0 < lim) as Hpos.
  { subst lim. destruct Hlimit as [Hf|Hl].
    - rewrite Hf. lia.
    - destruct (falsy_limit limit); lia. }
  by destruct (Z.ltb_spec 0 lim); [|lia].
Qed.

End AugmentationMore.

Lemma find_xml_link_file_name_witness :
  find_xml_link sample_soup_table_hrefs (Some sample_response)
    = Ok (Some "aapl-20230930_htm.xml")
  /\ has_char "/" "aapl-20230930_htm.xml" = false.
Proof.
  split; [reflexivity|].
  apply (find_xml_link_file_name sample_soup_table_hrefs
           (Some sample_response) "aapl-20230930_htm.xml" eq_refl).
Defined.

Lemma fetch_facts_missing_link_witness :
  (fetch_facts recording_get_request sample_fromstring rejecting_engine
     no_table sample_document_filing []).2
  = [ "https://www.sec.gov/Archives/edgar/data/0000320193/000032019323000106";
      "https://www.sec.gov/Archives/edgar/data/0000320193/000032019323000106/tbody tag not found" ]
  /\ (fetch_facts recording_get_request sample_fromstring rejecting_engine
        no_links sample_document_filing []).2
     = [ "https://www.sec.gov/Archives/edgar/data/0000320193/000032019323000106";
         "https://www.sec.gov/Archives/edgar/data/0000320193/000032019323000106/None" ].
Proof.
  split.
  - rewrite (fetch_facts_missing_link recording_get_request sample_fromstring
               rejecting_engine no_table sample_document_filing [] _
               sample_response "tbody tag not found" eq_refl).
    + reflexivity.
    + left. by split.
  - rewrite (fetch_facts_missing_link recording_get_request sample_fromstring
               rejecting_engine no_links sample_document_filing [] _
               sample_response "None" eq_refl).
    + reflexivity.
    + right. eexists. split; [reflexivity|]. split; [|reflexivity].
      by repeat constructor.
Defined.

Lemma get_xml_no_request_witness :
  get_xml offline_get_request sample_fromstring rejecting_engine
    sample_soup_table_hrefs sample_filings (Some (-1)) []
  = ((sample_filings, None), []).
Proof.
  apply (get_xml_no_request offline_get_request sample_fromstring
           rejecting_engine sample_soup_table_hrefs sample_filings
           (Some (-1)) []).
  right. exists (-1). split; [reflexivity|lia].
Defined.

Lemma get_xml_first_failure_witness :
  get_xml offline_get_request sample_fromstring rejecting_engine
    sample_soup_table_hrefs sample_augmented_filings None []
  = ((sample_augmented_filings, Some AttributeError),
     [ "https://www.sec.gov/Archives/edgar/data/0000320193/000032019323000106" ]).
Proof.
  apply (get_xml_first_failure offline_get_request sample_fromstring
           rejecting_engine sample_soup_table_hrefs []).
  - constructor.
  - reflexivity.
  - by left.
  - reflexivity.
Defined.

Lemma get_xml_keeps_headers_witness :
  (get_xml offline_get_request sample_fromstring rejecting_engine
     sample_soup_table_hrefs sample_filings None []).1.1 !! 1%nat
  = sample_filings !! 1%nat.
Proof.
  apply (proj2 (proj2 (get_xml_keeps_headers offline_get_request
                         sample_fromstring rejecting_engine
                         sample_soup_table_hrefs sample_filings None [])));
    reflexivity.
Defined.

(** ** Printing a statement *)

Lemma match_Y_rest a b c d y rest :
  match_Y [a; b; c; d] = Some (y, []) ->
  match_Y (a :: b :: c :: d :: rest) = Some (y, rest).
Proof.
  unfold match_Y.
  destruct (digit_val a), (digit_val b), (digit_val c), (digit_val d);
    try done.
  by intros [= <-].
Qed.

Lemma pad_year (y : Z) :
  1 <= y <= 9999 ->
  exists a b c d,
    pad 4 y = String a (String b (String c (String d EmptyString)))
    /\ match_Y [a; b; c; d] = Some (y, []).
Proof.
  intros Hy.
  assert (Hall :
    forallb (fun y =>
               match pad 4 y with
               | String a (String b (String c (String d EmptyString))) =>
                   match match_Y [a; b; c; d] with
                   | Some (v, []) => v =? y
                   | _ => false
                   end
               | _ => false
               end) (seqZ 1 9999) = true) by (vm_compute; reflexivity).
  rewrite forallb_forall in Hall. specialize (Hall y).
  destruct (pad 4 y) as [|a [|b [|c [|d [|]]]]];
    try (discriminate Hall; apply list_elem_of_In, elem_of_seqZ; lia).
  exists a, b, c, d. split; [done|].
  destruct (match_Y [a; b; c; d]) as [[v [|]]|];
    try (discriminate Hall; apply list_elem_of_In, elem_of_seqZ; lia).
  f_equal. f_equal. apply Z.eqb_eq, Hall, list_elem_of_In, elem_of_seqZ. lia.
Qed.

Lemma pad_month_day (m d : Z) :
  1 <= m <= 12 -> 1 <= d <= 31 ->
  first_md (match_m (list_ascii_of_string (pad 2 m +:+ "-" +:+ pad 2 d)))
    = Some (m, d, [])
  /\ String.length (pad 2 m +:+ "-" +:+ pad 2 d) = 5%nat.
Proof.
  intros Hm Hd.
  assert (Hall :
    forallb (fun m =>
      forallb (fun d =>
        match first_md (match_m (list_ascii_of_string
                                   (pad 2 m +:+ "-" +:+ pad 2 d))) with
        | Some (m', d', []) =>
            (m' =? m) && (d' =? d)
            && (String.length (pad 2 m +:+ "-" +:+ pad 2 d) =? 5)%nat
        | _ => false
        end) (seqZ 1 31)) (seqZ 1 12) = true) by (vm_compute; reflexivity).
  rewrite forallb_forall in Hall.
  specialize (Hall m ltac:(apply list_elem_of_In, elem_of_seqZ; lia)).
  rewrite forallb_forall in Hall.
  specialize (Hall d ltac:(apply list_elem_of_In, elem_of_seqZ; lia)).
  destruct (first_md _) as [[[m' d'] [|]]|]; try discriminate Hall.
  apply andb_true_iff in Hall as [[Hm'%Z.eqb_eq Hd'%Z.eqb_eq]%andb_true_iff
                                    Hlen%Nat.eqb_eq].
  by subst.
Qed.

Lemma date_str_round_trip (d : datetime) :
  midnight_date d ->
  strptime_ymd (date_str d) = Ok d
  /\ String.length (date_str d) = 10%nat
  /\ datetime_str d = date_str d +:+ " 00:00:00".
Proof.
  destruct d as [y m dd h mi s us].
  intros (Hy & Hm & Hd & Hh & Hmi & Hs & Hus). cbn in *. subst.
  assert (Hd31 : 1 <= dd <= 31).
  { unfold days_in_month in Hd. repeat case_match; lia. }
  destruct (pad_year y Hy) as (a & b & c & e & Hpad & HY).
  destruct (pad_month_day m dd Hm Hd31) as [Hmd Hlen].
  unfold date_str, datetime_str, date_str. cbn [year month day hour minute
    second microsecond]. rewrite Hpad.
  split; [|split].
  - unfold strptime_ymd.
    change (list_ascii_of_string
              (String a (String b (String c (String e EmptyString)))
                 +:+ "-" +:+ pad 2 m +:+ "-" +:+ pad 2 dd))
      with (a :: b :: c :: e :: "-"%char
              :: list_ascii_of_string (pad 2 m +:+ "-" +:+ pad 2 dd)).
    rewrite (match_Y_rest _ _ _ _ _ _ HY). cbn [expect_dash].
    rewrite decide_True by done. rewrite Hmd.
    destruct (Z.leb_spec 1 y); [|lia].
    destruct (Z.leb_spec dd (days_in_month y m)); [done|lia].
  - change (String.length
              (String a (String b (String c (String e EmptyString)))
                 +:+ "-" +:+ pad 2 m +:+ "-" +:+ pad 2 dd))
      with (S (S (S (S (S (String.length
                             (pad 2 m +:+ "-" +:+ pad 2 dd))))))).
    by rewrite Hlen.
  - reflexivity.
Qed.

(** A statement built by [get_statement_data] prints as three lines:
    its period, its value after the dollar sign, and its end date as
    ten characters followed by the time [00:00:00]; reading the ten
    characters back with the format [%Y-%m-%d] gives the end date
    again. *)
Theorem StatementObject_str_round_trip
    (data : ConceptFacts) (unit : UnitEntry) (statement : StatementObject) :
  make_statement_object data unit = Ok statement ->
  exists amount,
    StatementObject_str statement
    = "fp: " +:+ u_fp unit +:+ newline
        +:+ "value: " +:+ String "$" amount +:+ newline
        +:+ "end_date: " +:+ (date_str (so_end_date statement)
                              +:+ " 00:00:00") +:+ newline
    /\ String.length (date_str (so_end_date statement)) = 10%nat
    /\ strptime_ymd (date_str (so_end_date statement))
       = Ok (so_end_date statement).
Proof.
  intros Hmake.
  apply make_statement_object_fields in Hmake
    as (_ & _ & _ & _ & Hfp & Hdate & Hvalue & _).
  apply strptime_ymd_midnight in Hdate.
  apply format_value_as_readable_dollar in Hvalue as [amount Hamount].
  destruct (date_str_round_trip _ Hdate) as (Hparse & Hlen & Hstr).
  exists amount. unfold StatementObject_str.
  by rewrite Hfp, Hamount, Hstr.
Qed.

Lemma StatementObject_str_round_trip_witness :
  exists statement,
    make_statement_object scenario_payload
      (mkUnitEntry (JInt 2023) "FY" "2023-09-30" "0000320193-23-000106"
         "10-K" 383285000000) = Ok statement
    /\ strptime_ymd (date_str (so_end_date statement))
       = Ok (so_end_date statement).
Proof.
  eexists. split; [vm_compute; reflexivity|].
  destruct (StatementObject_str_round_trip scenario_payload
              (mkUnitEntry (JInt 2023) "FY" "2023-09-30"
                 "0000320193-23-000106" "10-K" 383285000000) _ eq_refl)
    as (amount & _ & _ & Hparse).
  exact Hparse.
Defined.
